(** * VoiceRecTool: the number-word normaliser and the digit highlighter

    A shallow embedding of [replace_number_words] and [highlight_numbers]
    of [speech_to_numbers.py], together with the pieces of the Python
    runtime they rest on: [str] methods, the [re] patterns the two
    functions use, and [w2n.word_to_num] of the word2number package.

    Python strings are modelled as [string] over the code points 0..255
    (one [ascii] per code point, classified as CPython classifies the
    Latin-1 range). *)

From Stdlib Require Import ZArith NArith List Bool Lia Arith.
From Stdlib Require Import Strings.String Strings.Ascii.
From Stdlib Require Import Numbers.DecimalString Numbers.DecimalZ Numbers.DecimalPos.
From Stdlib Require Import Floats.SpecFloat.
Import ListNotations.

Open Scope string_scope.
Open Scope list_scope.

(** ** Python results *)

(** The exceptions that can travel through [replace_number_words]. *)
Inductive exn : Set :=
| ValueError
| IndexError
| TypeError.

Inductive pyres (A : Type) : Type :=
| Returns (a : A)
| Raises (e : exn).
Arguments Returns {A} a.
Arguments Raises {A} e.

Definition bind {A B : Type} (m : pyres A) (k : A -> pyres B) : pyres B :=
  match m with
  | Returns a => k a
  | Raises e => Raises e
  end.

Notation "x <- m ;; k" := (bind m (fun x => k))
  (at level 61, m at next level, right associativity).

(** ** Strings *)

Module PyStr.

Definition code (c : ascii) : N := N_of_ascii c.

Definition between (lo hi : N) (c : ascii) : bool :=
  (lo <=? code c)%N && (code c <=? hi)%N.

Definition is_code (n : N) (c : ascii) : bool := (code c =? n)%N.

(** [\d] of a str pattern and the digits [int()] accepts: category Nd. *)
Definition isdecimal_char (c : ascii) : bool := between 48 57 c.

(** [str.isdigit] on one character: Nd, and the superscripts 2, 3, 1. *)
Definition isdigit_char (c : ascii) : bool :=
  isdecimal_char c || is_code 178 c || is_code 179 c || is_code 185 c.

Definition isalpha_char (c : ascii) : bool :=
  between 65 90 c || between 97 122 c
  || is_code 170 c || is_code 181 c || is_code 186 c
  || between 192 214 c || between 216 246 c || between 248 255 c.

(** [str.isalnum] on one character: letters, digits and the vulgar
    fractions 1/4, 1/2, 3/4 (numeric). *)
Definition isalnum_char (c : ascii) : bool :=
  isalpha_char c || isdigit_char c || between 188 190 c.

(** [\w] of a str pattern: alphanumeric or underscore. *)
Definition is_word (c : ascii) : bool := isalnum_char c || is_code 95 c.

(** [\s] of a str pattern, and [str.isspace] on one character. *)
Definition is_space (c : ascii) : bool :=
  between 9 13 c || between 28 32 c || is_code 133 c || is_code 160 c.

Definition lower_char (c : ascii) : ascii :=
  if between 65 90 c || between 192 214 c || between 216 222 c
  then ascii_of_N (code c + 32) else c.

Fixpoint map (f : ascii -> ascii) (s : string) : string :=
  match s with
  | EmptyString => EmptyString
  | String c s' => String (f c) (map f s')
  end.

Fixpoint forallb (p : ascii -> bool) (s : string) : bool :=
  match s with
  | EmptyString => true
  | String c s' => p c && forallb p s'
  end.

Fixpoint take (n : nat) (s : string) : string :=
  match n, s with
  | S n', String c s' => String c (take n' s')
  | _, _ => EmptyString
  end.

Fixpoint drop (n : nat) (s : string) : string :=
  match n, s with
  | S n', String _ s' => drop n' s'
  | _, _ => s
  end.

(** [s.lower()] *)
Definition lower (s : string) : string := map lower_char s.

(** [s.replace('-', ' ')] *)
Definition replace_dash (s : string) : string :=
  map (fun c => if is_code 45 c then " "%char else c) s.

(** [s.isdigit()]: non-empty and every character a digit. *)
Definition isdigit (s : string) : bool :=
  match s with
  | EmptyString => false
  | _ => forallb isdigit_char s
  end.

(** [sep.join(parts)] *)
Fixpoint join (sep : string) (parts : list string) : string :=
  match parts with
  | [] => EmptyString
  | [p] => p
  | p :: rest => (p ++ sep ++ join sep rest)%string
  end.

Fixpoint lstrip (s : string) : string :=
  match s with
  | String c s' => if is_space c then lstrip s' else s
  | EmptyString => EmptyString
  end.

Fixpoint rstrip (s : string) : string :=
  match s with
  | EmptyString => EmptyString
  | String c s' =>
      match rstrip s' with
      | EmptyString => if is_space c then EmptyString else String c EmptyString
      | r => String c r
      end
  end.

(** [s.strip()] *)
Definition strip (s : string) : string := rstrip (lstrip s).

(** [s.split()]: the maximal runs of non-whitespace characters.  [cur]
    holds the run being read. *)
Fixpoint split_aux (cur : string) (s : string) : list string :=
  match s with
  | EmptyString =>
      match cur with
      | EmptyString => []
      | _ => [cur]
      end
  | String c s' =>
      if is_space c
      then match cur with
           | EmptyString => split_aux EmptyString s'
           | _ => cur :: split_aux EmptyString s'
           end
      else split_aux (cur ++ String c EmptyString)%string s'
  end.

Definition split (s : string) : list string := split_aux EmptyString s.

(** [str(n)] for an int. *)
Definition str_int (n : Z) : string := NilZero.string_of_int (Z.to_int n).

(** [sys.get_int_max_str_digits()]: the most digits CPython converts
    between an int and its decimal string, 4300 unless the interpreter
    is started otherwise. *)
Definition int_max_str_digits : Z := 4300.

Definition within_digit_limit (digits : string) : bool :=
  (Z.of_nat (String.length digits) <=? int_max_str_digits)%Z.

(** [int(s)] for a string without sign, blank or underscore, as one on
    which [isdigit] holds is: the empty string, a character outside 0..9
    and more digits than [int_max_str_digits], leading zeros counted,
    make it raise ValueError. *)
Definition int_of_digits (s : string) : pyres Z :=
  if negb (String.eqb s "") && forallb isdecimal_char s && within_digit_limit s
  then match NilEmpty.uint_of_string s with
       | Some d => Returns (Z.of_uint d)
       | None => Raises ValueError
       end
  else Raises ValueError.

(** [l[a:b]] for indices [0 <= a], [0 <= b]. *)
Definition slice {A : Type} (l : list A) (a b : nat) : list A :=
  firstn (b - a) (skipn a l).

End PyStr.

(** ** The fragment of [re] the program uses *)

Module Re.

Inductive regex : Type :=
| Class (p : ascii -> bool)          (* one character of a class *)
| Plus (p : ascii -> bool)           (* class+, greedy *)
| Alt (r1 r2 : regex)                (* r1|r2 *)
| Seq (r1 r2 : regex)                (* r1r2 *)
| WordBoundary.                      (* \b *)

(** Length of the longest prefix of [s] inside the class. *)
Fixpoint run (p : ascii -> bool) (s : string) : nat :=
  match s with
  | String c s' => if p c then S (run p s') else 0
  | EmptyString => 0
  end.

(** [k; k-1; ...; 1] *)
Fixpoint countdown (k : nat) : list nat :=
  match k with
  | 0 => []
  | S k' => k :: countdown k'
  end.

Definition word_at (oc : option ascii) : bool :=
  match oc with
  | Some c => PyStr.is_word c
  | None => false
  end.

Definition head (s : string) : option ascii :=
  match s with
  | String c _ => Some c
  | EmptyString => None
  end.

(** The character before position [n] of [s], [prev] being the one
    before [s]. *)
Fixpoint before (prev : option ascii) (n : nat) (s : string) : option ascii :=
  match n, s with
  | S n', String c s' => before (Some c) n' s'
  | _, _ => prev
  end.

(** The lengths of the matches of [r] at the start of [s], in the order
    in which the backtracking matcher finds them.  [prev] is the
    character before [s] in the subject, if any. *)
Fixpoint matches (r : regex) (prev : option ascii) (s : string) : list nat :=
  match r with
  | Class p =>
      match s with
      | String c _ => if p c then [1] else []
      | EmptyString => []
      end
  | Plus p => countdown (run p s)
  | Alt r1 r2 => matches r1 prev s ++ matches r2 prev s
  | Seq r1 r2 =>
      flat_map
        (fun n1 =>
           List.map (fun n2 => n1 + n2)
             (matches r2 (before prev n1 s) (PyStr.drop n1 s)))
        (matches r1 prev s)
  | WordBoundary =>
      if xorb (word_at prev) (word_at (head s)) then [0] else []
  end.

Definition match_at (r : regex) (prev : option ascii) (s : string) : option nat :=
  match matches r prev s with
  | n :: _ => Some n
  | [] => None
  end.

(** [re.fullmatch(r, s)] as a truth value. *)
Definition fullmatch (r : regex) (s : string) : bool :=
  existsb (Nat.eqb (String.length s)) (matches r None s).

(** The left-to-right scan shared by [re.findall] and [re.sub]: the
    subject cut into the non-overlapping leftmost matches and the
    characters between them.  [skip] counts the characters of the
    current match still to pass.  Every pattern of this program matches
    at least one character, so a match of length 0 never arises; the
    scan treats it as no match. *)
Inductive piece : Type :=
| Lit (c : ascii)
| Match (m : string).

Fixpoint scan (r : regex) (prev : option ascii) (skip : nat) (s : string) : list piece :=
  match s with
  | EmptyString => []
  | String c s' =>
      match skip with
      | S k => scan r (Some c) k s'
      | 0 =>
          match match_at r prev s with
          | Some (S n) => Match (PyStr.take (S n) s) :: scan r (Some c) n s'
          | _ => Lit c :: scan r (Some c) 0 s'
          end
      end
  end.

(** [re.findall(r, s)] for a pattern without groups. *)
Definition findall (r : regex) (s : string) : list string :=
  flat_map (fun p => match p with Match m => [m] | Lit _ => [] end)
           (scan r None 0 s).

(** [re.sub(r, repl, s)] for a callable [repl], called with the
    matched text. *)
Definition sub_pieces (repl : string -> string) (ps : list piece) : string :=
  fold_right
    (fun p acc =>
       match p with
       | Match m => (repl m ++ acc)%string
       | Lit c => String c acc
       end)
    EmptyString ps.

Definition sub (r : regex) (repl : string -> string) (s : string) : string :=
  sub_pieces repl (scan r None 0 s).

End Re.

(** The four patterns of the source. *)

(** [r"\w+|[^\w\s]"] *)
Definition token_re : Re.regex :=
  Re.Alt (Re.Plus PyStr.is_word)
         (Re.Class (fun c => negb (PyStr.is_word c || PyStr.is_space c))).

(** [r"\w+"] *)
Definition word_re : Re.regex := Re.Plus PyStr.is_word.

(** [r"[^\w]"] *)
Definition nonword_re : Re.regex := Re.Class (fun c => negb (PyStr.is_word c)).

(** [r"\b\d+\b"] *)
Definition number_re : Re.regex :=
  Re.Seq Re.WordBoundary (Re.Seq (Re.Plus PyStr.isdecimal_char) Re.WordBoundary).

(** ** Python floats

    [w2n.word_to_num] returns a float for a phrase with a decimal part
    ("one point five").  Floats are IEEE binary64 values, modelled with
    the standard library's [spec_float]; [repr] is the shortest decimal
    string that reads back as the same float, laid out as CPython lays
    it out. *)

Module PyFloat.

Definition prec : Z := 53.
Definition emax : Z := 1024.

(** [float(n)] for an int. *)
Definition of_int (n : Z) : spec_float := binary_normalize prec emax n 0 false.

(** The float nearest to [d * 10^x], for [0 <= d]. *)
Definition of_decimal (d : Z) (x : Z) : spec_float :=
  match d with
  | Zpos m =>
      if (0 <=? x)%Z
      then of_int (d * 10 ^ x)
      else SFdiv prec emax (S754_finite false m 0)
                           (S754_finite false (Z.to_pos (10 ^ (- x))) 0)
  | _ => S754_zero false
  end.

Definition add (x y : spec_float) : spec_float := SFadd prec emax x y.

(** Number of decimal digits of [n], for [0 < n]. *)
Fixpoint ndigits (fuel : nat) (n : Z) : Z :=
  match fuel with
  | 0 => 1
  | S fuel' => if (n <? 10)%Z then 1 else (1 + ndigits fuel' (n / 10))%Z
  end.

(** The least [k >= 1] with [num * 10^k >= den], for [0 < num < den]. *)
Fixpoint lead_zeros (fuel : nat) (num den : Z) (k : Z) : Z :=
  match fuel with
  | 0 => k
  | S fuel' =>
      if (den <=? num * 10)%Z then k else lead_zeros fuel' (num * 10) den (k + 1)
  end.

(** [p] with [10^p <= num/den < 10^(p+1)]. *)
Definition exponent10 (num den : Z) : Z :=
  if (den <=? num)%Z
  then (ndigits 400 (num / den) - 1)%Z
  else (- lead_zeros 400 num den 1)%Z.

Definition scale10 (num den : Z) (s : Z) : Z * Z :=
  if (0 <=? s)%Z then ((num * 10 ^ s)%Z, den) else (num, (den * 10 ^ (- s))%Z).

(** The [n]-digit decimals next to [num/den], nearest first, with the
    power of ten they are scaled by. *)
Definition candidates (num den p : Z) (n : Z) : list (Z * Z) :=
  let s := (n - 1 - p)%Z in
  let '(a, b) := scale10 num den s in
  let lo := (a / b)%Z in
  let hi := (lo + 1)%Z in
  match (2 * a ?= (2 * lo + 1) * b)%Z with
  | Lt => [(lo, (- s)%Z); (hi, (- s)%Z)]
  | Gt => [(hi, (- s)%Z); (lo, (- s)%Z)]
  | Eq => if Z.even lo then [(lo, (- s)%Z); (hi, (- s)%Z)]
          else [(hi, (- s)%Z); (lo, (- s)%Z)]
  end.

Definition sf_eqb (x y : spec_float) : bool :=
  match x, y with
  | S754_finite sx mx ex, S754_finite sy my ey =>
      Bool.eqb sx sy && Pos.eqb mx my && Z.eqb ex ey
  | _, _ => false
  end.

(** The shortest decimal that reads back as [x]: tried with 1, 2, ...
    digits. *)
Fixpoint shortest (fuel : nat) (x : spec_float) (num den p : Z) (n : Z) : Z * Z :=
  match fuel with
  | 0 => (num, 0%Z)
  | S fuel' =>
      match filter (fun c => sf_eqb (of_decimal (fst c) (snd c)) x)
                   (candidates num den p n) with
      | c :: _ => c
      | [] => shortest fuel' x num den p (n + 1)
      end
  end.

Fixpoint strip_zeros (fuel : nat) (d x : Z) : Z * Z :=
  match fuel with
  | 0 => (d, x)
  | S fuel' =>
      if (0 <? d)%Z && (d mod 10 =? 0)%Z
      then strip_zeros fuel' (d / 10) (x + 1) else (d, x)
  end.

Fixpoint zeros (n : nat) : string :=
  match n with
  | 0 => EmptyString
  | S n' => String "0" (zeros n')
  end.

(** The layout of [repr]: [digits] are the significant digits and the
    value is [0.digits * 10^decpt]; exponent notation is used when
    [decpt <= -4] or [decpt > 16]. *)
Definition layout (digits : string) (decpt : Z) : string :=
  let len := Z.of_nat (String.length digits) in
  if (decpt <=? -4)%Z || (16 <? decpt)%Z
  then
    let e := (decpt - 1)%Z in
    let mant :=
      match digits with
      | String c EmptyString => String c EmptyString
      | String c rest => String c (String "." rest)
      | EmptyString => EmptyString
      end in
    let ed := PyStr.str_int (Z.abs e) in
    let ed := if (Z.abs e <? 10)%Z then String "0" ed else ed in
    (mant ++ "e" ++ (if (e <? 0)%Z then "-" else "+") ++ ed)%string
  else if (decpt <=? 0)%Z
  then ("0." ++ zeros (Z.to_nat (- decpt)) ++ digits)%string
  else if (len <=? decpt)%Z
  then (digits ++ zeros (Z.to_nat (decpt - len)) ++ ".0")%string
  else (PyStr.take (Z.to_nat decpt) digits ++ "."
        ++ PyStr.drop (Z.to_nat decpt) digits)%string.

(** [repr(x)], which is also [str(x)]. *)
Definition repr (x : spec_float) : string :=
  match x with
  | S754_zero s => if s then "-0.0" else "0.0"
  | S754_infinity s => if s then "-inf" else "inf"
  | S754_nan => "nan"
  | S754_finite s m e =>
      let '(num, den) :=
        if (0 <=? e)%Z then ((Zpos m * 2 ^ e)%Z, 1%Z)
        else (Zpos m, (2 ^ (- e))%Z) in
      let p := exponent10 num den in
      let '(d, x10) := shortest 17 (S754_finite false m e) num den p 1 in
      let '(d, x10) := strip_zeros 400 d x10 in
      let digits := PyStr.str_int d in
      let decpt := (Z.of_nat (String.length digits) + x10)%Z in
      ((if s then "-" else "") ++ layout digits decpt)%string
  end.

End PyFloat.

(** The value [w2n.word_to_num] hands back: an int, or a float. *)
Inductive pynum : Type :=
| PyInt (n : Z)
| PyFloat (x : spec_float).

(** [str(num)]: an int of more digits than [PyStr.int_max_str_digits],
    the sign not counted, makes it raise ValueError. *)
Definition str (num : pynum) : pyres string :=
  match num with
  | PyInt n =>
      if PyStr.within_digit_limit (PyStr.str_int (Z.abs n))
      then Returns (PyStr.str_int n)
      else Raises ValueError
  | PyFloat x => Returns (PyFloat.repr x)
  end.

(** ** [word2number.w2n]

    The source imports [w2n] from the word2number package (line 6) and
    calls [w2n.word_to_num] (line 172).  The package is not part of the
    repository; this module follows its [w2n.py], function by
    function. *)

Module W2N.

Inductive entry : Type :=
| Num (n : Z)
| Dot.                      (* the value '.' of the key 'point' *)

Definition american_number_system : list (string * entry) :=
  [ ("zero", Num 0); ("one", Num 1); ("two", Num 2); ("three", Num 3);
    ("four", Num 4); ("five", Num 5); ("six", Num 6); ("seven", Num 7);
    ("eight", Num 8); ("nine", Num 9); ("ten", Num 10);
    ("eleven", Num 11); ("twelve", Num 12); ("thirteen", Num 13);
    ("fourteen", Num 14); ("fifteen", Num 15); ("sixteen", Num 16);
    ("seventeen", Num 17); ("eighteen", Num 18); ("nineteen", Num 19);
    ("twenty", Num 20); ("thirty", Num 30); ("forty", Num 40);
    ("fifty", Num 50); ("sixty", Num 60); ("seventy", Num 70);
    ("eighty", Num 80); ("ninety", Num 90); ("hundred", Num 100);
    ("thousand", Num 1000); ("million", Num 1000000);
    ("billion", Num 1000000000); ("point", Dot) ].

Definition decimal_words : list string :=
  ["zero"; "one"; "two"; "three"; "four"; "five"; "six"; "seven";
   "eight"; "nine"].

Fixpoint lookup (w : string) (d : list (string * entry)) : option entry :=
  match d with
  | [] => None
  | (k, v) :: d' => if String.eqb w k then Some v else lookup w d'
  end.

(** [w in american_number_system] *)
Definition is_number_word (w : string) : bool :=
  match lookup w american_number_system with
  | Some _ => true
  | None => false
  end.

Definition mem (w : string) (l : list string) : bool := existsb (String.eqb w) l.

(** [l.count(w)] *)
Definition count (w : string) (l : list string) : nat :=
  List.length (filter (String.eqb w) l).

(** [l.index(w) if w in l else -1] *)
Fixpoint index_from (w : string) (l : list string) (k : Z) : Z :=
  match l with
  | [] => (-1)%Z
  | x :: l' => if String.eqb w x then k else index_from w l' (k + 1)%Z
  end.

Definition index_or_minus1 (w : string) (l : list string) : Z := index_from w l 0%Z.

(** [l[a:b]] and [l[a:]] for the indices the function computes, which
    are never negative where a slice is taken. *)
Definition slice (l : list string) (a b : Z) : list string :=
  PyStr.slice l (Z.to_nat a) (Z.to_nat b).

Definition slice_from (l : list string) (a : Z) : list string :=
  skipn (Z.to_nat a) l.

(** [american_number_system[w]] used as a number. *)
Definition number_of (w : string) : pyres Z :=
  match lookup w american_number_system with
  | Some (Num n) => Returns n
  | _ => Raises TypeError
  end.

Fixpoint numbers_of (ws : list string) : pyres (list Z) :=
  match ws with
  | [] => Returns []
  | w :: ws' =>
      n <- number_of w ;;
      ns <- numbers_of ws' ;;
      Returns (n :: ns)
  end.

Definition number_formation (number_words : list string) : pyres Z :=
  numbers <- numbers_of number_words ;;
  match numbers with
  | [n0; n1; n2; n3] => Returns (n0 * n1 + n2 + n3)%Z
  | [n0; n1; n2] => Returns (n0 * n1 + n2)%Z
  | [n0; n1] =>
      if existsb (Z.eqb 100) numbers
      then Returns (n0 * n1)%Z
      else Returns (n0 + n1)%Z
  | n0 :: _ => Returns n0
  | [] => Raises IndexError            (* numbers[0] of an empty list *)
  end.

(** The digits of the decimal part, most significant first, as the
    number they spell. *)
Fixpoint digits_value (acc : Z) (ws : list string) : Z :=
  match ws with
  | [] => acc
  | w :: ws' =>
      match lookup w american_number_system with
      | Some (Num n) => digits_value (10 * acc + n)%Z ws'
      | _ => digits_value (10 * acc)%Z ws'
      end
  end.

(** Returns the int 0 as soon as a word is not a digit word, and
    otherwise [float('0.' + digits)]. *)
Definition get_decimal_sum (decimal_digit_words : list string) : pynum :=
  if List.forallb (fun w => mem w decimal_words) decimal_digit_words
  then PyFloat
         (PyFloat.of_decimal (digits_value 0 decimal_digit_words)
                             (- Z.of_nat (List.length decimal_digit_words)))
  else PyInt 0.

(** [total_sum += decimal_sum] *)
Definition add_decimal (total_sum : Z) (decimal_sum : pynum) : pynum :=
  match decimal_sum with
  | PyInt n => PyInt (total_sum + n)
  | PyFloat x => PyFloat (PyFloat.add (PyFloat.of_int total_sum) x)
  end.

(** The part of [word_to_num] that follows the filtering of the words:
    from [clean_numbers] to the result. *)
Definition from_clean_numbers (clean_numbers : list string) : pyres pynum :=
  if (List.length clean_numbers =? 0)%nat then Raises ValueError
  else if (1 <? count "thousand" clean_numbers)%nat
          || (1 <? count "million" clean_numbers)%nat
          || (1 <? count "billion" clean_numbers)%nat
          || (1 <? count "point" clean_numbers)%nat
  then Raises ValueError
  else
    let point := index_or_minus1 "point" clean_numbers in
    let clean_decimal_numbers :=
      if (count "point" clean_numbers =? 1)%nat
      then slice_from clean_numbers (point + 1) else [] in
    let clean_numbers :=
      if (count "point" clean_numbers =? 1)%nat
      then slice clean_numbers 0 point else clean_numbers in
    let len := Z.of_nat (List.length clean_numbers) in
    let billion_index := index_or_minus1 "billion" clean_numbers in
    let million_index := index_or_minus1 "million" clean_numbers in
    let thousand_index := index_or_minus1 "thousand" clean_numbers in
    if ((-1 <? thousand_index)%Z
        && ((thousand_index <? million_index)%Z
            || (thousand_index <? billion_index)%Z))
       || ((-1 <? million_index)%Z && (million_index <? billion_index)%Z)
    then Raises ValueError
    else
      total_sum <-
        (if (0 <? len)%Z
         then
           if (len =? 1)%Z
           then number_of (nth 0 clean_numbers "")
           else
             s1 <- (if (-1 <? billion_index)%Z
                    then
                      billion_multiplier <-
                        number_formation (slice clean_numbers 0 billion_index) ;;
                      Returns (billion_multiplier * 1000000000)%Z
                    else Returns 0%Z) ;;
             s2 <- (if (-1 <? million_index)%Z
                    then
                      million_multiplier <-
                        (if (-1 <? billion_index)%Z
                         then number_formation
                                (slice clean_numbers (billion_index + 1) million_index)
                         else number_formation
                                (slice clean_numbers 0 million_index)) ;;
                      Returns (s1 + million_multiplier * 1000000)%Z
                    else Returns s1) ;;
             s3 <- (if (-1 <? thousand_index)%Z
                    then
                      thousand_multiplier <-
                        (if (-1 <? million_index)%Z
                         then number_formation
                                (slice clean_numbers (million_index + 1) thousand_index)
                         else if (-1 <? billion_index)%Z && (million_index =? -1)%Z
                         then number_formation
                                (slice clean_numbers (billion_index + 1) thousand_index)
                         else number_formation
                                (slice clean_numbers 0 thousand_index)) ;;
                      Returns (s2 + thousand_multiplier * 1000)%Z
                    else Returns s2) ;;
             hundreds <-
               (if (-1 <? thousand_index)%Z && negb (thousand_index =? len - 1)%Z
                then number_formation (slice_from clean_numbers (thousand_index + 1))
                else if (-1 <? million_index)%Z && negb (million_index =? len - 1)%Z
                then number_formation (slice_from clean_numbers (million_index + 1))
                else if (-1 <? billion_index)%Z && negb (billion_index =? len - 1)%Z
                then number_formation (slice_from clean_numbers (billion_index + 1))
                else if (thousand_index =? -1)%Z && (million_index =? -1)%Z
                        && (billion_index =? -1)%Z
                then number_formation clean_numbers
                else Returns 0%Z) ;;
             Returns (s3 + hundreds)%Z
         else Returns 0%Z) ;;
      if (0 <? List.length clean_decimal_numbers)%nat
      then Returns (add_decimal total_sum (get_decimal_sum clean_decimal_numbers))
      else Returns (PyInt total_sum).

Definition word_to_num (number_sentence : string) : pyres pynum :=
  let number_sentence := PyStr.replace_dash number_sentence in
  let number_sentence := PyStr.lower number_sentence in
  if PyStr.isdigit number_sentence
  then n <- PyStr.int_of_digits number_sentence ;; Returns (PyInt n)
  else
    let split_words := PyStr.split (PyStr.strip number_sentence) in
    from_clean_numbers (filter is_number_word split_words).

End W2N.

(** ** [replace_number_words]

    [word_to_num] stands for [w2n.word_to_num]; the program is the
    instance at [W2N.word_to_num]. *)

Section Normalizer.

Variable word_to_num : string -> pyres pynum.

(** [tokens = re.findall(r"\w+|[^\w\s]", text)] *)
Definition tokenize (text : string) : list string := Re.findall token_re text.

(** [range(hi, lo, -1)] *)
Fixpoint range_down (hi lo : nat) : list nat :=
  match hi with
  | 0 => []
  | S hi' => if (lo <? hi)%nat then hi :: range_down hi' lo else []
  end.

(** [' '.join(tokens[i:j]).lower()] *)
Definition phrase (tokens : list string) (i j : nat) : string :=
  PyStr.lower (PyStr.join " " (PyStr.slice tokens i j)).

(** What the [try] block computes for the window from [i] to [j]
    (lines 172-174): the number, then its text, which line 173 formats
    and line 174 appends. *)
Definition try_window (tokens : list string) (i j : nat) : pyres string :=
  num <- word_to_num (phrase tokens i j) ;;
  str num.

(** The [for j in range(len(tokens), i, -1)] loop with its [else]
    branch: [Some (text, j)] when the [try] succeeded at [j] and the
    loop was left by [break], [None] when the loop ran to its end.  An
    exception other than ValueError is not caught. *)
Fixpoint for_j (tokens : list string) (i : nat) (js : list nat)
  : pyres (option (string * nat)) :=
  match js with
  | [] => Returns None
  | j :: js' =>
      match try_window tokens i j with
      | Returns text => Returns (Some (text, j))
      | Raises ValueError => for_j tokens i js'
      | Raises e => Raises e
      end
  end.

(** The [while i < len(tokens)] loop; [None] when [fuel] iterations
    did not finish it. *)
Fixpoint while_loop (fuel : nat) (tokens : list string) (i : nat) (out : list string)
  : option (pyres (list string)) :=
  match fuel with
  | 0 => None
  | S fuel' =>
      if (i <? List.length tokens)%nat
      then
        let tok := nth i tokens EmptyString in
        if Re.fullmatch word_re tok
        then
          match for_j tokens i (range_down (List.length tokens) i) with
          | Raises e => Some (Raises e)
          | Returns (Some (text, j)) =>
              while_loop fuel' tokens j (out ++ [text])
          | Returns None =>
              while_loop fuel' tokens (S i) (out ++ [tok])
          end
        else while_loop fuel' tokens (S i) (out ++ [tok])
      else Some (Returns out)
  end.

(** [''.join(t if re.fullmatch(r"[^\w]", t) else t + ' ' for t in out).strip()] *)
Definition unit_text (t : string) : string :=
  if Re.fullmatch nonword_re t then t else (t ++ " ")%string.

Definition reassemble (out : list string) : string :=
  PyStr.strip (String.concat EmptyString (List.map unit_text out)).

(** The body of the function for language 'en', run with [fuel]
    iterations of the [while] loop. *)
Definition normalize_en (fuel : nat) (text : string) : option (pyres string) :=
  match while_loop fuel (tokenize text) 0 [] with
  | Some (Returns out) => Some (Returns (reassemble out))
  | Some (Raises e) => Some (Raises e)
  | None => None
  end.

(** One iteration of the [while] loop is allowed per token, and one
    more for the test that ends it. *)
Definition replace_number_words (text language : string) : option (pyres string) :=
  if negb (String.eqb language "en")
  then Some (Returns text)
  else normalize_en (S (List.length (tokenize text))) text.

End Normalizer.

(** ** [highlight_numbers] *)

(** [colorama.Fore.YELLOW] and [colorama.Style.RESET_ALL]. *)
Definition ESC : ascii := ascii_of_N 27.
Definition Fore_YELLOW : string := String ESC "[33m".
Definition Style_RESET_ALL : string := String ESC "[0m".

(** The callback [hl]. *)
Definition hl (n : string) : string := (Fore_YELLOW ++ n ++ Style_RESET_ALL)%string.

Definition highlight_numbers (text : string) : string := Re.sub number_re hl text.

(** ** Vocabulary of the statements *)

(** A separator character: neither a word character nor whitespace. *)
Definition is_separator (c : ascii) : bool :=
  negb (PyStr.is_word c || PyStr.is_space c).

(** What the highlighter makes of one word-token. *)
Definition mark (w : string) : string :=
  if PyStr.forallb PyStr.isdecimal_char w then hl w else w.

(** The characters of a string that are not whitespace. *)
Fixpoint drop_spaces (s : string) : string :=
  match s with
  | EmptyString => EmptyString
  | String c s' => if PyStr.is_space c then drop_spaces s' else String c (drop_spaces s')
  end.

(** What becomes of a token that is tried as a window of its own and
    is not a number word: the decimal string of its value when [int]
    accepts it, the token itself when it does not. *)
Definition reemit (t : string) : string :=
  match PyStr.int_of_digits t with
  | Returns n => PyStr.str_int n
  | Raises _ => t
  end.

(** A string of digits in the form [str] gives an int: no leading zero,
    except for "0" itself. *)
Definition canonical_digits (d : string) : bool :=
  match d with
  | String "0" (String _ _) => false
  | _ => true
  end.

(** [s.replace(m, "")] for a non-empty [m]: every occurrence of [m],
    found from left to right, is left out.  [skip] counts the characters
    of the current occurrence still to pass. *)
Fixpoint remove_from (m : string) (skip : nat) (s : string) : string :=
  match s with
  | EmptyString => EmptyString
  | String c s' =>
      match skip with
      | S k => remove_from m k s'
      | 0 =>
          if String.prefix m s
          then remove_from m (String.length m - 1) s'
          else String c (remove_from m 0 s')
      end
  end.

Definition remove (m s : string) : string := remove_from m 0 s.

(** The text with the opening and the closing marker taken out. *)
Definition strip_markers (s : string) : string :=
  remove Style_RESET_ALL (remove Fore_YELLOW s).

(** [m in s] *)
Fixpoint occurs (m s : string) : bool :=
  String.prefix m s
  || match s with
     | EmptyString => false
     | String _ s' => occurs m s'
     end.

(** The callback that only closes: what is left of [hl] once the
    opening markers are gone. *)
Definition hl_close (n : string) : string := (n ++ Style_RESET_ALL)%string.

Definition has_esc (s : string) : bool :=
  negb (PyStr.forallb (fun c => negb (Ascii.eqb c ESC)) s).

(** A callback that copies some of the digits and then writes a marker. *)
Definition marks (f : string -> string) : Prop :=
  forall n, exists k x, f n = (PyStr.take k n ++ String ESC x)%string.

(** What [w2n.word_to_num] does to each character of its argument
    before it splits it, the argument being lower-cased by the caller
    already. *)
Definition clean_char (c : ascii) : ascii :=
  PyStr.lower_char
    ((fun c => if PyStr.is_code 45 c then " "%char else c) (PyStr.lower_char c)).

(** The two kinds of token. *)
Definition separator_token (t : string) : Prop :=
  exists c, t = String c "" /\ is_separator c = true.

Definition word_token (t : string) : Prop :=
  t <> "" /\ PyStr.forallb PyStr.is_word t = true.

Definition token (t : string) : Prop := word_token t \/ separator_token t.

(** A text of words and whitespace: no separator in it. *)
Definition words_only (text : string) : bool :=
  PyStr.forallb (fun c => PyStr.is_word c || PyStr.is_space c) text.

(** A unit of the output on which a second pass changes nothing: a
    separator, the decimal string of a number, or a word that the parser
    rejects. *)
Definition stable (u : string) : Prop :=
  separator_token u
  \/ (exists n, (0 <= n)%Z /\ u = PyStr.str_int n)
  \/ (word_token u /\ W2N.word_to_num (PyStr.lower u) = Raises ValueError).

(** The units joined as [reassemble] joins them, before and after the
    [strip]. *)
Definition joined (out : list string) : string :=
  String.concat "" (List.map unit_text out).

Fixpoint joined_stripped (out : list string) : string :=
  match out with
  | [] => ""
  | [u] => u
  | u :: rest => (unit_text u ++ joined_stripped rest)%string
  end.

(** The reassembly rule in the words of the specification: a separator
    attaches to the unit before it, any other two neighbours are one
    space apart, and there is no space at the end. *)
Fixpoint spec_reassemble (out : list string) : string :=
  match out with
  | [] => ""
  | [u] => u
  | u :: (v :: _) as rest =>
      if Re.fullmatch nonword_re v
      then (u ++ spec_reassemble rest)%string
      else (u ++ " " ++ spec_reassemble rest)%string
  end.

(** ** The rest of the program

    The functions around the normaliser: device listing, the answers
    [run] reads, the retry loop of [transcribe_file] and the choice
    [prepare_audio] makes.  Calls into the sound and recognition
    packages are parameters. *)

(** An entry of [sd.query_devices()], with the two keys the program
    reads. *)
Record device : Type := {
  name : string;
  max_input_channels : Z
}.

(** [enumerate(l)] *)
Definition enumerate {A : Type} (l : list A) : list (nat * A) :=
  combine (seq 0 (List.length l)) l.

Definition list_input_devices (devices : list device) : list (nat * string) :=
  fold_left
    (fun input_devices (entry : nat * device) =>
       let (idx, dev) := entry in
       if (0 <? max_input_channels dev)%Z
       then input_devices ++ [(idx, name dev)]
       else input_devices)
    (enumerate devices) [].

(** The dictionary [LANGUAGES] and [LANGUAGES.get(k, default)]. *)
Definition LANGUAGES : list (string * string) :=
  [("en", "en-US"); ("ru", "ru-RU"); ("kk", "kk-KZ")].

Fixpoint dict_get (d : list (string * string)) (k default : string) : string :=
  match d with
  | [] => default
  | (k', v) :: d' => if String.eqb k k' then v else dict_get d' k default
  end.

(** [lang_code = input(...).strip().lower() or 'en'] (line 202) *)
Definition lang_code_of (answer : string) : string :=
  let s := PyStr.lower (PyStr.strip answer) in
  if String.eqb s "" then "en" else s.

(** [language = LANGUAGES.get(lang_code, 'en-US')] (line 203) *)
Definition language_of (lang_code : string) : string :=
  dict_get LANGUAGES lang_code "en-US".

(** [dur = input(...).strip()] and
    [duration = int(dur) if dur.isdigit() else 5] (lines 223-224) *)
Definition duration_of (answer : string) : pyres Z :=
  let dur := PyStr.strip answer in
  if PyStr.isdigit dur then PyStr.int_of_digits dur else Returns 5%Z.

(** [any(idx == int(sel) for idx, _ in input_devices)]: [int(sel)] is
    evaluated once per entry, until an entry is found. *)
Fixpoint any_index (sel : string) (input_devices : list (nat * string)) : pyres bool :=
  match input_devices with
  | [] => Returns false
  | (idx, _) :: rest =>
      n <- PyStr.int_of_digits sel ;;
      if (Z.of_nat idx =? n)%Z then Returns true else any_index sel rest
  end.

(** Lines 220-222: [mic_index] stays [None] unless the answer names a
    listed device. *)
Definition mic_index_of (answer : string) (input_devices : list (nat * string))
  : pyres (option Z) :=
  let sel := PyStr.strip answer in
  if PyStr.isdigit sel
  then
    found <- any_index sel input_devices ;;
    if found
    then n <- PyStr.int_of_digits sel ;; Returns (Some n)
    else Returns None
  else Returns None.

(** Lines 255-256: the text is normalised, then highlighted. *)
Definition postprocess (word_to_num : string -> pyres pynum) (text lang_code : string)
  : option (pyres string) :=
  match replace_number_words word_to_num text lang_code with
  | Some (Returns converted) => Some (Returns (highlight_numbers converted))
  | Some (Raises e) => Some (Raises e)
  | None => None
  end.

(** *** The retry loop of [transcribe_file] (lines 98-111)

    What one call of [rec.recognize_google] can do: return the text,
    or raise one of the two exceptions the loop handles. *)
Inductive recognition : Type :=
| Recognized (text : string)
| UnknownValueError
| RequestError.

(** What the loop does to the world, in order. *)
Inductive event : Type :=
| Recognize (attempt : nat)
| Sleep (seconds : nat).

(** The loop over [attempts]; [recognize_google k] is the outcome of the
    call made in attempt [k]. *)
Fixpoint attempt_loop (recognize_google : nat -> recognition) (retries : Z)
         (attempts : list nat) : string * list event :=
  match attempts with
  | [] => ("", [])
  | attempt :: rest =>
      match recognize_google attempt with
      | Recognized text => (text, [Recognize attempt])
      | UnknownValueError =>
          let pause :=
            if (Z.of_nat attempt <? retries - 1)%Z then [Sleep 1] else [] in
          let (text, events) := attempt_loop recognize_google retries rest in
          (text, Recognize attempt :: pause ++ events)
      | RequestError => ("", [Recognize attempt])
      end
  end.

(** [for attempt in range(retries): ...] followed by [return ""]. *)
Definition transcribe_attempts (recognize_google : nat -> recognition) (retries : Z)
  : string * list event :=
  attempt_loop recognize_google retries (seq 0 (Z.to_nat retries)).

Definition recognize_calls (events : list event) : nat :=
  List.length (filter (fun e => match e with Recognize _ => true | _ => false end) events).

Definition sleeps (events : list event) : nat :=
  List.length (filter (fun e => match e with Sleep _ => true | _ => false end) events).

(** *** [prepare_audio] (lines 39-52)

    [os.path.splitext] of a POSIX path: the extension starts at the last
    dot of the last component, leading dots of the component apart. *)
Module PosixPath.

(** [p.rfind(c)], with the index of the character read in [i]. *)
Fixpoint rfind_from (c : ascii) (p : string) (i last : Z) : Z :=
  match p with
  | EmptyString => last
  | String a p' => rfind_from c p' (i + 1)%Z (if Ascii.eqb a c then i else last)
  end.

Definition rfind (c : ascii) (p : string) : Z := rfind_from c p 0%Z (-1)%Z.

(** [p[k:k+1] != '.'] *)
Definition not_dot_at (p : string) (k : nat) : bool :=
  negb (String.eqb (PyStr.take 1 (PyStr.drop k p)) ".").

(** The [while filenameIndex < dotIndex] loop, [n] being the distance
    left: [true] when it returns from inside. *)
Fixpoint finds_name (p : string) (filenameIndex n : nat) : bool :=
  match n with
  | 0 => false
  | S n' =>
      if not_dot_at p filenameIndex then true
      else finds_name p (S filenameIndex) n'
  end.

Definition splitext (p : string) : string * string :=
  let sepIndex := rfind "/" p in
  let dotIndex := rfind "." p in
  if (sepIndex <? dotIndex)%Z
     && finds_name p (Z.to_nat (sepIndex + 1)) (Z.to_nat (dotIndex - (sepIndex + 1)))
  then (PyStr.take (Z.to_nat dotIndex) p, PyStr.drop (Z.to_nat dotIndex) p)
  else (p, EmptyString).

End PosixPath.

Definition AUDIO_EXTS : list string := [".wav"; ".mp3"; ".m4a"; ".ogg"; ".flac"].

(** [convert path format wav_path] stands for lines 47-49:
    [AudioSegment.from_file(path, format=format).export(wav_path, format='wav')]. *)
Definition prepare_audio (convert : string -> string -> string -> pyres unit)
           (path : string) : pyres string :=
  let (base, ext) := PosixPath.splitext path in
  let ext := PyStr.lower ext in
  if String.eqb ext ".wav" then Returns path
  else if existsb (String.eqb ext) AUDIO_EXTS
  then
    let wav_path := (base ++ ".wav")%string in
    _ <- convert path (PyStr.drop 1 ext) wav_path ;;
    Returns wav_path
  else Raises ValueError.

(** Vocabulary for the statements about these functions. *)

Definition no_space (s : string) : bool :=
  PyStr.forallb (fun c => negb (PyStr.is_space c)) s.

Fixpoint increasing (l : list nat) : Prop :=
  match l with
  | [] => True
  | a :: l' => (forall b, In b l' -> a < b) /\ increasing l'
  end.

(** * Properties *)

(** ** Characters *)

Lemma space_not_word (c : ascii) : PyStr.is_space c = true -> PyStr.is_word c = false.
Proof.
  destruct c as [[] [] [] [] [] [] [] []]; vm_compute; congruence.
Qed.

Lemma decimal_is_word (c : ascii) : PyStr.isdecimal_char c = true -> PyStr.is_word c = true.
Proof.
  destruct c as [[] [] [] [] [] [] [] []]; vm_compute; congruence.
Qed.

(** ** Strings *)

Lemma take_app (w rest : string) : PyStr.take (String.length w) (w ++ rest) = w.
Proof. induction w as [|c w IH]; simpl; [destruct rest; reflexivity | now rewrite IH]. Qed.

Lemma drop_app (w rest : string) : PyStr.drop (String.length w) (w ++ rest) = rest.
Proof. induction w as [|c w IH]; simpl; [destruct rest; reflexivity | exact IH]. Qed.

Lemma take_drop (n : nat) (s : string) : (PyStr.take n s ++ PyStr.drop n s)%string = s.
Proof.
  revert s; induction n as [|n IH]; intros [|c s]; simpl; try reflexivity.
  now rewrite IH.
Qed.

Lemma append_nil_r (s : string) : (s ++ "")%string = s.
Proof. induction s; simpl; congruence. Qed.

Lemma append_assoc (a b c : string) : ((a ++ b) ++ c)%string = (a ++ (b ++ c))%string.
Proof. induction a; simpl; congruence. Qed.

(** ** The matcher *)

Lemma run_le (p : ascii -> bool) (s : string) : Re.run p s <= String.length s.
Proof. induction s as [|c s IH]; simpl; [lia | destruct (p c); simpl; lia]. Qed.

Lemma run_app (p : ascii -> bool) (w rest : string) :
  PyStr.forallb p w = true ->
  match Re.head rest with Some c => p c = false | None => True end ->
  Re.run p (w ++ rest) = String.length w.
Proof.
  intros Hw Hr. induction w as [|c w IH]; simpl in *.
  - destruct rest as [|c r]; simpl in *; [reflexivity | now rewrite Hr].
  - apply andb_prop in Hw as [Hc Hw]. rewrite Hc. f_equal. now apply IH.
Qed.

Lemma run_take (p : ascii -> bool) (s : string) :
  PyStr.forallb p (PyStr.take (Re.run p s) s) = true.
Proof.
  induction s as [|c s IH]; simpl; [reflexivity|].
  destruct (p c) eqn:E; simpl; [now rewrite E | reflexivity].
Qed.

Lemma scan_skip (r : Re.regex) (s : string) :
  forall prev k,
    Re.scan r prev k s = Re.scan r (Re.before prev k s) 0 (PyStr.drop k s).
Proof.
  induction s as [|c s IH]; intros prev k.
  - destruct k; reflexivity.
  - destruct k as [|k]; [reflexivity|]. simpl. apply IH.
Qed.

Lemma scan_length_skip (r : Re.regex) (w rest : string) (prev : option ascii) :
  Re.scan r prev (String.length w) (w ++ rest)
  = Re.scan r (Re.before prev (String.length w) w) 0 rest.
Proof.
  rewrite scan_skip, drop_app. f_equal.
  revert prev; induction w as [|c w IH]; intros prev; simpl.
  - destruct rest; reflexivity.
  - apply IH.
Qed.

(** ** The tokenizer *)

Lemma token_matches (prev : option ascii) (s : string) :
  Re.matches token_re prev s
  = Re.countdown (Re.run PyStr.is_word s)
    ++ match s with
       | String c _ => if is_separator c then [1] else []
       | EmptyString => []
       end.
Proof. reflexivity. Qed.

Lemma token_scan_prev (s : string) :
  forall p1 p2 k, Re.scan token_re p1 k s = Re.scan token_re p2 k s.
Proof.
  induction s as [|c s IH]; intros p1 p2 k; [reflexivity|].
  destruct k as [|k]; simpl; [|apply IH].
  reflexivity.
Qed.

Lemma tokenize_nil : tokenize "" = [].
Proof. reflexivity. Qed.

Lemma tokenize_space (c : ascii) (s : string) :
  PyStr.is_space c = true -> tokenize (String c s) = tokenize s.
Proof.
  intros H. pose proof (space_not_word c H) as Hw.
  unfold tokenize, Re.findall. simpl.
  unfold Re.match_at. simpl. rewrite Hw, H. simpl.
  now rewrite (token_scan_prev s (Some c) None 0).
Qed.

Lemma tokenize_separator (c : ascii) (s : string) :
  PyStr.is_word c = false -> PyStr.is_space c = false ->
  tokenize (String c s) = String c "" :: tokenize s.
Proof.
  intros Hw H.
  unfold tokenize, Re.findall. simpl.
  unfold Re.match_at. simpl. rewrite Hw, H. simpl.
  now rewrite (token_scan_prev s (Some c) None 0).
Qed.

Lemma tokenize_word (w rest : string) :
  w <> "" -> PyStr.forallb PyStr.is_word w = true ->
  Re.word_at (Re.head rest) = false ->
  tokenize (w ++ rest) = w :: tokenize rest.
Proof.
  intros Hne Hw Hr.
  assert (Hrun : Re.run PyStr.is_word (w ++ rest) = String.length w).
  { apply run_app; [exact Hw|]. destruct (Re.head rest); [exact Hr | exact I]. }
  destruct w as [|c w]; [congruence|].
  unfold tokenize, Re.findall.
  change (Re.scan token_re None 0 (String c w ++ rest))
    with (match Re.match_at token_re None (String c (w ++ rest)) with
          | Some (S n) => Re.Match (PyStr.take (S n) (String c (w ++ rest)))
                          :: Re.scan token_re (Some c) n (w ++ rest)
          | _ => Re.Lit c :: Re.scan token_re (Some c) 0 (w ++ rest)
          end).
  unfold Re.match_at. rewrite token_matches.
  change (String c (w ++ rest)) with (String c w ++ rest)%string.
  rewrite Hrun. simpl Re.countdown. cbn iota beta.
  change (length (String c w)) with (S (length w)).
  cbn [app]. cbn iota beta.
  pose proof (take_app (String c w) rest) as Ht.
  change (length (String c w)) with (S (length w)) in Ht.
  rewrite Ht. simpl flat_map. f_equal.
  change (w ++ rest)%string with (PyStr.drop 1 (String c w ++ rest)).
  change (Re.scan token_re (Some c) (length w) (PyStr.drop 1 (String c w ++ rest)))
    with (Re.scan token_re None (length (String c w)) (String c w ++ rest)).
  rewrite scan_length_skip.
  now rewrite (token_scan_prev rest _ None 0).
Qed.

Lemma tokenize_concat_aux (s : string) :
  forall prev k,
    String.concat ""
      (flat_map (fun p => match p with Re.Match m => [m] | Re.Lit _ => [] end)
                (Re.scan token_re prev k s))
    = drop_spaces (PyStr.drop k s).
Proof.
  induction s as [|c s IH]; intros prev k.
  - destruct k; reflexivity.
  - destruct k as [|k]; [|simpl; apply IH].
    cbn [Re.scan]. unfold Re.match_at. rewrite token_matches.
    cbn [Re.run PyStr.drop drop_spaces].
    destruct (PyStr.is_word c) eqn:Hw.
    + cbn [Re.countdown app]. cbn iota beta.
      cbn [flat_map app].
      assert (Hsp : PyStr.is_space c = false).
      { destruct (PyStr.is_space c) eqn:E; [apply space_not_word in E; congruence | reflexivity]. }
      rewrite Hsp.
      assert (Hc : forall (m : string) (l : list string),
                 String.concat "" (m :: l) = (m ++ String.concat "" l)%string).
      { intros m [|x l]; simpl; [now rewrite append_nil_r | reflexivity]. }
      rewrite Hc, IH. cbn [PyStr.take append]. f_equal.
      clear IH Hc. generalize dependent s. intros s.
      induction s as [|d s IHs]; [reflexivity|].
      cbn [Re.run]. destruct (PyStr.is_word d) eqn:Hd; [|reflexivity].
      cbn [PyStr.take PyStr.drop append drop_spaces].
      assert (Hsd : PyStr.is_space d = false).
      { destruct (PyStr.is_space d) eqn:E; [apply space_not_word in E; congruence | reflexivity]. }
      rewrite Hsd. f_equal. exact IHs.
    + cbn [Re.countdown app]. unfold is_separator. rewrite Hw. cbn [orb].
      destruct (PyStr.is_space c) eqn:Hs; cbn [negb]; cbn iota beta.
      * cbn [flat_map app]. rewrite IH. reflexivity.
      * cbn [flat_map app PyStr.take].
        destruct (flat_map _ (Re.scan token_re (Some c) 0 s)) eqn:E.
        -- specialize (IH (Some c) 0). rewrite E in IH. simpl in IH.
           cbn [PyStr.drop] in IH. simpl. now rewrite <- IH.
        -- specialize (IH (Some c) 0). rewrite E in IH.
           cbn [PyStr.drop] in IH. simpl. simpl in IH. now rewrite <- IH.
Qed.

Lemma tokenize_concat (s : string) :
  String.concat "" (tokenize s) = drop_spaces s.
Proof. apply (tokenize_concat_aux s None 0). Qed.

(** C8: the tokenizer scans left to right; a maximal run of word
    characters becomes one word-token, any other character that is not
    whitespace becomes one separator-token, whitespace is dropped, the
    tokens keep the order of the text (concatenated they are the text
    without its whitespace), and the empty text has no tokens. *)
Theorem C8_tokenizer :
  tokenize "" = []
  /\ (forall c s, PyStr.is_space c = true -> tokenize (String c s) = tokenize s)
  /\ (forall c s, is_separator c = true ->
                  tokenize (String c s) = String c "" :: tokenize s)
  /\ (forall w rest,
        w <> "" -> PyStr.forallb PyStr.is_word w = true ->
        Re.word_at (Re.head rest) = false ->
        tokenize (w ++ rest) = w :: tokenize rest)
  /\ (forall s, String.concat "" (tokenize s) = drop_spaces s).
Proof.
  split; [exact tokenize_nil|].
  split; [exact tokenize_space|].
  split.
  - intros c s H. unfold is_separator in H.
    apply negb_true_iff, orb_false_iff in H as [Hw Hs].
    now apply tokenize_separator.
  - split; [exact tokenize_word | exact tokenize_concat].
Qed.

Lemma C8_tokenizer_witness :
  tokenize "I have  twenty-three apples." =
  ["I"; "have"; "twenty"; "-"; "three"; "apples"; "."].
Proof.
  destruct C8_tokenizer as (_ & Hsp & Hsep & Hword & _).
  change (tokenize ("I" ++ " have  twenty-three apples.")
          = ["I"; "have"; "twenty"; "-"; "three"; "apples"; "."]).
  rewrite Hword; [| discriminate | reflexivity | reflexivity].
  rewrite Hsp by reflexivity.
  reflexivity.
Defined.

(** ** The highlighter *)

Lemma flat_map_nil {A B : Type} (f : A -> list B) (l : list A) :
  (forall a, In a l -> f a = []) -> flat_map f l = [].
Proof.
  induction l as [|a l IH]; intros H; [reflexivity|].
  simpl. rewrite (H a (or_introl eq_refl)). apply IH.
  intros b Hb. apply H. now right.
Qed.

Lemma countdown_in (k n : nat) : In n (Re.countdown k) <-> 1 <= n <= k.
Proof.
  induction k as [|k IH]; simpl; [lia|]. rewrite IH. lia.
Qed.

Lemma before_in_run (p : ascii -> bool) (s : string) :
  forall prev n, 1 <= n <= Re.run p s ->
                 exists c, Re.before prev n s = Some c /\ p c = true.
Proof.
  induction s as [|c s IH]; intros prev n Hn; simpl in Hn; [lia|].
  destruct (p c) eqn:E; [|lia].
  destruct n as [|n]; [lia|]. simpl.
  destruct n as [|n].
  - exists c. destruct s; auto.
  - apply IH. lia.
Qed.

Lemma head_drop_in_run (p : ascii -> bool) (s : string) :
  forall n, n < Re.run p s ->
            exists c, Re.head (PyStr.drop n s) = Some c /\ p c = true.
Proof.
  induction s as [|c s IH]; intros n Hn; simpl in Hn; [lia|].
  destruct (p c) eqn:E; [|lia].
  destruct n as [|n]; simpl; [eauto|]. apply IH. lia.
Qed.

(** The length of the match of [\b\d+\b] at the start of [s], if there
    is one: the whole run of digits, when it is bounded on both sides. *)
Lemma number_match_at (prev : option ascii) (s : string) :
  Re.match_at number_re prev s
  = let k := Re.run PyStr.isdecimal_char s in
    if xorb (Re.word_at prev) (Re.word_at (Re.head s))
       && (0 <? k)%nat && negb (Re.word_at (Re.head (PyStr.drop k s)))
    then Some k else None.
Proof.
  unfold Re.match_at, number_re. cbn [Re.matches].
  destruct (xorb (Re.word_at prev) (Re.word_at (Re.head s))); [|reflexivity].
  cbn [flat_map]. rewrite List.app_nil_r.
  assert (Hb : Re.before prev 0 s = prev) by (destruct s; reflexivity).
  assert (Hd : PyStr.drop 0 s = s) by (destruct s; reflexivity).
  rewrite Hb, Hd. cbn [Re.matches].
  set (k := Re.run PyStr.isdecimal_char s).
  set (g := fun n1 : nat =>
              List.map (fun n2 : nat => n1 + n2)
                (if xorb (Re.word_at (Re.before prev n1 s))
                         (Re.word_at (Re.head (PyStr.drop n1 s)))
                 then [0] else [])).
  cbn zeta.
  destruct k as [|k'] eqn:Ek; [reflexivity|].
  cbn [Re.countdown flat_map andb Nat.ltb Nat.leb].
  assert (Hrest : flat_map g (Re.countdown k') = []).
  { apply flat_map_nil. intros n Hn. apply countdown_in in Hn.
    unfold g.
    destruct (before_in_run PyStr.isdecimal_char s prev n) as (c & -> & Hc);
      [fold k; lia|].
    destruct (head_drop_in_run PyStr.isdecimal_char s n) as (d & -> & Hdd);
      [fold k; lia|].
    cbn [Re.word_at]. rewrite (decimal_is_word c Hc), (decimal_is_word d Hdd).
    reflexivity. }
  rewrite Hrest, List.app_nil_r. unfold g.
  destruct (before_in_run PyStr.isdecimal_char s prev (S k')) as (c & -> & Hc);
    [fold k; lia|].
  cbn [Re.word_at]. rewrite (decimal_is_word c Hc). cbn [xorb].
  destruct (Re.word_at (Re.head (PyStr.drop (S k') s))); cbn [negb List.map];
    [reflexivity | now rewrite Nat.add_0_r].
Qed.

Lemma number_scan_prev (s : string) (p1 p2 : option ascii) :
  Re.word_at p1 = Re.word_at p2 ->
  Re.scan number_re p1 0 s = Re.scan number_re p2 0 s.
Proof.
  intros H. destruct s as [|c s]; [reflexivity|].
  cbn [Re.scan]. rewrite !number_match_at. cbn zeta. now rewrite H.
Qed.

Lemma nonword_not_decimal (c : ascii) :
  PyStr.is_word c = false -> PyStr.isdecimal_char c = false.
Proof.
  intros H. destruct (PyStr.isdecimal_char c) eqn:E; [|reflexivity].
  apply decimal_is_word in E. congruence.
Qed.

Lemma number_scan_nonword_head (s : string) (p : option ascii) :
  Re.word_at (Re.head s) = false ->
  Re.scan number_re p 0 s = Re.scan number_re None 0 s.
Proof.
  intros H. destruct s as [|c s]; [reflexivity|].
  cbn [Re.scan]. rewrite !number_match_at. cbn zeta.
  cbn [Re.head Re.word_at] in H.
  cbn [Re.run]. rewrite (nonword_not_decimal c H).
  cbn [Nat.ltb Nat.leb]. rewrite !andb_false_r. reflexivity.
Qed.

Lemma number_scan_inside_word (w post : string) :
  forall prev,
    Re.word_at prev = true ->
    PyStr.forallb PyStr.is_word w = true ->
    Re.word_at (Re.head post) = false ->
    Re.sub_pieces hl (Re.scan number_re prev 0 (w ++ post))
    = (w ++ Re.sub_pieces hl (Re.scan number_re None 0 post))%string.
Proof.
  induction w as [|c w IH]; intros prev Hp Hw Hpost.
  - cbn [append]. now rewrite (number_scan_nonword_head post prev Hpost).
  - cbn [PyStr.forallb] in Hw. apply andb_prop in Hw as [Hc Hw].
    cbn [append Re.scan]. rewrite number_match_at. cbn zeta.
    cbn [Re.head Re.word_at]. rewrite Hp, Hc. cbn [xorb andb].
    cbn [Re.sub_pieces fold_right]. f_equal.
    apply IH; auto.
Qed.

Lemma run_stops_inside (p q : ascii -> bool) (w post : string) :
  PyStr.forallb p w = false -> PyStr.forallb q w = true ->
  exists c, Re.head (PyStr.drop (Re.run p (w ++ post)) (w ++ post)) = Some c
            /\ q c = true.
Proof.
  induction w as [|c w IH]; intros Hp Hq; [discriminate|].
  cbn [PyStr.forallb] in *. apply andb_prop in Hq as [Hc Hq].
  cbn [append Re.run].
  destruct (p c) eqn:E.
  - cbn [andb] in Hp. cbn [PyStr.drop]. now apply IH.
  - cbn [PyStr.drop Re.head]. eauto.
Qed.

Lemma head_word_app (w post : string) :
  w <> "" -> PyStr.forallb PyStr.is_word w = true ->
  Re.word_at (Re.head (w ++ post)) = true.
Proof.
  destruct w as [|c w]; [congruence|]. intros _ H.
  cbn [PyStr.forallb] in H. apply andb_prop in H as [Hc _]. exact Hc.
Qed.

Lemma highlight_word_pieces (w post : string) (prev : option ascii) :
  w <> "" -> PyStr.forallb PyStr.is_word w = true ->
  Re.word_at (Re.head post) = false ->
  Re.word_at prev = false ->
  Re.sub_pieces hl (Re.scan number_re prev 0 (w ++ post))
  = (mark w ++ Re.sub_pieces hl (Re.scan number_re None 0 post))%string.
Proof.
  intros Hne Hw Hpost Hprev.
  pose proof (head_word_app w post Hne Hw) as Hhead.
  unfold mark.
  destruct (PyStr.forallb PyStr.isdecimal_char w) eqn:Hd.
  - assert (Hrun : Re.run PyStr.isdecimal_char (w ++ post) = String.length w).
    { apply run_app; [exact Hd|].
      destruct (Re.head post) as [c|] eqn:E; [|exact I].
      now apply nonword_not_decimal. }
    destruct w as [|c w]; [congruence|].
    change (String c w ++ post)%string with (String c (w ++ post)) in *.
    cbn [Re.scan]. rewrite number_match_at. cbn zeta.
    rewrite Hrun, Hprev, Hhead.
    change (String c (w ++ post)) with (String c w ++ post)%string.
    rewrite drop_app, Hpost.
    cbn [xorb andb negb String.length Nat.ltb Nat.leb].
    pose proof (take_app (String c w) post) as Ht.
    cbn [String.length] in Ht. rewrite Ht.
    cbn [Re.sub_pieces fold_right]. fold (Re.sub_pieces hl).
    f_equal.
    change (Re.scan number_re (Some c) (length w) (w ++ post))
      with (Re.scan number_re prev (String.length (String c w)) (String c w ++ post)).
    rewrite scan_length_skip.
    now rewrite (number_scan_nonword_head post _ Hpost).
  - destruct (run_stops_inside PyStr.isdecimal_char PyStr.is_word w post Hd Hw)
      as (d & Hhd & Hdw).
    destruct w as [|c w]; [congruence|].
    change (String c w ++ post)%string with (String c (w ++ post)) in *.
    cbn [Re.scan]. rewrite number_match_at. cbn zeta.
    rewrite Hhd. cbn [Re.word_at]. rewrite Hdw. cbn [negb].
    rewrite andb_false_r.
    cbn [Re.sub_pieces fold_right]. fold (Re.sub_pieces hl).
    cbn [append]. f_equal.
    cbn [PyStr.forallb] in Hw. apply andb_prop in Hw as [Hc Hw].
    apply number_scan_inside_word; auto.
Qed.

Lemma highlight_nil : highlight_numbers "" = "".
Proof. reflexivity. Qed.

Lemma highlight_nonword (c : ascii) (s : string) :
  PyStr.is_word c = false ->
  highlight_numbers (String c s) = String c (highlight_numbers s).
Proof.
  intros H. unfold highlight_numbers, Re.sub.
  cbn [Re.scan]. rewrite number_match_at. cbn zeta.
  cbn [Re.run]. rewrite (nonword_not_decimal c H).
  cbn [Nat.ltb Nat.leb]. rewrite andb_false_r. cbn [andb].
  cbn [Re.sub_pieces fold_right]. f_equal.
  fold (Re.sub_pieces hl (Re.scan number_re (Some c) 0 s)).
  now rewrite (number_scan_prev s (Some c) None) by (cbn; now rewrite H).
Qed.

Lemma highlight_word (w post : string) :
  w <> "" -> PyStr.forallb PyStr.is_word w = true ->
  Re.word_at (Re.head post) = false ->
  highlight_numbers (w ++ post) = (mark w ++ highlight_numbers post)%string.
Proof.
  intros. unfold highlight_numbers, Re.sub.
  now apply highlight_word_pieces.
Qed.

(** C7: the highlighter wraps a run of decimal digits in the markers
    exactly when the run is a whole word-token (bounded on both sides by
    a character that is not a word character, or by an end of the text),
    and copies every other character: digits inside a longer
    alphanumeric token stay unmarked. *)
Theorem C7_highlight_word_bounded_digits :
  highlight_numbers "" = ""
  /\ (forall c s, PyStr.is_word c = false ->
                  highlight_numbers (String c s) = String c (highlight_numbers s))
  /\ (forall w post,
        w <> "" -> PyStr.forallb PyStr.is_word w = true ->
        Re.word_at (Re.head post) = false ->
        highlight_numbers (w ++ post)
        = ((if PyStr.forallb PyStr.isdecimal_char w
            then Fore_YELLOW ++ w ++ Style_RESET_ALL else w)
           ++ highlight_numbers post)%string)
  /\ highlight_numbers "I have 23 apples"
     = ("I have " ++ Fore_YELLOW ++ "23" ++ Style_RESET_ALL ++ " apples")%string
  /\ highlight_numbers "abc123" = "abc123"
  /\ highlight_numbers "room404" = "room404".
Proof.
  split; [exact highlight_nil|].
  split; [exact highlight_nonword|].
  split; [exact highlight_word|].
  repeat split; reflexivity.
Qed.

Lemma C7_highlight_word_bounded_digits_witness :
  highlight_numbers "23 apples"
  = (Fore_YELLOW ++ "23" ++ Style_RESET_ALL ++ " apples")%string.
Proof.
  destruct C7_highlight_word_bounded_digits as (_ & _ & Hword & _).
  change (highlight_numbers ("23" ++ " apples")
          = (Fore_YELLOW ++ "23" ++ Style_RESET_ALL ++ " apples")%string).
  rewrite Hword; [reflexivity | discriminate | reflexivity | reflexivity].
Defined.

(** ** The search for the longest window *)

Section NormalizerFacts.

Variable word_to_num : string -> pyres pynum.

Lemma range_down_in (hi lo j : nat) : In j (range_down hi lo) <-> lo < j <= hi.
Proof.
  induction hi as [|hi IH]; simpl; [lia|].
  destruct (Nat.ltb_spec lo (S hi)); simpl; [rewrite IH|]; lia.
Qed.

(** [str] raises nothing but ValueError. *)
Lemma str_raises (num : pynum) (e : exn) : str num = Raises e -> e = ValueError.
Proof.
  destruct num as [n|x]; cbn [str]; [|discriminate].
  destruct (PyStr.within_digit_limit _); [discriminate | congruence].
Qed.

(** What the parser raises, the [try] block raises. *)
Lemma try_window_raises (tokens : list string) (i j : nat) (e : exn) :
  word_to_num (phrase tokens i j) = Raises e ->
  try_window word_to_num tokens i j = Raises e.
Proof. intros H. unfold try_window. now rewrite H. Qed.

Lemma try_window_returns (tokens : list string) (i j : nat) (text : string) :
  try_window word_to_num tokens i j = Returns text
  <-> exists num, word_to_num (phrase tokens i j) = Returns num
                  /\ str num = Returns text.
Proof.
  unfold try_window. split.
  - destruct (word_to_num (phrase tokens i j)) as [num|e]; [|discriminate].
    cbn [bind]. eauto.
  - intros (num & -> & H). exact H.
Qed.

(** An exception of the [try] block other than ValueError comes from
    the parser. *)
Lemma try_window_other (tokens : list string) (i j : nat) (e : exn) :
  try_window word_to_num tokens i j = Raises e ->
  e <> ValueError ->
  word_to_num (phrase tokens i j) = Raises e.
Proof.
  unfold try_window.
  destruct (word_to_num (phrase tokens i j)) as [num|e']; cbn [bind].
  - intros H Hne. apply str_raises in H. congruence.
  - intros [= ->] _. reflexivity.
Qed.

(** The loop leaves by [break] at [j] exactly when the [try] block
    succeeded for the window ending at [j] and raised ValueError for
    every longer one. *)
Lemma for_j_found (tokens : list string) (i : nat) (text : string) (j : nat) :
  forall hi,
    for_j word_to_num tokens i (range_down hi i) = Returns (Some (text, j))
    <-> (i < j <= hi
         /\ try_window word_to_num tokens i j = Returns text
         /\ forall j', j < j' <= hi ->
                       try_window word_to_num tokens i j' = Raises ValueError).
Proof.
  induction hi as [|hi IH]; cbn [range_down].
  - simpl. split; [discriminate | lia].
  - destruct (Nat.ltb_spec i (S hi)) as [Hlt|Hge].
    + cbn [for_j].
      destruct (try_window word_to_num tokens i (S hi)) as [n|e] eqn:E.
      * split.
        -- intros H. injection H as -> <-. repeat split; try lia; auto.
        -- intros (Hj & Hp & Hall).
           destruct (Nat.eq_dec j (S hi)) as [->|Hne].
           ++ congruence.
           ++ rewrite Hall in E by lia. discriminate.
      * destruct e.
        -- rewrite IH. split.
           ++ intros (Hj & Hp & Hall). repeat split; try lia; auto.
              intros j' Hj'. destruct (Nat.eq_dec j' (S hi)) as [->|Hne]; auto.
              apply Hall. lia.
           ++ intros (Hj & Hp & Hall).
              destruct (Nat.eq_dec j (S hi)) as [->|Hne]; [congruence|].
              repeat split; try lia; auto. intros j' Hj'. apply Hall. lia.
        -- split; [discriminate|]. intros (Hj & Hp & Hall).
           destruct (Nat.eq_dec j (S hi)) as [->|Hne]; [congruence|].
           rewrite Hall in E by lia. discriminate.
        -- split; [discriminate|]. intros (Hj & Hp & Hall).
           destruct (Nat.eq_dec j (S hi)) as [->|Hne]; [congruence|].
           rewrite Hall in E by lia. discriminate.
    + simpl. split; [discriminate | lia].
Qed.

(** The loop runs to its [else] branch exactly when the [try] block
    raised ValueError for every window. *)
Lemma for_j_none (tokens : list string) (i : nat) :
  forall hi,
    for_j word_to_num tokens i (range_down hi i) = Returns None
    <-> (forall j, i < j <= hi ->
                   try_window word_to_num tokens i j = Raises ValueError).
Proof.
  induction hi as [|hi IH]; cbn [range_down].
  - simpl. split; [intros _ j Hj; lia | reflexivity].
  - destruct (Nat.ltb_spec i (S hi)) as [Hlt|Hge].
    + cbn [for_j].
      destruct (try_window word_to_num tokens i (S hi)) as [n|e] eqn:E.
      * split; [discriminate|]. intros H. rewrite H in E by lia. discriminate.
      * destruct e.
        -- rewrite IH. split.
           ++ intros H j Hj. destruct (Nat.eq_dec j (S hi)) as [->|Hne]; auto.
              apply H. lia.
           ++ intros H j Hj. apply H. lia.
        -- split; [discriminate|]. intros H. rewrite H in E by lia. discriminate.
        -- split; [discriminate|]. intros H. rewrite H in E by lia. discriminate.
    + simpl. split; [intros _ j Hj; lia | reflexivity].
Qed.

(** An exception leaves the loop only if the parser raised it, and it
    is not ValueError. *)
Lemma for_j_raises (tokens : list string) (i : nat) (e : exn) (js : list nat) :
  for_j word_to_num tokens i js = Raises e ->
  e <> ValueError
  /\ exists j, In j js /\ word_to_num (phrase tokens i j) = Raises e.
Proof.
  induction js as [|j js IH]; cbn [for_j]; [discriminate|].
  destruct (try_window word_to_num tokens i j) as [n|e'] eqn:E; [discriminate|].
  destruct e'.
  - intros H. destruct (IH H) as (Hne & j' & Hin & Hj').
    split; [exact Hne|]. exists j'. split; [now right | exact Hj'].
  - intros H. injection H as <-. split; [discriminate|].
    exists j. split; [now left | apply try_window_other; [exact E | discriminate]].
  - intros H. injection H as <-. split; [discriminate|].
    exists j. split; [now left | apply try_window_other; [exact E | discriminate]].
Qed.

(** An exception leaves the loop from the first window, the longest
    first, for which the [try] block raised something other than
    ValueError. *)
Lemma for_j_raised (tokens : list string) (i : nat) (e : exn) :
  forall hi,
    for_j word_to_num tokens i (range_down hi i) = Raises e
    <-> (e <> ValueError
         /\ exists j,
              i < j <= hi
              /\ try_window word_to_num tokens i j = Raises e
              /\ forall j', j < j' <= hi ->
                            try_window word_to_num tokens i j' = Raises ValueError).
Proof.
  induction hi as [|hi IH]; cbn [range_down].
  - simpl. split; [discriminate | intros (_ & j & Hj & _); lia].
  - destruct (Nat.ltb_spec i (S hi)) as [Hlt|Hge].
    + cbn [for_j].
      destruct (try_window word_to_num tokens i (S hi)) as [t|e'] eqn:E.
      * split; [discriminate|]. intros (Hne & j & Hj & Hr & Hall).
        destruct (Nat.eq_dec j (S hi)) as [->|Hneq]; [congruence|].
        rewrite Hall in E by lia. discriminate.
      * destruct e'.
        -- rewrite IH. split.
           ++ intros (Hne & j & Hj & Hr & Hall). split; [exact Hne|].
              exists j. repeat split; try lia; auto.
              intros j' Hj'. destruct (Nat.eq_dec j' (S hi)) as [->|Hneq]; auto.
              apply Hall. lia.
           ++ intros (Hne & j & Hj & Hr & Hall). split; [exact Hne|].
              destruct (Nat.eq_dec j (S hi)) as [->|Hneq]; [congruence|].
              exists j. repeat split; try lia; auto.
              intros j' Hj'. apply Hall. lia.
        -- split.
           ++ intros [= <-]. split; [discriminate|].
              exists (S hi). repeat split; try lia; auto.
           ++ intros (Hne & j & Hj & Hr & Hall).
              destruct (Nat.eq_dec j (S hi)) as [->|Hneq]; [congruence|].
              rewrite Hall in E by lia. discriminate.
        -- split.
           ++ intros [= <-]. split; [discriminate|].
              exists (S hi). repeat split; try lia; auto.
           ++ intros (Hne & j & Hj & Hr & Hall).
              destruct (Nat.eq_dec j (S hi)) as [->|Hneq]; [congruence|].
              rewrite Hall in E by lia. discriminate.
    + simpl. split; [discriminate | intros (_ & j & Hj & _); lia].
Qed.

(** ** The loop over the tokens *)

Lemma while_loop_match (tokens : list string) (i j fuel : nat) (text : string)
      (out : list string) :
  i < List.length tokens ->
  Re.fullmatch word_re (nth i tokens "") = true ->
  for_j word_to_num tokens i (range_down (List.length tokens) i)
  = Returns (Some (text, j)) ->
  while_loop word_to_num (S fuel) tokens i out
  = while_loop word_to_num fuel tokens j (out ++ [text]).
Proof.
  intros Hi Hw Hf. cbn [while_loop].
  apply Nat.ltb_lt in Hi. now rewrite Hi, Hw, Hf.
Qed.

Lemma while_loop_no_match (tokens : list string) (i fuel : nat) (out : list string) :
  i < List.length tokens ->
  Re.fullmatch word_re (nth i tokens "") = true ->
  for_j word_to_num tokens i (range_down (List.length tokens) i) = Returns None ->
  while_loop word_to_num (S fuel) tokens i out
  = while_loop word_to_num fuel tokens (S i) (out ++ [nth i tokens ""]).
Proof.
  intros Hi Hw Hf. cbn [while_loop].
  apply Nat.ltb_lt in Hi. now rewrite Hi, Hw, Hf.
Qed.

(** Every iteration moves [i] forward, so one iteration per token left
    is enough. *)
Lemma while_loop_finishes (tokens : list string) :
  forall fuel i out,
    List.length tokens - i < fuel ->
    exists r, while_loop word_to_num fuel tokens i out = Some r.
Proof.
  induction fuel as [|fuel IH]; intros i out Hf; [lia|].
  cbn [while_loop].
  destruct (Nat.ltb_spec i (List.length tokens)) as [Hlt|Hge]; [|eauto].
  destruct (Re.fullmatch word_re (nth i tokens "")); [|apply IH; lia].
  destruct (for_j word_to_num tokens i (range_down (List.length tokens) i))
    as [[[text j]|]|e] eqn:E; [| apply IH; lia | eauto].
  apply for_j_found in E as (Hj & _). apply IH. lia.
Qed.

(** With a parser that raises nothing but ValueError on the windows of
    the text, the loop returns. *)
Lemma while_loop_returns (tokens : list string) :
  (forall i j e, i < j <= List.length tokens ->
                 word_to_num (phrase tokens i j) = Raises e -> e = ValueError) ->
  forall fuel i out,
    List.length tokens - i < fuel ->
    exists out', while_loop word_to_num fuel tokens i out = Some (Returns out').
Proof.
  intros Hval.
  induction fuel as [|fuel IH]; intros i out Hf; [lia|].
  cbn [while_loop].
  destruct (Nat.ltb_spec i (List.length tokens)) as [Hlt|Hge]; [|eauto].
  destruct (Re.fullmatch word_re (nth i tokens "")); [|apply IH; lia].
  destruct (for_j word_to_num tokens i (range_down (List.length tokens) i))
    as [[[text j]|]|e] eqn:E; [| apply IH; lia |].
  - apply for_j_found in E as (Hj & _). apply IH. lia.
  - apply for_j_raises in E as (Hne & j & Hin & Hj).
    apply range_down_in in Hin. apply Hval in Hj; [congruence | lia].
Qed.

(** When no window parses anywhere, the units are the tokens. *)
Lemma while_loop_literal (tokens : list string) :
  (forall i j, i < j <= List.length tokens ->
               word_to_num (phrase tokens i j) = Raises ValueError) ->
  forall fuel i out,
    List.length tokens - i < fuel ->
    while_loop word_to_num fuel tokens i out
    = Some (Returns (out ++ skipn i tokens)).
Proof.
  intros Hval.
  induction fuel as [|fuel IH]; intros i out Hf; [lia|].
  cbn [while_loop].
  destruct (Nat.ltb_spec i (List.length tokens)) as [Hlt|Hge].
  - assert (Hskip : skipn i tokens = nth i tokens "" :: skipn (S i) tokens).
    { clear -Hlt. revert i Hlt.
      induction tokens as [|t ts IHt]; intros i Hlt; simpl in Hlt; [lia|].
      destruct i as [|i]; [reflexivity|]. simpl. apply IHt. lia. }
    assert (Hnone : for_j word_to_num tokens i (range_down (List.length tokens) i)
                    = Returns None).
    { apply for_j_none. intros j Hj. apply try_window_raises. apply Hval. lia. }
    rewrite Hnone, Hskip.
    destruct (Re.fullmatch word_re (nth i tokens ""));
      (rewrite IH by lia; now rewrite <- List.app_assoc).
  - rewrite skipn_all2 by lia. now rewrite List.app_nil_r.
Qed.

End NormalizerFacts.

(** C1, on the code: in "million thousand" the window "million" parses,
    to 1000000, and is the farthest window from the first token that
    does; the longer window "million thousand" is tried before it and
    makes the parser index an empty list; line 177 catches ValueError
    only, so the IndexError leaves the loop and the call raises it,
    where the farthest window that parses was to win.  In
    "Two thousand thousand" the longest window raises ValueError, which
    is caught, and the farthest window that parses wins: "2000 1000".
    The two texts of the claim give "23" and "23000". *)
Theorem C1_longer_window_raises_index_error :
  tokenize "million thousand" = ["million"; "thousand"]
  /\ phrase ["million"; "thousand"] 0 2 = "million thousand"
  /\ W2N.word_to_num "million thousand" = Raises IndexError
  /\ phrase ["million"; "thousand"] 0 1 = "million"
  /\ W2N.word_to_num "million" = Returns (PyInt 1000000)
  /\ for_j W2N.word_to_num ["million"; "thousand"] 0 (range_down 2 0)
     = Raises IndexError
  /\ replace_number_words W2N.word_to_num "million thousand" "en"
     = Some (Raises IndexError)
  /\ W2N.word_to_num "two thousand thousand" = Raises ValueError
  /\ replace_number_words W2N.word_to_num "Two thousand thousand" "en"
     = Some (Returns "2000 1000")
  /\ replace_number_words W2N.word_to_num "twenty three" "en" = Some (Returns "23")
  /\ replace_number_words W2N.word_to_num "twenty three thousand" "en"
     = Some (Returns "23000").
Proof. repeat split; vm_compute; reflexivity. Qed.

(** C4: for a language tag other than "en" the text is returned as it
    is, whatever the text; "ru" is such a tag. *)
Theorem C4_other_language_is_noop :
  forall (P : string -> pyres pynum) (text language : string),
    language <> "en" ->
    replace_number_words P text language = Some (Returns text).
Proof.
  intros P text language H. unfold replace_number_words.
  destruct (String.eqb_spec language "en") as [->|_]; [congruence | reflexivity].
Qed.

Lemma C4_other_language_is_noop_witness :
  "ru" <> "en"
  /\ replace_number_words W2N.word_to_num "twenty three" "ru"
     = Some (Returns "twenty three").
Proof.
  split; [discriminate|].
  apply (C4_other_language_is_noop W2N.word_to_num "twenty three" "ru").
  discriminate.
Defined.

Lemma normalize_en_literal (P : string -> pyres pynum) (text : string) :
  (forall i j, i < j <= List.length (tokenize text) ->
               P (phrase (tokenize text) i j) = Raises ValueError) ->
  replace_number_words P text "en"
  = Some (Returns (reassemble (tokenize text))).
Proof.
  intros H. unfold replace_number_words, normalize_en. cbn [String.eqb Ascii.eqb Bool.eqb negb].
  rewrite (while_loop_literal P (tokenize text) H) by lia.
  reflexivity.
Qed.

(** ** Strings of digits *)

Lemma decimal_char_fixed (c : ascii) :
  PyStr.isdecimal_char c = true ->
  PyStr.lower_char c = c
  /\ PyStr.is_code 45 c = false
  /\ PyStr.isdigit_char c = true
  /\ exists f, forall u, uint_of_char c (Some u) = Some (f u).
Proof.
  destruct c as [[] [] [] [] [] [] [] []]; vm_compute; try congruence;
    intros _; repeat split; eauto.
Qed.

Lemma lower_decimal (d : string) :
  PyStr.forallb PyStr.isdecimal_char d = true -> PyStr.lower d = d.
Proof.
  induction d as [|c d IH]; [reflexivity|]. cbn [PyStr.forallb].
  intros H. apply andb_prop in H as [Hc Hd].
  unfold PyStr.lower. cbn [PyStr.map]. fold (PyStr.lower d).
  rewrite (IH Hd). f_equal. now apply decimal_char_fixed.
Qed.

Lemma replace_dash_decimal (d : string) :
  PyStr.forallb PyStr.isdecimal_char d = true -> PyStr.replace_dash d = d.
Proof.
  induction d as [|c d IH]; [reflexivity|]. cbn [PyStr.forallb].
  intros H. apply andb_prop in H as [Hc Hd].
  unfold PyStr.replace_dash. cbn [PyStr.map]. fold (PyStr.replace_dash d).
  rewrite (IH Hd). f_equal.
  destruct (decimal_char_fixed c Hc) as (_ & -> & _). reflexivity.
Qed.

Lemma isdigit_decimal (d : string) :
  d <> "" -> PyStr.forallb PyStr.isdecimal_char d = true -> PyStr.isdigit d = true.
Proof.
  intros Hne H. destruct d as [|c d]; [congruence|]. unfold PyStr.isdigit.
  clear Hne. revert H. generalize (String c d). intros s.
  induction s as [|a s IH]; [reflexivity|]. cbn [PyStr.forallb].
  intros H. apply andb_prop in H as [Ha Hs]. rewrite (IH Hs), andb_true_r.
  now apply decimal_char_fixed.
Qed.

Lemma uint_of_decimal (d : string) :
  PyStr.forallb PyStr.isdecimal_char d = true ->
  exists u, NilEmpty.uint_of_string d = Some u.
Proof.
  induction d as [|c d IH]; [simpl; eauto|]. cbn [PyStr.forallb].
  intros H. apply andb_prop in H as [Hc Hd].
  destruct (IH Hd) as (u & Hu). cbn [NilEmpty.uint_of_string]. rewrite Hu.
  destruct (decimal_char_fixed c Hc) as (_ & _ & _ & f & Hf). eauto.
Qed.

Lemma int_of_digits_decimal (d : string) :
  d <> "" ->
  PyStr.forallb PyStr.isdecimal_char d = true ->
  PyStr.within_digit_limit d = true ->
  exists u, NilEmpty.uint_of_string d = Some u
            /\ PyStr.int_of_digits d = Returns (Z.of_uint u).
Proof.
  intros Hne H Hl. destruct (uint_of_decimal d H) as (u & Hu).
  exists u. split; [exact Hu|]. unfold PyStr.int_of_digits.
  rewrite H, Hl, Hu. destruct (String.eqb_spec d "") as [E|_]; [congruence|].
  reflexivity.
Qed.

(** What [int] accepts. *)
Lemma int_of_digits_inv (d : string) (n : Z) :
  PyStr.int_of_digits d = Returns n ->
  d <> ""
  /\ PyStr.forallb PyStr.isdecimal_char d = true
  /\ PyStr.within_digit_limit d = true
  /\ exists u, NilEmpty.uint_of_string d = Some u /\ n = Z.of_uint u.
Proof.
  unfold PyStr.int_of_digits.
  destruct (String.eqb_spec d "") as [E|Hne]; [discriminate|].
  destruct (PyStr.forallb PyStr.isdecimal_char d); [|discriminate].
  destruct (PyStr.within_digit_limit d); [|discriminate]. cbn [negb andb].
  destruct (NilEmpty.uint_of_string d) as [u|]; [|discriminate].
  intros [= <-]. repeat split; auto. now exists u.
Qed.

(** [int] raises nothing but ValueError. *)
Lemma int_of_digits_raises (d : string) (e : exn) :
  PyStr.int_of_digits d = Raises e -> e = ValueError.
Proof.
  unfold PyStr.int_of_digits.
  destruct (_ && _); [|congruence].
  destruct (NilEmpty.uint_of_string d); [discriminate | congruence].
Qed.

Lemma int_of_digits_over_limit (d : string) :
  PyStr.within_digit_limit d = false ->
  PyStr.int_of_digits d = Raises ValueError.
Proof.
  intros H. unfold PyStr.int_of_digits. rewrite H. now rewrite andb_false_r.
Qed.

(** On a string of decimal digits the parser is [int]. *)
Lemma w2n_decimal (d : string) :
  d <> "" -> PyStr.forallb PyStr.isdecimal_char d = true ->
  W2N.word_to_num d = (n <- PyStr.int_of_digits d ;; Returns (PyInt n)).
Proof.
  intros Hne Hd. unfold W2N.word_to_num. cbn zeta.
  rewrite (replace_dash_decimal d Hd), (lower_decimal d Hd).
  now rewrite (isdigit_decimal d Hne Hd).
Qed.

Lemma w2n_digits (d : string) (n : Z) :
  d <> "" -> PyStr.forallb PyStr.isdecimal_char d = true ->
  PyStr.int_of_digits d = Returns n ->
  W2N.word_to_num d = Returns (PyInt n).
Proof. intros Hne Hd Hn. rewrite (w2n_decimal d Hne Hd), Hn. reflexivity. Qed.

Lemma string_of_uint_decimal (u : Decimal.uint) :
  PyStr.forallb PyStr.isdecimal_char (NilEmpty.string_of_uint u) = true.
Proof. induction u; simpl; auto. Qed.

Lemma string_of_uint_nonempty (u : Decimal.uint) :
  u <> Decimal.Nil -> NilEmpty.string_of_uint u <> "".
Proof. destruct u; simpl; congruence. Qed.

Lemma str_int_decimal (n : Z) :
  (0 <= n)%Z ->
  PyStr.str_int n <> ""
  /\ PyStr.forallb PyStr.isdecimal_char (PyStr.str_int n) = true.
Proof.
  intros Hn. unfold PyStr.str_int. destruct n as [|p|p]; [| |lia].
  - split; [discriminate | reflexivity].
  - cbn [Z.to_int NilZero.string_of_int].
    pose proof (DecimalPos.Unsigned.to_uint_nonnil p) as Hnn.
    unfold NilZero.string_of_uint.
    destruct (Pos.to_uint p) eqn:E; try congruence;
      rewrite <- E; (split; [apply string_of_uint_nonempty; congruence
                            | apply string_of_uint_decimal]).
Qed.

Lemma str_int_of_uint (u : Decimal.uint) :
  PyStr.str_int (Z.of_uint u) = NilEmpty.string_of_uint (Decimal.unorm u).
Proof.
  unfold PyStr.str_int.
  change (Z.of_uint u) with (Z.of_int (Decimal.Pos u)).
  rewrite DecimalZ.to_of. cbn [Decimal.norm NilZero.string_of_int].
  pose proof (DecimalFacts.unorm_nonnil u) as H.
  unfold NilZero.string_of_uint. destruct (Decimal.unorm u); congruence.
Qed.

Lemma string_of_uint_inj (u v : Decimal.uint) :
  NilEmpty.string_of_uint u = NilEmpty.string_of_uint v -> u = v.
Proof.
  intros H. apply (f_equal NilEmpty.uint_of_string) in H.
  rewrite !NilEmpty.usu in H. congruence.
Qed.

Lemma unorm_fixed_canonical (u : Decimal.uint) :
  u <> Decimal.Nil ->
  (Decimal.unorm u = u <-> canonical_digits (NilEmpty.string_of_uint u) = true).
Proof.
  intros Hne. destruct u as [|u|u|u|u|u|u|u|u|u|u]; try congruence;
    try (split; intros _; reflexivity).
  rewrite DecimalFacts.unorm_D0.
  destruct (Decimal.uint_eq_dec u Decimal.Nil) as [->|Hu].
  - split; reflexivity.
  - split.
    + intros H. pose proof (DecimalFacts.nb_digits_unorm u Hu) as Hle.
      rewrite H in Hle. simpl in Hle. lia.
    + cbn [NilEmpty.string_of_uint canonical_digits].
      destruct u; try congruence; simpl; discriminate.
Qed.

Lemma length_string_of_uint (u : Decimal.uint) :
  String.length (NilEmpty.string_of_uint u) = Decimal.nb_digits u.
Proof. induction u; cbn; congruence. Qed.

(** The decimal string of an int is not longer than a string of digits
    it was read from. *)
Lemma str_int_length (d : string) (n : Z) :
  PyStr.int_of_digits d = Returns n ->
  String.length (PyStr.str_int n) <= String.length d.
Proof.
  intros H. apply int_of_digits_inv in H as (Hne & _ & _ & u & Hu & ->).
  rewrite str_int_of_uint. apply NilEmpty.sus in Hu. rewrite <- Hu.
  rewrite !length_string_of_uint. apply DecimalFacts.nb_digits_unorm.
  intros ->. now apply Hne.
Qed.

Lemma of_uint_nonneg (u : Decimal.uint) : (0 <= Z.of_uint u)%Z.
Proof. unfold Z.of_uint. apply N2Z.is_nonneg. Qed.

(** An int that [int] read from a string is within the limit of [str]. *)
Lemma str_accepted (d : string) (n : Z) :
  PyStr.int_of_digits d = Returns n ->
  str (PyInt n) = Returns (PyStr.str_int n).
Proof.
  intros H. pose proof (str_int_length d n H) as Hlen.
  apply int_of_digits_inv in H as (_ & _ & Hl & u & _ & ->).
  cbn [str]. rewrite Z.abs_eq by apply of_uint_nonneg.
  unfold PyStr.within_digit_limit in *. apply Z.leb_le in Hl.
  destruct (Z.leb_spec (Z.of_nat (String.length (PyStr.str_int (Z.of_uint u))))
              PyStr.int_max_str_digits); [reflexivity | lia].
Qed.

(** The text of an int, when [str] gives one. *)
Lemma str_int_returns (n : Z) (text : string) :
  str (PyInt n) = Returns text -> text = PyStr.str_int n.
Proof.
  cbn [str]. destruct (PyStr.within_digit_limit _); [|discriminate].
  now intros [= <-].
Qed.

(** ** Reassembly *)

Lemma word_not_space (c : ascii) : PyStr.is_word c = true -> PyStr.is_space c = false.
Proof.
  intros H. destruct (PyStr.is_space c) eqn:E; [|reflexivity].
  apply space_not_word in E. congruence.
Qed.

Lemma fullmatch_word (w : string) :
  w <> "" -> PyStr.forallb PyStr.is_word w = true -> Re.fullmatch word_re w = true.
Proof.
  intros Hne Hw. unfold Re.fullmatch, word_re. cbn [Re.matches].
  pose proof (run_app PyStr.is_word w "" Hw I) as Hrun.
  rewrite append_nil_r in Hrun. rewrite Hrun.
  destruct w as [|c w]; [congruence|].
  cbn [String.length Re.countdown existsb]. now rewrite Nat.eqb_refl.
Qed.

Lemma fullmatch_nonword_word (w : string) :
  w <> "" -> PyStr.forallb PyStr.is_word w = true -> Re.fullmatch nonword_re w = false.
Proof.
  intros Hne Hw. destruct w as [|c w]; [congruence|].
  cbn [PyStr.forallb] in Hw. apply andb_prop in Hw as [Hc _].
  unfold Re.fullmatch, nonword_re. cbn [Re.matches]. now rewrite Hc.
Qed.

Lemma rstrip_app_space (s : string) :
  PyStr.forallb (fun c => negb (PyStr.is_space c)) s = true ->
  PyStr.rstrip (s ++ " ") = s.
Proof.
  induction s as [|c s IH]; [reflexivity|]. cbn [PyStr.forallb].
  intros H. apply andb_prop in H as [Hc Hs]. apply negb_true_iff in Hc.
  cbn [append PyStr.rstrip]. rewrite (IH Hs), Hc. now destruct s.
Qed.

Lemma word_no_space (w : string) :
  PyStr.forallb PyStr.is_word w = true ->
  PyStr.forallb (fun c => negb (PyStr.is_space c)) w = true.
Proof.
  induction w as [|c w IH]; [reflexivity|]. cbn [PyStr.forallb].
  intros H. apply andb_prop in H as [Hc Hw].
  now rewrite (word_not_space c Hc), (IH Hw).
Qed.

Lemma reassemble_single_word (w : string) :
  w <> "" -> PyStr.forallb PyStr.is_word w = true -> reassemble [w] = w.
Proof.
  intros Hne Hw. unfold reassemble, unit_text. cbn [List.map String.concat].
  rewrite (fullmatch_nonword_word w Hne Hw).
  unfold PyStr.strip.
  assert (Hl : PyStr.lstrip (w ++ " ") = (w ++ " ")%string).
  { destruct w as [|c w]; [congruence|].
    cbn [PyStr.forallb] in Hw. apply andb_prop in Hw as [Hc _].
    cbn [append PyStr.lstrip]. now rewrite (word_not_space c Hc). }
  rewrite Hl. apply rstrip_app_space. now apply word_no_space.
Qed.

Lemma decimal_word (d : string) :
  PyStr.forallb PyStr.isdecimal_char d = true -> PyStr.forallb PyStr.is_word d = true.
Proof.
  induction d as [|c d IH]; [reflexivity|]. cbn [PyStr.forallb].
  intros H. apply andb_prop in H as [Hc Hd].
  now rewrite (decimal_is_word c Hc), (IH Hd).
Qed.

Lemma skipn_nth (ts : list string) (i : nat) :
  i < List.length ts -> skipn i ts = nth i ts "" :: skipn (S i) ts.
Proof.
  revert i. induction ts as [|t ts IH]; intros i Hi; simpl in Hi; [lia|].
  destruct i as [|i]; [reflexivity|]. simpl. apply IH. lia.
Qed.

Lemma phrase_single (ts : list string) (i : nat) :
  i < List.length ts -> phrase ts i (S i) = PyStr.lower (nth i ts "").
Proof.
  intros Hi. unfold phrase, PyStr.slice.
  replace (S i - i) with 1 by lia.
  rewrite (skipn_nth ts i Hi). reflexivity.
Qed.

Lemma tokenize_single_word (w : string) :
  w <> "" -> PyStr.forallb PyStr.is_word w = true -> tokenize w = [w].
Proof.
  intros Hne Hw. rewrite <- (append_nil_r w) at 1.
  now rewrite tokenize_word.
Qed.

(** ** Totality *)

Lemma replace_number_words_finishes (P : string -> pyres pynum) (text language : string) :
  exists r, replace_number_words P text language = Some r.
Proof.
  unfold replace_number_words, normalize_en.
  destruct (negb (String.eqb language "en")); [eauto|].
  destruct (while_loop_finishes P (tokenize text)
              (S (List.length (tokenize text))) 0 []) as (r & ->); [lia|].
  destruct r; eauto.
Qed.

Lemma replace_number_words_returns (P : string -> pyres pynum) (text language : string) :
  (forall i j e, i < j <= List.length (tokenize text) ->
                 P (phrase (tokenize text) i j) = Raises e -> e = ValueError) ->
  exists y, replace_number_words P text language = Some (Returns y).
Proof.
  intros H. unfold replace_number_words, normalize_en.
  destruct (negb (String.eqb language "en")); [eauto|].
  destruct (while_loop_returns P (tokenize text) H
              (S (List.length (tokenize text))) 0 []) as (out & ->); [lia|].
  eauto.
Qed.

(** C3, on the code: the call on "a thousand and one nights" does not
    return.  The first window tried is the whole text; the parser keeps
    the words "thousand" and "one", takes the words before "thousand",
    of which there are none, for the multiplier, and indexes the empty
    list.  Line 177 catches ValueError, not IndexError, and the
    exception leaves the function.  The same happens on
    "He has a billion. One day". *)
Theorem C3_index_error_is_not_caught :
  List.length (tokenize "a thousand and one nights") = 5
  /\ phrase (tokenize "a thousand and one nights") 0 5 = "a thousand and one nights"
  /\ W2N.word_to_num "a thousand and one nights" = Raises IndexError
  /\ replace_number_words W2N.word_to_num "a thousand and one nights" "en"
     = Some (Raises IndexError)
  /\ replace_number_words W2N.word_to_num "He has a billion. One day" "en"
     = Some (Raises IndexError).
Proof. repeat split; vm_compute; reflexivity. Qed.

(** C2, on the code: a unit that is not a separator is followed by one
    space and a separator by nothing, so a separator is set off from the
    unit before it and attached to the unit after it, where the rule of
    the specification attaches it to the unit before it. *)
Theorem C2_space_goes_before_separator :
  (forall c, PyStr.is_word c = false -> unit_text (String c "") = String c "")
  /\ (forall w, w <> "" -> PyStr.forallb PyStr.is_word w = true ->
                unit_text w = (w ++ " ")%string)
  /\ reassemble ["I"; "have"; "23"; "apples"; "."] = "I have 23 apples ."
  /\ spec_reassemble ["I"; "have"; "23"; "apples"; "."] = "I have 23 apples."
  /\ replace_number_words W2N.word_to_num "apples." "en" = Some (Returns "apples .")
  /\ replace_number_words W2N.word_to_num "Hello, world." "en"
     = Some (Returns "Hello ,world .")
  /\ spec_reassemble (tokenize "Hello, world.") = "Hello, world.".
Proof.
  split.
  - intros c Hc. unfold unit_text, Re.fullmatch, nonword_re.
    cbn [Re.matches]. now rewrite Hc.
  - split.
    + intros w Hne Hw. unfold unit_text.
      now rewrite (fullmatch_nonword_word w Hne Hw).
    + repeat split; vm_compute; reflexivity.
Qed.

Lemma C2_space_goes_before_separator_witness :
  unit_text "apples" = "apples ".
Proof.
  destruct C2_space_goes_before_separator as (_ & H & _).
  apply (H "apples"); [discriminate | reflexivity].
Defined.

(** ** Taking the markers out again *)

Lemma scan_number_step (prev : option ascii) (c : ascii) (s : string) :
  Re.scan number_re prev 0 (String c s)
  = match Re.match_at number_re prev (String c s) with
    | Some (S n) =>
        Re.Match (PyStr.take (S n) (String c s))
        :: Re.scan number_re (Re.before (Some c) n s) 0 (PyStr.drop (S n) (String c s))
    | _ => Re.Lit c :: Re.scan number_re (Some c) 0 s
    end.
Proof.
  cbn [Re.scan]. destruct (Re.match_at number_re prev (String c s)) as [[|n]|];
    try reflexivity.
  now rewrite scan_skip.
Qed.

Lemma number_match_digits (prev : option ascii) (s : string) (k : nat) :
  Re.match_at number_re prev s = Some k ->
  k <= String.length s
  /\ PyStr.forallb PyStr.isdecimal_char (PyStr.take k s) = true.
Proof.
  rewrite number_match_at. cbn zeta.
  destruct (_ && _ && _); [|discriminate]. intros [= <-].
  split; [apply run_le | apply run_take].
Qed.

Lemma decimal_not_esc (c : ascii) :
  PyStr.isdecimal_char c = true -> Ascii.eqb c ESC = false.
Proof.
  destruct c as [[] [] [] [] [] [] [] []]; vm_compute; congruence.
Qed.

Lemma prefix_cons (a c : ascii) (q s : string) :
  String.prefix (String a q) (String c s) = true <-> a = c /\ String.prefix q s = true.
Proof.
  cbn [String.prefix]. destruct (Ascii.ascii_dec a c) as [->|Hne].
  - tauto.
  - split; [discriminate | tauto].
Qed.

Lemma prefix_app (m x : string) : String.prefix m (m ++ x) = true.
Proof.
  induction m as [|c m IH]; [destruct x; reflexivity|].
  cbn [append]. apply prefix_cons. auto.
Qed.

Lemma remove_from_skip (m a x : string) :
  remove_from m (String.length a) (a ++ x) = remove_from m 0 x.
Proof.
  induction a as [|c a IH]; [destruct x; reflexivity | exact IH].
Qed.

Lemma remove_from_occurrence (m x : string) :
  m <> "" -> remove_from m 0 (m ++ x) = remove_from m 0 x.
Proof.
  intros Hne. destruct m as [|c m]; [congruence|].
  change (String c m ++ x)%string with (String c (m ++ x)).
  cbn [remove_from].
  change (String c (m ++ x)) with (String c m ++ x)%string.
  rewrite prefix_app.
  replace (String.length (String c m) - 1) with (String.length m)
    by (cbn [String.length]; lia).
  apply remove_from_skip.
Qed.

(** Characters that are not the first of [m] are copied. *)
Lemma remove_from_copy (c0 : ascii) (m d x : string) :
  PyStr.forallb (fun c => negb (Ascii.eqb c c0)) d = true ->
  remove_from (String c0 m) 0 (d ++ x) = (d ++ remove_from (String c0 m) 0 x)%string.
Proof.
  induction d as [|c d IH]; [reflexivity|]. cbn [PyStr.forallb].
  intros H. apply andb_prop in H as [Hc Hd]. apply negb_true_iff in Hc.
  cbn [append remove_from].
  assert (Hp : String.prefix (String c0 m) (String c (d ++ x)) = false).
  { cbn [String.prefix]. destruct (Ascii.ascii_dec c0 c) as [->|]; [|reflexivity].
    rewrite Ascii.eqb_refl in Hc. discriminate. }
  rewrite Hp. f_equal. now apply IH.
Qed.

Lemma digits_no_esc (d : string) :
  PyStr.forallb PyStr.isdecimal_char d = true ->
  PyStr.forallb (fun c => negb (Ascii.eqb c ESC)) d = true.
Proof.
  induction d as [|c d IH]; [reflexivity|]. cbn [PyStr.forallb].
  intros H. apply andb_prop in H as [Hc Hd].
  now rewrite (decimal_not_esc c Hc), (IH Hd).
Qed.

Lemma occurs_tail (m : string) (c : ascii) (s : string) :
  occurs m (String c s) = false ->
  String.prefix m (String c s) = false /\ occurs m s = false.
Proof. cbn [occurs]. apply orb_false_iff. Qed.

Lemma occurs_drop (m : string) (k : nat) (s : string) :
  occurs m s = false -> occurs m (PyStr.drop k s) = false.
Proof.
  revert s. induction k as [|k IH]; intros s H; [destruct s; exact H|].
  destruct s as [|c s]; [exact H|]. cbn [PyStr.drop].
  apply IH. now apply occurs_tail in H.
Qed.

Lemma length_drop (k : nat) (s : string) :
  String.length (PyStr.drop k s) = String.length s - k.
Proof.
  revert s. induction k as [|k IH]; intros [|c s]; cbn; auto.
Qed.

(** A string without ESC that begins the highlighted text begins the
    text: up to the first marker the two agree. *)
Lemma prefix_take_marker (q : string) :
  has_esc q = false ->
  forall k s x,
    String.prefix q (PyStr.take k s ++ String ESC x) = true ->
    String.prefix q s = true.
Proof.
  unfold has_esc. rewrite negb_false_iff.
  induction q as [|a q IH]; intros Hq k s x Hp; [destruct s; reflexivity|].
  cbn [PyStr.forallb] in Hq. apply andb_prop in Hq as [Ha Hq].
  apply negb_true_iff in Ha.
  destruct k as [|k], s as [|c s]; cbn [PyStr.take append] in Hp.
  - apply prefix_cons in Hp as [-> _]. rewrite Ascii.eqb_refl in Ha. discriminate.
  - apply prefix_cons in Hp as [-> _]. rewrite Ascii.eqb_refl in Ha. discriminate.
  - apply prefix_cons in Hp as [-> _]. rewrite Ascii.eqb_refl in Ha. discriminate.
  - apply prefix_cons in Hp as [-> Hp]. apply prefix_cons. split; [reflexivity|].
    exact (IH Hq k s x Hp).
Qed.

Lemma has_esc_cons (a : ascii) (q : string) :
  has_esc (String a q) = false -> a <> ESC /\ has_esc q = false.
Proof.
  unfold has_esc. cbn [PyStr.forallb]. rewrite !negb_false_iff.
  intros H. apply andb_prop in H as [Ha Hq]. apply negb_true_iff in Ha.
  split; [|exact Hq]. intros ->. rewrite Ascii.eqb_refl in Ha. discriminate.
Qed.

Lemma take_take (k j : nat) (s : string) :
  PyStr.take k (PyStr.take j s) = PyStr.take (Nat.min k j) s.
Proof.
  revert j s. induction k as [|k IH]; intros [|j] [|c s]; cbn; try reflexivity.
  now rewrite IH.
Qed.

Lemma hl_marks : marks hl.
Proof.
  intros n. exists 0, ("[33m" ++ n ++ Style_RESET_ALL)%string.
  destruct n; reflexivity.
Qed.

Lemma take_all (s : string) : PyStr.take (String.length s) s = s.
Proof. induction s as [|c s IH]; cbn; [reflexivity | now rewrite IH]. Qed.

Lemma hl_close_marks : marks hl_close.
Proof.
  intros n. exists (String.length n), "[0m". now rewrite take_all.
Qed.

Lemma prefix_highlighted (f : string -> string) :
  marks f ->
  forall q,
    has_esc q = false ->
    forall s prev,
      String.prefix q (Re.sub_pieces f (Re.scan number_re prev 0 s)) = true ->
      String.prefix q s = true.
Proof.
  intros Hf q. induction q as [|a q IH]; intros Hq s prev Hp;
    [destruct s; reflexivity|].
  destruct s as [|c s]; [exact Hp|].
  rewrite scan_number_step in Hp.
  destruct (Re.match_at number_re prev (String c s)) as [[|n]|] eqn:E.
  - cbn [Re.sub_pieces fold_right] in Hp. fold (Re.sub_pieces f) in Hp.
    apply prefix_cons in Hp as [-> Hp]. apply prefix_cons. split; [reflexivity|].
    apply has_esc_cons in Hq as [_ Hq]. exact (IH Hq s (Some c) Hp).
  - cbn [Re.sub_pieces fold_right] in Hp. fold (Re.sub_pieces f) in Hp.
    destruct (Hf (PyStr.take (S n) (String c s))) as (k & x & Hfx).
    rewrite Hfx, take_take, append_assoc in Hp.
    change (String ESC x ++ ?r)%string with (String ESC (x ++ r)) in Hp.
    exact (prefix_take_marker (String a q) Hq _ _ _ Hp).
  - cbn [Re.sub_pieces fold_right] in Hp. fold (Re.sub_pieces f) in Hp.
    apply prefix_cons in Hp as [-> Hp]. apply prefix_cons. split; [reflexivity|].
    apply has_esc_cons in Hq as [_ Hq]. exact (IH Hq s (Some c) Hp).
Qed.

Lemma remove_yellow_reset (x : string) :
  remove_from Fore_YELLOW 0 (Style_RESET_ALL ++ x)
  = (Style_RESET_ALL ++ remove_from Fore_YELLOW 0 x)%string.
Proof. reflexivity. Qed.

(** Taking out the opening markers leaves the text with the closing
    markers only. *)
Lemma remove_opening (n : nat) :
  forall s prev,
    String.length s <= n ->
    occurs Fore_YELLOW s = false ->
    remove_from Fore_YELLOW 0 (Re.sub_pieces hl (Re.scan number_re prev 0 s))
    = Re.sub_pieces hl_close (Re.scan number_re prev 0 s).
Proof.
  induction n as [|n IH]; intros s prev Hlen Hocc.
  - destruct s; [reflexivity | simpl in Hlen; lia].
  - destruct s as [|c s]; [reflexivity|].
    cbn [String.length] in Hlen.
    destruct (occurs_tail _ _ _ Hocc) as [Hpre Htail].
    rewrite scan_number_step.
    assert (Hlit :
      remove_from Fore_YELLOW 0
        (String c (Re.sub_pieces hl (Re.scan number_re (Some c) 0 s)))
      = String c (Re.sub_pieces hl_close (Re.scan number_re (Some c) 0 s))).
    { cbn [remove_from].
      destruct (String.prefix Fore_YELLOW
                  (String c (Re.sub_pieces hl (Re.scan number_re (Some c) 0 s))))
        eqn:Ep.
      - unfold Fore_YELLOW in Ep. apply prefix_cons in Ep as [<- Ep].
        apply (prefix_highlighted hl hl_marks "[33m" eq_refl) in Ep.
        assert (String.prefix Fore_YELLOW (String ESC s) = true)
          by (apply prefix_cons; auto).
        congruence.
      - f_equal. apply IH; [lia | exact Htail]. }
    destruct (Re.match_at number_re prev (String c s)) as [[|k]|] eqn:E;
      cbn [Re.sub_pieces fold_right];
      fold (Re.sub_pieces hl); fold (Re.sub_pieces hl_close);
      try exact Hlit.
    destruct (number_match_digits _ _ _ E) as [Hk Hdig].
    unfold hl, hl_close. rewrite !append_assoc.
    rewrite remove_from_occurrence by discriminate.
    unfold Fore_YELLOW at 1.
    rewrite remove_from_copy by (now apply digits_no_esc).
    fold Fore_YELLOW. rewrite remove_yellow_reset.
    do 2 f_equal. apply IH.
    + rewrite length_drop. cbn [String.length]. lia.
    + now apply occurs_drop.
Qed.

(** Taking out the closing markers then gives the text back. *)
Lemma remove_closing (n : nat) :
  forall s prev,
    String.length s <= n ->
    occurs Style_RESET_ALL s = false ->
    remove_from Style_RESET_ALL 0 (Re.sub_pieces hl_close (Re.scan number_re prev 0 s))
    = s.
Proof.
  induction n as [|n IH]; intros s prev Hlen Hocc.
  - destruct s; [reflexivity | simpl in Hlen; lia].
  - destruct s as [|c s]; [reflexivity|].
    cbn [String.length] in Hlen.
    destruct (occurs_tail _ _ _ Hocc) as [Hpre Htail].
    rewrite scan_number_step.
    assert (Hlit :
      remove_from Style_RESET_ALL 0
        (String c (Re.sub_pieces hl_close (Re.scan number_re (Some c) 0 s)))
      = String c s).
    { cbn [remove_from].
      destruct (String.prefix Style_RESET_ALL
                  (String c (Re.sub_pieces hl_close (Re.scan number_re (Some c) 0 s))))
        eqn:Ep.
      - unfold Style_RESET_ALL in Ep. apply prefix_cons in Ep as [<- Ep].
        apply (prefix_highlighted hl_close hl_close_marks "[0m" eq_refl) in Ep.
        assert (String.prefix Style_RESET_ALL (String ESC s) = true)
          by (apply prefix_cons; auto).
        congruence.
      - f_equal. apply IH; [lia | exact Htail]. }
    destruct (Re.match_at number_re prev (String c s)) as [[|k]|] eqn:E;
      cbn [Re.sub_pieces fold_right]; fold (Re.sub_pieces hl_close);
      try exact Hlit.
    destruct (number_match_digits _ _ _ E) as [Hk Hdig].
    unfold hl_close at 1. rewrite !append_assoc.
    unfold Style_RESET_ALL at 1.
    rewrite remove_from_copy by (now apply digits_no_esc).
    fold Style_RESET_ALL.
    rewrite remove_from_occurrence by discriminate.
    etransitivity; [|apply (take_drop (S k) (String c s))].
    f_equal. apply IH.
    + rewrite length_drop. cbn [String.length]. lia.
    + now apply occurs_drop.
Qed.

(** C10, amended: on a text in which neither marker occurs,
    taking every opening and closing marker out of the highlighted text
    gives the text back. *)
Theorem C10_strip_markers_round_trip :
  forall text,
    occurs Fore_YELLOW text = false ->
    occurs Style_RESET_ALL text = false ->
    strip_markers (highlight_numbers text) = text.
Proof.
  intros text Hy Hr.
  unfold strip_markers, remove, highlight_numbers, Re.sub.
  rewrite (remove_opening (String.length text)) by auto.
  now apply (remove_closing (String.length text)).
Qed.

Lemma C10_strip_markers_round_trip_witness :
  occurs Fore_YELLOW "I have 23 apples" = false
  /\ strip_markers (highlight_numbers "I have 23 apples") = "I have 23 apples".
Proof.
  split; [reflexivity|].
  apply (C10_strip_markers_round_trip "I have 23 apples"); reflexivity.
Defined.

(** C10 as stated fails on a text that holds a marker: the
    highlighter leaves the text as it is, and taking the markers out
    takes the marker of the text out too. *)
Lemma C10_marker_in_text_is_lost :
  highlight_numbers Fore_YELLOW = Fore_YELLOW
  /\ strip_markers (highlight_numbers Fore_YELLOW) = ""
  /\ strip_markers (highlight_numbers Fore_YELLOW) <> Fore_YELLOW.
Proof. repeat split; try reflexivity. discriminate. Qed.

(** ** [split], [strip] and [join] *)

Lemma map_append (f : ascii -> ascii) (a b : string) :
  PyStr.map f (a ++ b) = (PyStr.map f a ++ PyStr.map f b)%string.
Proof. induction a as [|c a IH]; cbn; [reflexivity | now rewrite IH]. Qed.

Lemma map_map (f g : ascii -> ascii) (s : string) :
  PyStr.map f (PyStr.map g s) = PyStr.map (fun c => f (g c)) s.
Proof. induction s as [|c s IH]; cbn; [reflexivity | now rewrite IH]. Qed.

Lemma join_cons (sep p q : string) (l : list string) :
  PyStr.join sep (p :: q :: l) = (p ++ sep ++ PyStr.join sep (q :: l))%string.
Proof. reflexivity. Qed.

Lemma map_join (f : ascii -> ascii) (l : list string) :
  f " "%char = " "%char ->
  PyStr.map f (PyStr.join " " l) = PyStr.join " " (List.map (PyStr.map f) l).
Proof.
  intros Hf. induction l as [|p l IH]; [reflexivity|].
  destruct l as [|q l]; [reflexivity|].
  rewrite join_cons. cbn [List.map] in *. rewrite join_cons.
  rewrite map_append. cbn [append PyStr.map]. now rewrite Hf, IH.
Qed.

Lemma split_aux_space (a : string) :
  forall cur b,
    PyStr.split_aux cur (a ++ String " " b)
    = PyStr.split_aux cur a ++ PyStr.split b.
Proof.
  induction a as [|c a IH]; intros cur b.
  - cbn [append PyStr.split_aux]. change (PyStr.is_space " ") with true.
    cbn iota. destruct cur; reflexivity.
  - cbn [append PyStr.split_aux].
    destruct (PyStr.is_space c).
    + destruct cur; rewrite IH; reflexivity.
    + apply IH.
Qed.

Lemma split_join (l : list string) :
  PyStr.split (PyStr.join " " l) = flat_map PyStr.split l.
Proof.
  induction l as [|p l IH]; [reflexivity|].
  destruct l as [|q l].
  - cbn [PyStr.join flat_map]. now rewrite List.app_nil_r.
  - rewrite join_cons. cbn [flat_map] in *. unfold PyStr.split at 1.
    change (" " ++ ?x)%string with (String " " x).
    rewrite split_aux_space. now rewrite IH.
Qed.

Lemma split_aux_word (u : string) :
  forall cur,
    PyStr.forallb (fun c => negb (PyStr.is_space c)) u = true ->
    (cur ++ u)%string <> "" ->
    PyStr.split_aux cur u = [(cur ++ u)%string].
Proof.
  induction u as [|c u IH]; intros cur Hu Hne.
  - rewrite append_nil_r in *. cbn. destruct cur; congruence.
  - cbn [PyStr.forallb] in Hu. apply andb_prop in Hu as [Hc Hu].
    apply negb_true_iff in Hc. cbn [PyStr.split_aux]. rewrite Hc.
    rewrite IH; auto.
    + now rewrite append_assoc.
    + rewrite append_assoc. cbn [append]. destruct cur; discriminate.
Qed.

Lemma split_word (u : string) :
  u <> "" -> PyStr.forallb (fun c => negb (PyStr.is_space c)) u = true ->
  PyStr.split u = [u].
Proof. intros Hne Hu. unfold PyStr.split. now rewrite split_aux_word. Qed.

Lemma split_lstrip (s : string) : PyStr.split (PyStr.lstrip s) = PyStr.split s.
Proof.
  induction s as [|c s IH]; [reflexivity|].
  cbn [PyStr.lstrip]. unfold PyStr.split at 2. cbn [PyStr.split_aux].
  destruct (PyStr.is_space c) eqn:E; [exact IH|].
  unfold PyStr.split. cbn [PyStr.split_aux]. now rewrite E.
Qed.

Lemma rstrip_cons (c : ascii) (s : string) :
  PyStr.rstrip (String c s)
  = if String.eqb (PyStr.rstrip s) ""
    then (if PyStr.is_space c then "" else String c "")
    else String c (PyStr.rstrip s).
Proof. cbn [PyStr.rstrip]. now destruct (PyStr.rstrip s). Qed.

Lemma split_aux_rstrip (s : string) :
  forall cur, PyStr.split_aux cur (PyStr.rstrip s) = PyStr.split_aux cur s.
Proof.
  induction s as [|c s IH]; intros cur; [reflexivity|].
  rewrite rstrip_cons. destruct (String.eqb_spec (PyStr.rstrip s) "") as [E|E].
  - destruct (PyStr.is_space c) eqn:Hc; cbn [PyStr.split_aux]; rewrite Hc.
    + rewrite <- !IH, E. now destruct cur.
    + now rewrite <- IH, E.
  - cbn [PyStr.split_aux]. destruct (PyStr.is_space c); [destruct cur|];
      now rewrite IH.
Qed.

Lemma split_strip (s : string) : PyStr.split (PyStr.strip s) = PyStr.split s.
Proof.
  unfold PyStr.strip, PyStr.split at 1. rewrite split_aux_rstrip.
  apply split_lstrip.
Qed.

(** ** The words [word_to_num] sees in a window *)

Lemma clean_char_word (c : ascii) :
  PyStr.is_word c = true ->
  clean_char c = PyStr.lower_char c
  /\ PyStr.is_space (PyStr.lower_char c) = false.
Proof.
  destruct c as [[] [] [] [] [] [] [] []]; vm_compute; try congruence; auto.
Qed.

Lemma clean_char_separator (c : ascii) :
  is_separator c = true ->
  (c = "-"%char /\ clean_char c = " "%char)
  \/ (c <> "-"%char /\ clean_char c = c /\ PyStr.lower_char c = c
      /\ PyStr.is_space c = false).
Proof.
  destruct c as [[] [] [] [] [] [] [] []]; vm_compute; try congruence;
    intros _; try (left; split; reflexivity);
    right; repeat split; try reflexivity; discriminate.
Qed.

Lemma clean_window (s : string) :
  PyStr.lower (PyStr.replace_dash (PyStr.lower s)) = PyStr.map clean_char s.
Proof.
  unfold PyStr.lower, PyStr.replace_dash. rewrite !map_map. reflexivity.
Qed.

Lemma clean_word_token (t : string) :
  word_token t ->
  PyStr.map clean_char t = PyStr.lower t
  /\ PyStr.split (PyStr.lower t) = [PyStr.lower t]
  /\ String.eqb t "-" = false.
Proof.
  intros [Hne Hw].
  assert (H : PyStr.map clean_char t = PyStr.lower t
              /\ PyStr.forallb (fun c => negb (PyStr.is_space c)) (PyStr.lower t) = true).
  { clear Hne. induction t as [|c t IH]; [split; reflexivity|].
    cbn [PyStr.forallb] in Hw. apply andb_prop in Hw as [Hc Hw].
    destruct (IH Hw) as [IH1 IH2]. destruct (clean_char_word c Hc) as [H1 H2].
    unfold PyStr.lower in *. cbn [PyStr.map PyStr.forallb].
    now rewrite H1, IH1, H2, IH2. }
  destruct H as [H1 H2]. split; [exact H1|]. split.
  - apply split_word; [|exact H2]. destruct t; [congruence | discriminate].
  - destruct t as [|c t]; [congruence|].
    cbn [PyStr.forallb] in Hw. apply andb_prop in Hw as [Hc _].
    destruct (String.eqb_spec (String c t) "-") as [E|]; [|reflexivity].
    injection E as -> _. discriminate.
Qed.

(** The words of a window of tokens after [replace('-', ' ')],
    [lower()], [strip()] and [split()]: the tokens, lower-cased, without
    the hyphens. *)
Lemma window_words (W : list string) :
  Forall token W ->
  PyStr.split (PyStr.strip (PyStr.lower (PyStr.replace_dash (PyStr.lower (PyStr.join " " W)))))
  = List.map PyStr.lower (filter (fun t => negb (String.eqb t "-")) W).
Proof.
  intros HW. rewrite split_strip, clean_window, map_join by reflexivity.
  rewrite split_join.
  induction HW as [|t W Ht HW IH]; [reflexivity|].
  cbn [List.map flat_map filter]. rewrite IH.
  destruct Ht as [Hw | (c & -> & Hc)].
  - destruct (clean_word_token t Hw) as (-> & -> & ->). reflexivity.
  - destruct (clean_char_separator c Hc) as [[-> H]|(Hne & H1 & H2 & H3)].
    + reflexivity.
    + cbn [PyStr.map]. rewrite H1.
      assert (E : String.eqb (String c "") "-" = false).
      { destruct (String.eqb_spec (String c "") "-") as [E|]; [|reflexivity].
        injection E as ->. congruence. }
      rewrite E. cbn [negb List.map app].
      unfold PyStr.lower. cbn [PyStr.map]. rewrite H2.
      unfold PyStr.split. cbn [PyStr.split_aux]. rewrite H3. reflexivity.
Qed.

(** ** What the parser returns *)

Lemma number_word_parses (w : string) :
  W2N.is_number_word w = true ->
  exists n, W2N.word_to_num w = Returns (PyInt n).
Proof.
  unfold W2N.is_number_word, W2N.american_number_system. cbn [W2N.lookup].
  repeat match goal with
         | |- context [String.eqb w ?k] =>
             destruct (String.eqb_spec w k) as [->|_];
             [intros _; eexists; vm_compute; reflexivity|]
         end.
  discriminate.
Qed.

Lemma digits_not_number_word (d : string) :
  d <> "" -> PyStr.forallb PyStr.isdecimal_char d = true ->
  W2N.is_number_word d = false.
Proof.
  intros Hne Hd. destruct d as [|c d]; [congruence|].
  cbn [PyStr.forallb] in Hd. apply andb_prop in Hd as [Hc _].
  destruct c as [[] [] [] [] [] [] [] []]; try discriminate Hc; reflexivity.
Qed.

Lemma char_not_number_word (c : ascii) : W2N.is_number_word (String c "") = false.
Proof. destruct c as [[] [] [] [] [] [] [] []]; reflexivity. Qed.

Lemma number_of_nonneg (w : string) (n : Z) :
  W2N.number_of w = Returns n -> (0 <= n)%Z.
Proof.
  unfold W2N.number_of, W2N.american_number_system. cbn [W2N.lookup].
  repeat match goal with
         | |- context [String.eqb w ?k] =>
             destruct (String.eqb w k); [intros [= <-]; lia|]
         end.
  destruct (String.eqb w "point"); discriminate.
Qed.

Lemma numbers_of_nonneg (ws : list string) :
  forall ns, W2N.numbers_of ws = Returns ns -> Forall (fun n => (0 <= n)%Z) ns.
Proof.
  induction ws as [|w ws IH]; intros ns; cbn [W2N.numbers_of].
  - intros [= <-]. constructor.
  - destruct (W2N.number_of w) as [n|e] eqn:En; [|discriminate].
    cbn [bind]. destruct (W2N.numbers_of ws) as [ms|e] eqn:Em; [|discriminate].
    cbn [bind]. intros [= <-]. constructor; [now apply number_of_nonneg with w | auto].
Qed.

Lemma number_formation_nonneg (ws : list string) (n : Z) :
  W2N.number_formation ws = Returns n -> (0 <= n)%Z.
Proof.
  unfold W2N.number_formation.
  destruct (W2N.numbers_of ws) as [ns|e] eqn:E; [|discriminate].
  apply numbers_of_nonneg in E. cbn [bind].
  destruct ns as [|a [|b [|c [|d [|x ns]]]]];
    repeat match goal with
           | H : Forall _ (_ :: _) |- _ => inversion H; clear H; subst
           end;
    try discriminate;
    try (intros [= <-]; nia).
  destruct (existsb _ _); intros [= <-]; nia.
Qed.

Ltac split_parser H :=
  repeat match type of H with
    | Returns _ = Returns _ => injection H as <-
    | Raises _ = Returns _ => discriminate H
    | context [bind (Returns _) _] => cbn [bind] in H
    | context [bind (Raises _) _] => cbn [bind] in H
    | context [bind (W2N.number_formation ?l) _] =>
        let E := fresh "E" in
        destruct (W2N.number_formation l) eqn:E;
        [apply number_formation_nonneg in E|]
    | context [bind (W2N.number_of ?l) _] =>
        let E := fresh "E" in
        destruct (W2N.number_of l) eqn:E;
        [apply number_of_nonneg in E|]
    | context [if ?b then _ else _] => destruct b
    end.

(** Without the word "point" the parser returns an int, and it is not
    negative. *)
Lemma from_clean_numbers_int (clean : list string) (v : pynum) :
  W2N.count "point" clean = 0 ->
  W2N.from_clean_numbers clean = Returns v ->
  exists n, v = PyInt n /\ (0 <= n)%Z.
Proof.
  intros Hc H. unfold W2N.from_clean_numbers in H. rewrite Hc in H.
  cbn [Nat.eqb Nat.ltb Nat.leb orb] in H. cbn zeta in H.
  cbn [List.length Nat.ltb Nat.leb] in H.
  split_parser H; eexists; (split; [reflexivity | lia]).
Qed.

Lemma int_of_digits_nonneg (s : string) (n : Z) :
  PyStr.int_of_digits s = Returns n -> (0 <= n)%Z.
Proof.
  intros H. apply int_of_digits_inv in H as (_ & _ & _ & u & _ & ->).
  apply of_uint_nonneg.
Qed.

(** An int that the parser returns is not negative. *)
Lemma from_clean_numbers_nonneg (clean : list string) (n : Z) :
  W2N.from_clean_numbers clean = Returns (PyInt n) -> (0 <= n)%Z.
Proof.
  intros H. unfold W2N.from_clean_numbers in H. cbn zeta in H.
  unfold W2N.add_decimal, W2N.get_decimal_sum in H.
  repeat match type of H with
    | Returns (PyInt _) = Returns (PyInt _) => injection H as <-
    | Returns (PyFloat _) = Returns (PyInt _) => discriminate H
    | Raises _ = Returns _ => discriminate H
    | context [bind (Returns _) _] => cbn [bind] in H
    | context [bind (Raises _) _] => cbn [bind] in H
    | context [bind (W2N.number_formation ?l) _] =>
        let E := fresh "E" in
        destruct (W2N.number_formation l) eqn:E;
        [apply number_formation_nonneg in E|]
    | context [bind (W2N.number_of ?l) _] =>
        let E := fresh "E" in
        destruct (W2N.number_of l) eqn:E;
        [apply number_of_nonneg in E|]
    | context [if ?b then _ else _] => destruct b
    end; lia.
Qed.

Lemma w2n_int_nonneg (s : string) (n : Z) :
  W2N.word_to_num s = Returns (PyInt n) -> (0 <= n)%Z.
Proof.
  unfold W2N.word_to_num. cbn zeta. destruct (PyStr.isdigit _).
  - destruct (PyStr.int_of_digits _) as [m|e] eqn:E; [|discriminate].
    cbn [bind]. intros [= <-]. now apply int_of_digits_nonneg in E.
  - apply from_clean_numbers_nonneg.
Qed.

Lemma count_absent (w : string) (l : list string) :
  (forall x, In x l -> x <> w) -> W2N.count w l = 0.
Proof.
  intros H. unfold W2N.count. induction l as [|x l IH]; [reflexivity|].
  cbn [filter]. destruct (String.eqb_spec w x) as [->|_].
  - exfalso. now apply (H x (or_introl eq_refl)).
  - apply IH. intros y Hy. apply H. now right.
Qed.

(** The parser on a window of tokens none of which is "point". *)
Lemma window_parse_int (W : list string) (v : pynum) :
  Forall token W ->
  (forall t, In t W -> PyStr.lower t <> "point") ->
  W2N.word_to_num (PyStr.lower (PyStr.join " " W)) = Returns v ->
  exists n, v = PyInt n /\ (0 <= n)%Z.
Proof.
  intros HW Hp. unfold W2N.word_to_num. cbn zeta.
  destruct (PyStr.isdigit _).
  - destruct (PyStr.int_of_digits _) as [n|e] eqn:E; [|discriminate].
    cbn [bind]. intros [= <-]. exists n. split; [reflexivity|].
    now apply int_of_digits_nonneg in E.
  - rewrite (window_words W HW). apply from_clean_numbers_int.
    apply count_absent. intros x Hx.
    apply filter_In in Hx as [Hx _]. apply in_map_iff in Hx as (t & <- & Ht).
    apply filter_In in Ht as [Ht _]. now apply Hp.
Qed.

Lemma isdigit_with_space (a b : string) :
  PyStr.isdigit (a ++ String " " b) = false.
Proof.
  assert (H : PyStr.forallb PyStr.isdigit_char (a ++ String " " b) = false).
  { induction a as [|c a IH]; [reflexivity|].
    cbn [append PyStr.forallb]. now rewrite IH, andb_false_r. }
  unfold PyStr.isdigit. destruct (a ++ String " " b)%string; [reflexivity | exact H].
Qed.

Lemma stable_token (u : string) : stable u -> token u.
Proof.
  intros [H | [(n & Hn & ->) | [H _]]]; [now right | left | now left].
  destruct (str_int_decimal n Hn) as [Hne Hd].
  split; [exact Hne | now apply decimal_word].
Qed.

Lemma stable_not_number_word (u : string) :
  stable u -> W2N.is_number_word (PyStr.lower u) = false.
Proof.
  intros [(c & -> & _) | [(n & Hn & ->) | [_ H]]].
  - apply char_not_number_word.
  - destruct (str_int_decimal n Hn) as [Hne Hd].
    rewrite (lower_decimal _ Hd). now apply digits_not_number_word.
  - destruct (W2N.is_number_word (PyStr.lower u)) eqn:E; [|reflexivity].
    apply number_word_parses in E as (n & E). congruence.
Qed.

(** A window of two or more stable units does not parse. *)
Lemma window_of_stable_fails (W : list string) :
  2 <= List.length W -> Forall stable W ->
  W2N.word_to_num (PyStr.lower (PyStr.join " " W)) = Raises ValueError.
Proof.
  intros Hlen HW. unfold W2N.word_to_num. cbn zeta.
  assert (Hd : PyStr.isdigit
                 (PyStr.lower (PyStr.replace_dash (PyStr.lower (PyStr.join " " W))))
               = false).
  { rewrite clean_window, map_join by reflexivity.
    destruct W as [|p [|q W]]; cbn [List.length] in Hlen; try lia.
    cbn [List.map]. rewrite join_cons. apply isdigit_with_space. }
  rewrite Hd.
  rewrite window_words by (eapply Forall_impl; [|exact HW]; apply stable_token).
  assert (Hf : filter W2N.is_number_word
                 (List.map PyStr.lower (filter (fun t => negb (String.eqb t "-")) W))
               = []).
  { clear Hlen Hd. induction HW as [|u W Hu HW IH]; [reflexivity|].
    cbn [filter]. destruct (negb (String.eqb u "-")); [|exact IH].
    cbn [List.map filter]. now rewrite (stable_not_number_word u Hu). }
  rewrite Hf. reflexivity.
Qed.

(** ** The tokens of a text *)

Lemma tokenize_tokens_aux (s : string) :
  forall prev k,
    Forall token
      (flat_map (fun p => match p with Re.Match m => [m] | Re.Lit _ => [] end)
                (Re.scan token_re prev k s)).
Proof.
  induction s as [|c s IH]; intros prev k; [constructor|].
  destruct k as [|k]; [|apply IH].
  cbn [Re.scan]. unfold Re.match_at. rewrite token_matches.
  destruct (PyStr.is_word c) eqn:Hw.
  - cbn [Re.run]. rewrite Hw. cbn [Re.countdown app]. cbn iota beta.
    cbn [flat_map app]. constructor; [|apply IH].
    left. split; [discriminate|].
    pose proof (run_take PyStr.is_word (String c s)) as H.
    cbn [Re.run] in H. now rewrite Hw in H.
  - cbn [Re.run]. rewrite Hw. cbn [Re.countdown app].
    destruct (is_separator c) eqn:Hs; cbn iota beta; cbn [flat_map app];
      [|apply IH].
    constructor; [|apply IH]. right. exists c. split; [reflexivity | exact Hs].
Qed.

Lemma tokenize_tokens (s : string) : Forall token (tokenize s).
Proof. apply tokenize_tokens_aux. Qed.

Lemma separator_not_word (c : ascii) : is_separator c = true -> PyStr.is_word c = false.
Proof.
  unfold is_separator. intros H.
  apply negb_true_iff, orb_false_iff in H. tauto.
Qed.

Lemma fullmatch_word_separator (t : string) :
  separator_token t -> Re.fullmatch word_re t = false.
Proof.
  intros (c & -> & Hc). unfold Re.fullmatch, word_re. cbn [Re.matches Re.run].
  now rewrite (separator_not_word c Hc).
Qed.

Lemma fullmatch_nonword_separator (t : string) :
  separator_token t -> Re.fullmatch nonword_re t = true.
Proof.
  intros (c & -> & Hc). unfold Re.fullmatch, nonword_re. cbn [Re.matches].
  now rewrite (separator_not_word c Hc).
Qed.

Lemma token_cases (t : string) :
  token t ->
  (Re.fullmatch word_re t = true /\ word_token t)
  \/ (Re.fullmatch word_re t = false /\ separator_token t).
Proof.
  intros [H|H].
  - left. split; [|exact H]. destruct H. now apply fullmatch_word.
  - right. split; [|exact H]. now apply fullmatch_word_separator.
Qed.

(** ** Slices *)

Lemma slice_in {A : Type} (l : list A) (a b : nat) (x : A) :
  In x (PyStr.slice l a b) -> In x l.
Proof.
  unfold PyStr.slice. intros H.
  rewrite <- (firstn_skipn a l). apply in_or_app. right.
  rewrite <- (firstn_skipn (b - a) (skipn a l)). apply in_or_app. now left.
Qed.

Lemma slice_forall {A : Type} (P : A -> Prop) (l : list A) (a b : nat) :
  Forall P l -> Forall P (PyStr.slice l a b).
Proof.
  intros H. apply Forall_forall. intros x Hx.
  apply slice_in in Hx. revert x Hx. now apply Forall_forall.
Qed.

Lemma slice_length {A : Type} (l : list A) (a b : nat) :
  b <= List.length l -> List.length (PyStr.slice l a b) = b - a.
Proof.
  intros H. unfold PyStr.slice. rewrite length_firstn, length_skipn. lia.
Qed.

Lemma int_of_digits_str_int (n : Z) :
  (0 <= n)%Z ->
  PyStr.within_digit_limit (PyStr.str_int n) = true ->
  PyStr.int_of_digits (PyStr.str_int n) = Returns n.
Proof.
  intros Hn Hl. destruct (str_int_decimal n Hn) as [Hne Hd].
  destruct (int_of_digits_decimal _ Hne Hd Hl) as (u & Hu & ->).
  f_equal. apply NilEmpty.sus in Hu.
  rewrite <- (Z2N.id n Hn) in Hu |- *.
  destruct n as [|p|p]; [| |lia].
  - change (PyStr.str_int (Z.of_N (Z.to_N 0))) with "0" in Hu.
    change "0" with (NilEmpty.string_of_uint (Decimal.D0 Decimal.Nil)) in Hu.
    apply string_of_uint_inj in Hu. now subst u.
  - unfold PyStr.str_int in Hu. cbn [Z.to_N Z.of_N Z.to_int NilZero.string_of_int] in Hu.
    pose proof (DecimalPos.Unsigned.to_uint_nonnil p) as Hnn.
    assert (E : NilZero.string_of_uint (Pos.to_uint p)
                = NilEmpty.string_of_uint (Pos.to_uint p)).
    { unfold NilZero.string_of_uint. destruct (Pos.to_uint p); congruence. }
    rewrite E in Hu. apply string_of_uint_inj in Hu. subst u.
    unfold Z.of_uint. rewrite DecimalPos.Unsigned.of_to. reflexivity.
Qed.

(** ** One token as a window *)

Lemma lower_char_decimal (c : ascii) :
  PyStr.isdecimal_char (PyStr.lower_char c) = PyStr.isdecimal_char c.
Proof. destruct c as [[] [] [] [] [] [] [] []]; reflexivity. Qed.

Lemma lower_decimal_iff (t : string) :
  PyStr.forallb PyStr.isdecimal_char (PyStr.lower t)
  = PyStr.forallb PyStr.isdecimal_char t.
Proof.
  unfold PyStr.lower. induction t as [|c t IH]; [reflexivity|].
  cbn [PyStr.map PyStr.forallb]. now rewrite lower_char_decimal, IH.
Qed.

Lemma int_of_digits_lower (t : string) :
  PyStr.int_of_digits (PyStr.lower t) = PyStr.int_of_digits t.
Proof.
  destruct (PyStr.forallb PyStr.isdecimal_char t) eqn:E.
  - now rewrite (lower_decimal t E).
  - unfold PyStr.int_of_digits. rewrite lower_decimal_iff, E.
    now rewrite !andb_false_r.
Qed.

(** The parser on a token that is not a number word: [int], where the
    token is made of digits, and ValueError otherwise. *)
Lemma w2n_token (t : string) :
  word_token t ->
  W2N.is_number_word (PyStr.lower t) = false ->
  W2N.word_to_num (PyStr.lower t)
  = (n <- PyStr.int_of_digits t ;; Returns (PyInt n)).
Proof.
  intros Hw Hnw. unfold W2N.word_to_num. cbn zeta.
  rewrite clean_window.
  destruct (clean_word_token t Hw) as (Hclean & Hsplit & _).
  rewrite Hclean.
  destruct (PyStr.isdigit (PyStr.lower t)) eqn:Hd.
  - now rewrite int_of_digits_lower.
  - rewrite split_strip, Hsplit. cbn [filter]. rewrite Hnw.
    destruct (PyStr.int_of_digits t) as [n|e] eqn:En.
    + apply int_of_digits_inv in En as (Hne & Hdec & _).
      rewrite (lower_decimal t Hdec), (isdigit_decimal t Hne Hdec) in Hd.
      discriminate.
    + apply int_of_digits_raises in En as ->. reflexivity.
Qed.

(** What the parser makes of one token, [str] turns into text. *)
Lemma w2n_token_str (t : string) (num : pynum) :
  word_token t ->
  W2N.word_to_num (PyStr.lower t) = Returns num ->
  exists text, str num = Returns text.
Proof.
  intros Hw. destruct (W2N.is_number_word (PyStr.lower t)) eqn:Hnw.
  - revert Hnw. generalize (PyStr.lower t) as w. intros w.
    unfold W2N.is_number_word, W2N.american_number_system. cbn [W2N.lookup].
    repeat match goal with
           | |- context [String.eqb w ?k] =>
               destruct (String.eqb_spec w k) as [->|_];
               [intros _ H; vm_compute in H; injection H as <-;
                eexists; vm_compute; reflexivity|]
           end.
    discriminate.
  - rewrite (w2n_token t Hw Hnw).
    destruct (PyStr.int_of_digits t) as [n|e] eqn:En; [|discriminate].
    cbn [bind]. intros [= <-]. eexists. now apply str_accepted with t.
Qed.

Lemma reemit_separator (t : string) : separator_token t -> reemit t = t.
Proof.
  intros (c & -> & Hc). unfold reemit.
  destruct (PyStr.int_of_digits (String c "")) as [n|e] eqn:En; [|reflexivity].
  apply int_of_digits_inv in En as (_ & Hd & _).
  cbn [PyStr.forallb] in Hd. apply andb_prop in Hd as [Hd _].
  apply decimal_is_word in Hd. apply separator_not_word in Hc. congruence.
Qed.

(** ** A second pass *)

(** Without the word "point" among the tokens no window gives a
    float. *)
Lemma no_point_no_float (ts : list string) :
  Forall token ts ->
  (forall t, In t ts -> PyStr.lower t <> "point") ->
  forall i j v,
    W2N.word_to_num (phrase ts i j) = Returns v -> exists n, v = PyInt n.
Proof.
  intros Htok Hp i j v Hv.
  destruct (window_parse_int (PyStr.slice ts i j) v) as (n & -> & _).
  - now apply slice_forall.
  - intros t Hin. apply Hp. now apply slice_in in Hin.
  - exact Hv.
  - now exists n.
Qed.

(** The first pass leaves stable units only, when no window of the
    tokens gives a float. *)
Lemma first_pass_stable (ts : list string) :
  Forall token ts ->
  (forall i j v, i < j <= List.length ts ->
                 W2N.word_to_num (phrase ts i j) = Returns v ->
                 exists n, v = PyInt n) ->
  forall fuel i out out',
    Forall stable out ->
    while_loop W2N.word_to_num fuel ts i out = Some (Returns out') ->
    Forall stable out'.
Proof.
  intros Htok Hp.
  induction fuel as [|fuel IH]; intros i out out' Hout; [discriminate|].
  cbn [while_loop].
  destruct (Nat.ltb_spec i (List.length ts)) as [Hlt|Hge]; [|now intros [= <-]].
  assert (Hin : In (nth i ts "") ts) by (now apply nth_In).
  assert (Ht : token (nth i ts "")).
  { revert Hin. now apply Forall_forall. }
  destruct (token_cases _ Ht) as [[-> Hw] | [-> Hs]].
  - destruct (for_j W2N.word_to_num ts i (range_down (List.length ts) i))
      as [[[text j]|]|e] eqn:E; [| |discriminate].
    + apply for_j_found in E as (Hj & Htext & _).
      apply try_window_returns in Htext as (num & Hnum & Hstr).
      destruct (Hp i j num Hj Hnum) as (n & ->).
      pose proof (w2n_int_nonneg _ _ Hnum) as Hn.
      apply str_int_returns in Hstr as ->.
      apply IH. apply Forall_app. split; [exact Hout|].
      constructor; [|constructor]. right. left. now exists n.
    + pose proof (proj1 (for_j_none W2N.word_to_num ts i (List.length ts)) E
                    (S i) ltac:(lia)) as Hfail.
      unfold try_window in Hfail. rewrite (phrase_single ts i Hlt) in Hfail.
      assert (Hparse : W2N.word_to_num (PyStr.lower (nth i ts "")) = Raises ValueError).
      { destruct (W2N.word_to_num (PyStr.lower (nth i ts ""))) as [num|e] eqn:En;
          cbn [bind] in Hfail; [|now injection Hfail as ->].
        destruct (w2n_token_str _ num Hw En) as (text & Htext). congruence. }
      apply IH. apply Forall_app. split; [exact Hout|].
      constructor; [|constructor]. right. right. now split.
  - apply IH. apply Forall_app. split; [exact Hout|].
    constructor; [|constructor]. now left.
Qed.

(** On stable units the loop emits the units again. *)
Lemma second_pass_fixed (out : list string) :
  Forall stable out ->
  forall fuel i acc,
    List.length out - i < fuel ->
    while_loop W2N.word_to_num fuel out i acc
    = Some (Returns (acc ++ skipn i out)).
Proof.
  intros Hst.
  induction fuel as [|fuel IH]; intros i acc Hf; [lia|].
  cbn [while_loop].
  destruct (Nat.ltb_spec i (List.length out)) as [Hlt|Hge];
    [|rewrite skipn_all2 by lia; now rewrite List.app_nil_r].
  assert (Hu : stable (nth i out "")).
  { assert (Hin : In (nth i out "") out) by (now apply nth_In).
    revert Hin. now apply Forall_forall. }
  assert (Hlong : forall j, S i < j <= List.length out ->
                            try_window W2N.word_to_num out i j = Raises ValueError).
  { intros j Hj. apply try_window_raises. apply window_of_stable_fails.
    - rewrite slice_length; lia.
    - now apply slice_forall. }
  assert (Hnone : W2N.word_to_num (PyStr.lower (nth i out "")) = Raises ValueError ->
                  for_j W2N.word_to_num out i (range_down (List.length out) i)
                  = Returns None).
  { intros Hfail. apply for_j_none. intros j Hj.
    destruct (Nat.eq_dec j (S i)) as [->|Hneq]; [|apply Hlong; lia].
    apply try_window_raises. now rewrite (phrase_single out i Hlt). }
  rewrite (skipn_nth out i Hlt).
  destruct Hu as [Hs | [(n & Hn & Hu) | [Hw Hfail]]].
  - rewrite (fullmatch_word_separator _ Hs).
    rewrite IH by lia. now rewrite <- List.app_assoc.
  - destruct (str_int_decimal n Hn) as [Hne Hd].
    rewrite Hu at 1. rewrite (fullmatch_word _ Hne (decimal_word _ Hd)).
    destruct (PyStr.within_digit_limit (PyStr.str_int n)) eqn:Hl.
    + assert (E : for_j W2N.word_to_num out i (range_down (List.length out) i)
                  = Returns (Some (PyStr.str_int n, S i))).
      { apply for_j_found. split; [lia|]. split; [|exact Hlong].
        unfold try_window.
        rewrite (phrase_single out i Hlt), Hu, (lower_decimal _ Hd).
        rewrite (w2n_digits _ n Hne Hd (int_of_digits_str_int n Hn Hl)).
        cbn [bind]. apply str_accepted with (PyStr.str_int n).
        now apply int_of_digits_str_int. }
      rewrite E. rewrite IH by lia.
      rewrite <- List.app_assoc. cbn [app]. now rewrite Hu.
    + rewrite Hnone.
      * rewrite IH by lia. now rewrite <- List.app_assoc.
      * rewrite Hu, (lower_decimal _ Hd), (w2n_decimal _ Hne Hd).
        now rewrite (int_of_digits_over_limit _ Hl).
  - destruct Hw as [Hne Hw]. rewrite (fullmatch_word _ Hne Hw).
    rewrite (Hnone Hfail). rewrite IH by lia. now rewrite <- List.app_assoc.
Qed.

(** ** A text without number words *)

(** A window of two or more tokens none of which is a number word does
    not parse. *)
Lemma window_without_number_words (W : list string) :
  2 <= List.length W ->
  Forall token W ->
  Forall (fun t => W2N.is_number_word (PyStr.lower t) = false) W ->
  W2N.word_to_num (PyStr.lower (PyStr.join " " W)) = Raises ValueError.
Proof.
  intros Hlen HW Hnw. unfold W2N.word_to_num. cbn zeta.
  assert (Hd : PyStr.isdigit
                 (PyStr.lower (PyStr.replace_dash (PyStr.lower (PyStr.join " " W))))
               = false).
  { rewrite clean_window, map_join by reflexivity.
    destruct W as [|p [|q W]]; cbn [List.length] in Hlen; try lia.
    cbn [List.map]. rewrite join_cons. apply isdigit_with_space. }
  rewrite Hd, (window_words W HW).
  assert (Hf : filter W2N.is_number_word
                 (List.map PyStr.lower (filter (fun t => negb (String.eqb t "-")) W))
               = []).
  { clear Hlen Hd HW. induction Hnw as [|u W Hu _ IH]; [reflexivity|].
    cbn [filter]. destruct (negb (String.eqb u "-")); [|exact IH].
    cbn [List.map filter]. now rewrite Hu. }
  rewrite Hf. reflexivity.
Qed.

(** The [try] block on one token that is not a number word. *)
Lemma try_token (ts : list string) (i : nat) :
  i < List.length ts ->
  word_token (nth i ts "") ->
  W2N.is_number_word (PyStr.lower (nth i ts "")) = false ->
  try_window W2N.word_to_num ts i (S i)
  = match PyStr.int_of_digits (nth i ts "") with
    | Returns n => Returns (PyStr.str_int n)
    | Raises _ => Raises ValueError
    end.
Proof.
  intros Hi Hw Hnw. unfold try_window.
  rewrite (phrase_single ts i Hi), (w2n_token _ Hw Hnw).
  destruct (PyStr.int_of_digits (nth i ts "")) as [n|e] eqn:En; cbn [bind].
  - now apply str_accepted with (nth i ts "").
  - now apply int_of_digits_raises in En as ->.
Qed.

(** When no token is a number word, every token is tried on its own
    and the units are the tokens, the digits among them read by [int]
    and written by [str]. *)
Lemma while_loop_without_number_words (ts : list string) :
  Forall token ts ->
  Forall (fun t => W2N.is_number_word (PyStr.lower t) = false) ts ->
  forall fuel i out,
    List.length ts - i < fuel ->
    while_loop W2N.word_to_num fuel ts i out
    = Some (Returns (out ++ List.map reemit (skipn i ts))).
Proof.
  intros Htok Hnw.
  induction fuel as [|fuel IH]; intros i out Hf; [lia|].
  cbn [while_loop].
  destruct (Nat.ltb_spec i (List.length ts)) as [Hlt|Hge];
    [|rewrite skipn_all2 by lia; cbn [List.map]; now rewrite List.app_nil_r].
  assert (Hin : In (nth i ts "") ts) by (now apply nth_In).
  assert (Ht : token (nth i ts "")).
  { revert Hin. now apply Forall_forall. }
  assert (Hn : W2N.is_number_word (PyStr.lower (nth i ts "")) = false).
  { revert Hin. revert Hnw. rewrite Forall_forall. auto. }
  assert (Hlong : forall j, S i < j <= List.length ts ->
                            try_window W2N.word_to_num ts i j = Raises ValueError).
  { intros j Hj. apply try_window_raises. apply window_without_number_words.
    - rewrite slice_length; lia.
    - now apply slice_forall.
    - now apply slice_forall. }
  rewrite (skipn_nth ts i Hlt). cbn [List.map].
  destruct (token_cases _ Ht) as [[-> Hw] | [-> Hs]].
  - pose proof (try_token ts i Hlt Hw Hn) as Htry. unfold reemit at 1.
    destruct (PyStr.int_of_digits (nth i ts "")) as [n|e] eqn:En.
    + assert (E : for_j W2N.word_to_num ts i (range_down (List.length ts) i)
                  = Returns (Some (PyStr.str_int n, S i))).
      { apply for_j_found. split; [lia|]. split; [exact Htry | exact Hlong]. }
      rewrite E, IH by lia. now rewrite <- List.app_assoc.
    + assert (E : for_j W2N.word_to_num ts i (range_down (List.length ts) i)
                  = Returns None).
      { apply for_j_none. intros j Hj.
        destruct (Nat.eq_dec j (S i)) as [->|Hneq]; [exact Htry | apply Hlong; lia]. }
      rewrite E, IH by lia. now rewrite <- List.app_assoc.
  - rewrite (reemit_separator _ Hs), IH by lia. now rewrite <- List.app_assoc.
Qed.

Lemma normalize_without_number_words (text : string) :
  Forall (fun t => W2N.is_number_word (PyStr.lower t) = false) (tokenize text) ->
  replace_number_words W2N.word_to_num text "en"
  = Some (Returns (reassemble (List.map reemit (tokenize text)))).
Proof.
  intros H. unfold replace_number_words, normalize_en.
  cbn [String.eqb Ascii.eqb Bool.eqb negb].
  rewrite (while_loop_without_number_words (tokenize text) (tokenize_tokens text) H)
    by lia.
  reflexivity.
Qed.

(** ** Reading the output again *)

Lemma concat_cons (x : string) (l : list string) :
  String.concat "" (x :: l) = (x ++ String.concat "" l)%string.
Proof. destruct l; cbn; [now rewrite append_nil_r | reflexivity]. Qed.

Lemma unit_text_word (u : string) :
  word_token u -> unit_text u = (u ++ " ")%string.
Proof. intros [Hne Hw]. unfold unit_text. now rewrite fullmatch_nonword_word. Qed.

Lemma unit_text_separator (u : string) :
  separator_token u -> unit_text u = u.
Proof. intros H. unfold unit_text. now rewrite fullmatch_nonword_separator. Qed.

Lemma token_head (u : string) :
  token u -> exists c r, u = String c r /\ PyStr.is_space c = false.
Proof.
  intros [[Hne Hw] | (c & -> & Hc)].
  - destruct u as [|c r]; [congruence|]. exists c, r. split; [reflexivity|].
    cbn [PyStr.forallb] in Hw. apply andb_prop in Hw as [Hc _].
    now apply word_not_space.
  - exists c, "". split; [reflexivity|]. unfold is_separator in Hc.
    apply negb_true_iff, orb_false_iff in Hc. tauto.
Qed.

Lemma rstrip_app (a b : string) :
  PyStr.rstrip b <> "" -> PyStr.rstrip (a ++ b) = (a ++ PyStr.rstrip b)%string.
Proof.
  intros Hb. induction a as [|c a IH]; [reflexivity|].
  cbn [append]. rewrite rstrip_cons, IH.
  destruct (String.eqb_spec (a ++ PyStr.rstrip b) "") as [E|_]; [|reflexivity].
  destruct a; cbn in E; congruence.
Qed.

Lemma rstrip_token (u : string) : token u -> PyStr.rstrip u = u.
Proof.
  intros [[Hne Hw] | (c & -> & Hc)].
  - apply word_no_space in Hw. clear Hne.
    induction u as [|c u IH]; [reflexivity|].
    cbn [PyStr.forallb] in Hw. apply andb_prop in Hw as [Hc Hw].
    apply negb_true_iff in Hc. rewrite rstrip_cons, (IH Hw), Hc.
    now destruct u.
  - unfold is_separator in Hc. apply negb_true_iff, orb_false_iff in Hc.
    cbn. now destruct Hc as [_ ->].
Qed.

Lemma joined_stripped_nonempty (u : string) (out : list string) :
  token u -> joined_stripped (u :: out) <> "".
Proof.
  intros Hu. destruct (token_head u Hu) as (c & r & -> & _).
  destruct out as [|v out]; [discriminate|].
  cbn [joined_stripped]. unfold unit_text.
  destruct (Re.fullmatch nonword_re (String c r)); discriminate.
Qed.

Lemma rstrip_joined (out : list string) :
  Forall token out -> PyStr.rstrip (joined out) = joined_stripped out.
Proof.
  unfold joined. induction 1 as [|u out Hu Hout IH]; [reflexivity|].
  cbn [List.map]. rewrite concat_cons.
  destruct out as [|v out].
  - cbn [List.map String.concat joined_stripped]. rewrite append_nil_r.
    destruct Hu as [Hw | Hs].
    + rewrite (unit_text_word u Hw). apply rstrip_app_space.
      destruct Hw as [_ Hw]. now apply word_no_space.
    + rewrite (unit_text_separator u Hs). apply rstrip_token. now right.
  - rewrite rstrip_app; rewrite IH.
    + reflexivity.
    + apply joined_stripped_nonempty. now inversion Hout.
Qed.

Lemma lstrip_joined (out : list string) :
  Forall token out -> PyStr.lstrip (joined out) = joined out.
Proof.
  unfold joined. intros H. destruct H as [|u out Hu Hout]; [reflexivity|].
  cbn [List.map]. rewrite concat_cons.
  destruct (token_head u Hu) as (c & r & -> & Hc).
  unfold unit_text. destruct (Re.fullmatch nonword_re (String c r));
    cbn [append PyStr.lstrip]; now rewrite Hc.
Qed.

Lemma reassemble_stripped (out : list string) :
  Forall token out -> reassemble out = joined_stripped out.
Proof.
  intros H. unfold reassemble, PyStr.strip. fold (joined out).
  rewrite (lstrip_joined out H). now apply rstrip_joined.
Qed.

Lemma tokenize_joined_stripped (out : list string) :
  Forall token out -> tokenize (joined_stripped out) = out.
Proof.
  induction 1 as [|u out Hu Hout IH]; [reflexivity|].
  destruct out as [|v out].
  - cbn [joined_stripped]. destruct Hu as [[Hne Hw] | (c & -> & Hc)].
    + now apply tokenize_single_word.
    + unfold is_separator in Hc. apply negb_true_iff, orb_false_iff in Hc.
      destruct Hc as [Hw Hs]. now rewrite tokenize_separator.
  - change (joined_stripped (u :: v :: out))
      with (unit_text u ++ joined_stripped (v :: out))%string.
    destruct Hu as [Hw | (c & -> & Hc)].
    + rewrite (unit_text_word u Hw), append_assoc.
      destruct Hw as [Hne Hw].
      rewrite tokenize_word by auto.
      cbn [append]. rewrite tokenize_space by reflexivity. now rewrite IH.
    + rewrite unit_text_separator by (exists c; auto).
      unfold is_separator in Hc. apply negb_true_iff, orb_false_iff in Hc.
      destruct Hc as [Hw Hs]. cbn [append].
      rewrite tokenize_separator by auto. now rewrite IH.
Qed.

(** Words are joined with one space between them. *)
Lemma joined_stripped_words (ws : list string) :
  Forall word_token ws -> joined_stripped ws = PyStr.join " " ws.
Proof.
  induction 1 as [|u ws Hu Hws IH]; [reflexivity|].
  destruct ws as [|v ws]; [reflexivity|].
  change (joined_stripped (u :: v :: ws))
    with (unit_text u ++ joined_stripped (v :: ws))%string.
  rewrite join_cons, (unit_text_word u Hu), IH, append_assoc. reflexivity.
Qed.

(** ** A text of words and whitespace *)

Lemma forallb_app (p : ascii -> bool) (a b : string) :
  PyStr.forallb p (a ++ b) = PyStr.forallb p a && PyStr.forallb p b.
Proof.
  induction a as [|c a IH]; [reflexivity|].
  cbn [append PyStr.forallb]. now rewrite IH, andb_assoc.
Qed.

(** On such a text the tokenizer is [str.split]. *)
Lemma split_aux_tokenize (s : string) :
  forall cur,
    words_only s = true ->
    PyStr.forallb PyStr.is_word cur = true ->
    PyStr.split_aux cur s = tokenize (cur ++ s).
Proof.
  unfold words_only.
  induction s as [|c s IH]; intros cur Hs Hcur.
  - rewrite append_nil_r. destruct cur as [|a cur]; [reflexivity|].
    cbn [PyStr.split_aux]. symmetry. now apply tokenize_single_word.
  - cbn [PyStr.forallb] in Hs. apply andb_prop in Hs as [Hc Hs].
    cbn [PyStr.split_aux]. destruct (PyStr.is_space c) eqn:Hsp.
    + pose proof (IH "" Hs eq_refl) as IH0. cbn [append] in IH0.
      destruct cur as [|a cur].
      * cbn [append]. now rewrite tokenize_space.
      * rewrite tokenize_word; [| discriminate | exact Hcur
                                | cbn; now apply space_not_word].
        now rewrite tokenize_space, IH0.
    + rewrite orb_false_r in Hc. rewrite IH; [| exact Hs |].
      * now rewrite append_assoc.
      * rewrite forallb_app. cbn [PyStr.forallb]. now rewrite Hcur, Hc.
Qed.

Lemma tokenize_split (text : string) :
  words_only text = true -> tokenize text = PyStr.split text.
Proof. intros H. symmetry. now apply (split_aux_tokenize text ""). Qed.

Lemma split_aux_words (s : string) :
  forall cur,
    words_only s = true ->
    PyStr.forallb PyStr.is_word cur = true ->
    Forall word_token (PyStr.split_aux cur s).
Proof.
  unfold words_only.
  induction s as [|c s IH]; intros cur Hs Hcur.
  - destruct cur as [|a cur]; [constructor|].
    constructor; [|constructor]. split; [discriminate | exact Hcur].
  - cbn [PyStr.forallb] in Hs. apply andb_prop in Hs as [Hc Hs].
    cbn [PyStr.split_aux]. destruct (PyStr.is_space c) eqn:Hsp.
    + destruct cur as [|a cur]; [now apply IH|].
      constructor; [split; [discriminate | exact Hcur] | now apply IH].
    + rewrite orb_false_r in Hc. apply IH; [exact Hs|].
      rewrite forallb_app. cbn [PyStr.forallb]. now rewrite Hcur, Hc.
Qed.

Lemma words_tokens (ws : list string) : Forall word_token ws -> Forall token ws.
Proof. intros H. eapply Forall_impl; [|exact H]. intros t Ht. now left. Qed.

(** With no window parsing, such a text comes back as its words, one
    space apart. *)
Lemma normalize_words (P : string -> pyres pynum) (text : string) :
  words_only text = true ->
  (forall i j, i < j <= List.length (tokenize text) ->
               P (phrase (tokenize text) i j) = Raises ValueError) ->
  replace_number_words P text "en"
  = Some (Returns (PyStr.join " " (PyStr.split text))).
Proof.
  intros Hw Hall. rewrite (normalize_en_literal P text Hall).
  rewrite (tokenize_split text Hw).
  pose proof (split_aux_words text "" Hw eq_refl) as Hws.
  fold (PyStr.split text) in Hws.
  rewrite (reassemble_stripped _ (words_tokens _ Hws)).
  now rewrite (joined_stripped_words _ Hws).
Qed.

Lemma normalize_spaced_words (P : string -> pyres pynum) (ws : list string) :
  Forall word_token ws ->
  (forall i j, i < j <= List.length ws ->
               P (phrase ws i j) = Raises ValueError) ->
  replace_number_words P (PyStr.join " " ws) "en"
  = Some (Returns (PyStr.join " " ws)).
Proof.
  intros Hws Hall.
  pose proof (words_tokens ws Hws) as Htok.
  pose proof (joined_stripped_words ws Hws) as Hj.
  pose proof (tokenize_joined_stripped ws Htok) as Ht. rewrite Hj in Ht.
  rewrite normalize_en_literal; rewrite Ht; [|exact Hall].
  now rewrite (reassemble_stripped ws Htok), Hj.
Qed.

(** The parser rejects a separator. *)
Lemma w2n_separator (t : string) :
  separator_token t -> W2N.word_to_num (PyStr.lower t) = Raises ValueError.
Proof.
  intros (c & -> & Hc).
  destruct c as [[] [] [] [] [] [] [] []]; try discriminate Hc; reflexivity.
Qed.

(** No window parses when no token is a number word or a string of
    digits that [int] accepts. *)
Lemma windows_without_numbers (ts : list string) :
  Forall token ts ->
  Forall (fun t => W2N.is_number_word (PyStr.lower t) = false
                   /\ PyStr.int_of_digits t = Raises ValueError) ts ->
  forall i j, i < j <= List.length ts ->
              W2N.word_to_num (phrase ts i j) = Raises ValueError.
Proof.
  intros Htok Hno i j Hij.
  destruct (Nat.eq_dec j (S i)) as [->|Hne].
  - assert (Hi : i < List.length ts) by lia.
    assert (Hin : In (nth i ts "") ts) by (now apply nth_In).
    rewrite (phrase_single ts i Hi).
    destruct (proj1 (Forall_forall _ _) Hno _ Hin) as [Hnw Hint].
    destruct (proj1 (Forall_forall _ _) Htok _ Hin) as [Hw|Hs].
    + now rewrite (w2n_token _ Hw Hnw), Hint.
    + now apply w2n_separator.
  - apply window_without_number_words.
    + rewrite slice_length; lia.
    + now apply slice_forall.
    + apply slice_forall. eapply Forall_impl; [|exact Hno]. now intros t [H _].
Qed.

(** C6, amended: when no window starting at a word-token parses, each of
    them raising ValueError, the token is appended as it is and the scan
    advances by one token; where that is so at every token, the units are
    the tokens; a text of words and whitespace then comes back as its
    words one space apart, which is the text itself when it is written
    that way, as "the quick brown fox" is.  No window parses when no
    token is a number word or a string of digits that [int] accepts, so
    that a text of such words and whitespace comes back as its words one
    space apart. *)
Theorem C6_no_match_keeps_token :
  (forall P tokens i fuel out,
      i < List.length tokens ->
      Re.fullmatch word_re (nth i tokens "") = true ->
      (forall j, i < j <= List.length tokens ->
                 P (phrase tokens i j) = Raises ValueError) ->
      while_loop P (S fuel) tokens i out
      = while_loop P fuel tokens (S i) (out ++ [nth i tokens ""]))
  /\ (forall P text,
        (forall i j, i < j <= List.length (tokenize text) ->
                     P (phrase (tokenize text) i j) = Raises ValueError) ->
        while_loop P (S (List.length (tokenize text))) (tokenize text) 0 []
        = Some (Returns (tokenize text))
        /\ (words_only text = true ->
            replace_number_words P text "en"
            = Some (Returns (PyStr.join " " (PyStr.split text))))
        /\ (forall ws, Forall word_token ws -> text = PyStr.join " " ws ->
                       replace_number_words P text "en" = Some (Returns text)))
  /\ (forall text,
        Forall (fun t => W2N.is_number_word (PyStr.lower t) = false
                         /\ PyStr.int_of_digits t = Raises ValueError)
               (tokenize text) ->
        forall i j, i < j <= List.length (tokenize text) ->
                    W2N.word_to_num (phrase (tokenize text) i j)
                    = Raises ValueError)
  /\ (forall text,
        words_only text = true ->
        Forall (fun t => W2N.is_number_word (PyStr.lower t) = false
                         /\ PyStr.int_of_digits t = Raises ValueError)
               (tokenize text) ->
        replace_number_words W2N.word_to_num text "en"
        = Some (Returns (PyStr.join " " (PyStr.split text))))
  /\ replace_number_words W2N.word_to_num "the quick brown fox" "en"
     = Some (Returns "the quick brown fox").
Proof.
  split.
  { intros P tokens i fuel out Hi Hw Hall.
    apply while_loop_no_match; auto. apply for_j_none.
    intros j Hj. apply try_window_raises. now apply Hall. }
  split.
  { intros P text Hall. split; [|split].
    - now rewrite (while_loop_literal P (tokenize text) Hall) by lia.
    - intros Hw. now apply normalize_words.
    - intros ws Hws ->. apply normalize_spaced_words; [exact Hws|].
      pose proof (tokenize_joined_stripped ws (words_tokens ws Hws)) as Ht.
      rewrite (joined_stripped_words ws Hws) in Ht. now rewrite <- Ht. }
  split.
  { intros text Hno.
    apply windows_without_numbers; [apply tokenize_tokens | exact Hno]. }
  split; [|vm_compute; reflexivity].
  intros text Hw Hno. apply normalize_words; [exact Hw|].
  apply windows_without_numbers; [apply tokenize_tokens | exact Hno].
Qed.

Lemma C6_no_match_keeps_token_witness :
  replace_number_words W2N.word_to_num " the quick  brown fox" "en"
  = Some (Returns (PyStr.join " " (PyStr.split " the quick  brown fox"))).
Proof.
  destruct C6_no_match_keeps_token as (_ & _ & _ & Hwords & _).
  apply (Hwords " the quick  brown fox"); [reflexivity|].
  assert (Ht : tokenize " the quick  brown fox" = ["the"; "quick"; "brown"; "fox"])
    by (vm_compute; reflexivity).
  rewrite Ht.
  repeat (apply Forall_cons; [split; vm_compute; reflexivity|]). apply Forall_nil.
Defined.

(** C6 as stated fails.  No window of "the quick  brown fox", written
    with two spaces after "quick", parses, and the text comes back with
    one space there.  "room 007" has no spelled-out number in it, but the
    window "007" parses, and the text comes back as "room 7". *)
Lemma C6_text_without_number_words_is_rewritten :
  (forall i j, i < j <= 4 ->
               W2N.word_to_num (phrase (tokenize "the quick  brown fox") i j)
               = Raises ValueError)
  /\ replace_number_words W2N.word_to_num "the quick  brown fox" "en"
     = Some (Returns "the quick brown fox")
  /\ "the quick brown fox" <> "the quick  brown fox"
  /\ replace_number_words W2N.word_to_num "room 007" "en" = Some (Returns "room 7")
  /\ "room 7" <> "room 007".
Proof.
  split.
  - intros i j Hij.
    destruct i as [|[|[|[|i]]]]; destruct j as [|[|[|[|[|j]]]]]; try lia;
      vm_compute; reflexivity.
  - repeat split; try (vm_compute; reflexivity); discriminate.
Qed.

(** ** Tokens of digits *)

Lemma zeros_decimal (k : nat) :
  PyStr.forallb PyStr.isdecimal_char (PyFloat.zeros k) = true.
Proof. induction k as [|k IH]; [reflexivity | exact IH]. Qed.

Lemma zeros_length (k : nat) : String.length (PyFloat.zeros k) = k.
Proof. induction k as [|k IH]; cbn; congruence. Qed.

Lemma reassemble_single_digits (d : string) :
  d <> "" -> PyStr.forallb PyStr.isdecimal_char d = true -> reassemble [d] = d.
Proof. intros Hne Hd. apply reassemble_single_word; auto using decimal_word. Qed.

(** A text that is one token of digits. *)
Lemma normalize_digits (d : string) :
  d <> "" -> PyStr.forallb PyStr.isdecimal_char d = true ->
  replace_number_words W2N.word_to_num d "en" = Some (Returns (reemit d)).
Proof.
  intros Hne Hd.
  pose proof (tokenize_single_word d Hne (decimal_word d Hd)) as Ht.
  rewrite normalize_without_number_words; rewrite Ht.
  - cbn [List.map]. unfold reemit.
    destruct (PyStr.int_of_digits d) as [n|e] eqn:En.
    + destruct (str_int_decimal n (int_of_digits_nonneg d n En)) as [Hsne Hsd].
      now rewrite reassemble_single_digits.
    + now rewrite reassemble_single_digits.
  - constructor; [|constructor].
    rewrite (lower_decimal d Hd). now apply digits_not_number_word.
Qed.

Lemma over_limit_nonempty (d : string) :
  PyStr.within_digit_limit d = false -> d <> "".
Proof. intros H ->. discriminate H. Qed.




(** C5, amended: on a text no window of which the parser turns into a
    float, what a first pass returns is returned unchanged by a second
    pass; a text none of whose tokens is the word "point", in any letter
    case, is such a text. *)
Theorem C5_idempotent_without_floats :
  (forall x y,
      (forall i j v, i < j <= List.length (tokenize x) ->
                     W2N.word_to_num (phrase (tokenize x) i j) = Returns v ->
                     exists n, v = PyInt n) ->
      replace_number_words W2N.word_to_num x "en" = Some (Returns y) ->
      replace_number_words W2N.word_to_num y "en" = Some (Returns y))
  /\ (forall x,
        (forall t, In t (tokenize x) -> PyStr.lower t <> "point") ->
        forall i j v, i < j <= List.length (tokenize x) ->
                      W2N.word_to_num (phrase (tokenize x) i j) = Returns v ->
                      exists n, v = PyInt n).
Proof.
  split.
  - intros x y Hp. unfold replace_number_words, normalize_en.
    cbn [String.eqb Ascii.eqb Bool.eqb negb].
    destruct (while_loop W2N.word_to_num (S (List.length (tokenize x))) (tokenize x) 0 [])
      as [[out|e]|] eqn:E; try discriminate.
    intros [= <-].
    assert (Hst : Forall stable out).
    { apply (first_pass_stable (tokenize x) (tokenize_tokens x) Hp _ _ _ _
               (Forall_nil _) E). }
    assert (Htok : Forall token out).
    { eapply Forall_impl; [|exact Hst]. apply stable_token. }
    rewrite (reassemble_stripped out Htok), (tokenize_joined_stripped out Htok).
    rewrite (second_pass_fixed out Hst) by lia.
    cbn [app skipn]. now rewrite (reassemble_stripped out Htok).
  - intros x Hp i j v _.
    apply (no_point_no_float (tokenize x) (tokenize_tokens x) Hp).
Qed.

Lemma C5_idempotent_without_floats_witness :
  replace_number_words W2N.word_to_num "the 7 fox ." "en"
  = Some (Returns "the 7 fox .").
Proof.
  destruct C5_idempotent_without_floats as (Hidem & Hpoint).
  apply (Hidem "the 007 fox." "the 7 fox .").
  - apply Hpoint. intros t Ht. vm_compute in Ht.
    repeat (destruct Ht as [<-|Ht]; [discriminate|]). contradiction.
  - reflexivity.
Defined.

(** C5 as stated fails: a phrase with a decimal part is
    turned into the text of a float, which a second pass takes apart. *)
Lemma C5_float_is_taken_apart :
  replace_number_words W2N.word_to_num "one point five" "en" = Some (Returns "1.5")
  /\ replace_number_words W2N.word_to_num "1.5" "en" = Some (Returns "1 .5")
  /\ "1 .5" <> "1.5".
Proof. repeat split; try (vm_compute; reflexivity). discriminate. Qed.

(** * Further properties of the program *)

(** ** The normaliser *)

Lemma while_loop_raises (P : string -> pyres pynum) (ts : list string) :
  forall fuel i out e,
    while_loop P fuel ts i out = Some (Raises e) ->
    e <> ValueError
    /\ exists i' j, i' < j <= List.length ts /\ P (phrase ts i' j) = Raises e.
Proof.
  induction fuel as [|fuel IH]; intros i out e; [discriminate|].
  cbn [while_loop].
  destruct (Nat.ltb_spec i (List.length ts)) as [Hlt|Hge]; [|discriminate].
  destruct (Re.fullmatch word_re (nth i ts "")); [|apply IH].
  destruct (for_j P ts i (range_down (List.length ts) i)) as [[[num j]|]|e'] eqn:E;
    [apply IH | apply IH |].
  intros [= <-]. apply for_j_raises in E as (Hne & j & Hin & Hj).
  apply range_down_in in Hin. split; [exact Hne|]. now exists i, j.
Qed.

(** The search for a window, for any parser: the loop over [j] breaks at
    [j] with a text exactly when the [try] block gave that text for the
    window ending at [j] and raised ValueError for every longer window;
    it runs to its [else] branch exactly when the [try] block raised
    ValueError for every window; it raises [e] exactly when [e] is not
    ValueError and the [try] block raised it for a window, having raised
    ValueError for every longer one.  After a [break] at [j] the text is
    appended and the scan goes on at [j]. *)
Theorem window_search_outcome :
  forall (P : string -> pyres pynum) (tokens : list string) (i : nat),
    (forall text j,
        for_j P tokens i (range_down (List.length tokens) i) = Returns (Some (text, j))
        <-> (i < j <= List.length tokens
             /\ try_window P tokens i j = Returns text
             /\ forall j', j < j' <= List.length tokens ->
                           try_window P tokens i j' = Raises ValueError))
    /\ (for_j P tokens i (range_down (List.length tokens) i) = Returns None
        <-> forall j, i < j <= List.length tokens ->
                      try_window P tokens i j = Raises ValueError)
    /\ (forall e,
          for_j P tokens i (range_down (List.length tokens) i) = Raises e
          <-> (e <> ValueError
               /\ exists j,
                    i < j <= List.length tokens
                    /\ try_window P tokens i j = Raises e
                    /\ forall j', j < j' <= List.length tokens ->
                                  try_window P tokens i j' = Raises ValueError))
    /\ (forall text j fuel out,
          i < List.length tokens ->
          Re.fullmatch word_re (nth i tokens "") = true ->
          for_j P tokens i (range_down (List.length tokens) i)
          = Returns (Some (text, j)) ->
          while_loop P (S fuel) tokens i out
          = while_loop P fuel tokens j (out ++ [text])).
Proof.
  intros P tokens i.
  split; [intros text j; apply for_j_found|].
  split; [apply for_j_none|].
  split; [intros e; apply for_j_raised|].
  intros text j fuel out. apply while_loop_match.
Qed.

Lemma window_search_outcome_witness :
  for_j W2N.word_to_num ["and"; "Two"; "thousand"; "Thousand"] 1
        (range_down 4 1)
  = Returns (Some ("2000", 3)).
Proof.
  destruct (window_search_outcome
              W2N.word_to_num ["and"; "Two"; "thousand"; "Thousand"] 1)
    as (Hfound & _).
  apply (Hfound "2000" 3). split; [simpl; lia|]. split; [vm_compute; reflexivity|].
  intros j' Hj'. simpl in Hj'.
  assert (j' = 4) as -> by lia. vm_compute. reflexivity.
Defined.

(** The loop over the tokens ends, whatever the parser: an iteration per
    token is enough, so the call returns or raises; and it returns when
    the parser raises nothing but ValueError on the windows of the
    text. *)
Theorem replace_number_words_ends :
  forall (P : string -> pyres pynum) (text language : string),
    (exists r, replace_number_words P text language = Some r)
    /\ ((forall i j e, i < j <= List.length (tokenize text) ->
                       P (phrase (tokenize text) i j) = Raises e -> e = ValueError) ->
        exists y, replace_number_words P text language = Some (Returns y)).
Proof.
  intros P text language.
  split; [apply replace_number_words_finishes | apply replace_number_words_returns].
Qed.

Lemma replace_number_words_ends_witness :
  exists y, replace_number_words W2N.word_to_num "I have two apples" "en"
            = Some (Returns y).
Proof.
  apply (proj2 (replace_number_words_ends W2N.word_to_num "I have two apples" "en")).
  intros i j e Hij.
  change (List.length (tokenize "I have two apples")) with 4 in Hij.
  destruct i as [|[|[|[|i]]]]; destruct j as [|[|[|[|[|j]]]]]; try lia;
    vm_compute; congruence.
Defined.

(** A ValueError never leaves [replace_number_words]: what it raises was
    raised by the parser on a window of the text, for language "en", and
    is another exception. *)
Theorem value_error_never_escapes :
  forall (P : string -> pyres pynum) (text language : string) (e : exn),
    replace_number_words P text language = Some (Raises e) ->
    language = "en"
    /\ e <> ValueError
    /\ exists i j,
         i < j <= List.length (tokenize text)
         /\ P (phrase (tokenize text) i j) = Raises e.
Proof.
  intros P text language e. unfold replace_number_words, normalize_en.
  destruct (String.eqb_spec language "en") as [->|Hne]; cbn [negb]; [|discriminate].
  destruct (while_loop P _ (tokenize text) 0 []) as [[out|e']|] eqn:E; try discriminate.
  intros [= <-]. split; [reflexivity|]. exact (while_loop_raises P _ _ _ _ _ E).
Qed.

Lemma value_error_never_escapes_witness :
  "en" = "en"
  /\ IndexError <> ValueError
  /\ exists i j,
       i < j <= List.length (tokenize "million thousand")
       /\ W2N.word_to_num (phrase (tokenize "million thousand") i j) = Raises IndexError.
Proof.
  apply (value_error_never_escapes W2N.word_to_num "million thousand" "en" IndexError).
  vm_compute. reflexivity.
Defined.

Lemma tokenize_no_word (text : string) :
  PyStr.forallb (fun c => negb (PyStr.is_word c)) text = true ->
  Forall separator_token (tokenize text).
Proof.
  induction text as [|c s IH]; [constructor|]. cbn [PyStr.forallb].
  intros H. apply andb_prop in H as [Hc Hs]. apply negb_true_iff in Hc.
  destruct (PyStr.is_space c) eqn:Hsp.
  - rewrite tokenize_space by exact Hsp. now apply IH.
  - rewrite tokenize_separator by auto. constructor; [|now apply IH].
    exists c. split; [reflexivity|]. unfold is_separator. now rewrite Hc, Hsp.
Qed.

Lemma while_loop_separators (P : string -> pyres pynum) (ts : list string) :
  Forall separator_token ts ->
  forall fuel i out,
    List.length ts - i < fuel ->
    while_loop P fuel ts i out = Some (Returns (out ++ skipn i ts)).
Proof.
  intros Hsep. induction fuel as [|fuel IH]; intros i out Hf; [lia|].
  cbn [while_loop].
  destruct (Nat.ltb_spec i (List.length ts)) as [Hlt|Hge];
    [|rewrite skipn_all2 by lia; now rewrite List.app_nil_r].
  assert (Hs : separator_token (nth i ts "")).
  { assert (Hin : In (nth i ts "") ts) by (now apply nth_In).
    revert Hin. now apply Forall_forall. }
  rewrite (fullmatch_word_separator _ Hs), (skipn_nth ts i Hlt).
  rewrite IH by lia. now rewrite <- List.app_assoc.
Qed.

Lemma joined_stripped_separators (ts : list string) :
  Forall separator_token ts -> joined_stripped ts = String.concat "" ts.
Proof.
  induction 1 as [|u ts Hu Hts IH]; [reflexivity|].
  destruct ts as [|v ts]; [reflexivity|].
  change (joined_stripped (u :: v :: ts))
    with (unit_text u ++ joined_stripped (v :: ts))%string.
  rewrite (unit_text_separator u Hu), IH. now rewrite (concat_cons u (v :: ts)).
Qed.

(** A text without word characters (empty, blank, punctuation only)
    comes back without its whitespace, whatever the parser: the parser
    is not consulted. *)
Theorem text_without_words :
  forall (P : string -> pyres pynum) (text : string),
    PyStr.forallb (fun c => negb (PyStr.is_word c)) text = true ->
    replace_number_words P text "en" = Some (Returns (drop_spaces text)).
Proof.
  intros P text H. pose proof (tokenize_no_word text H) as Hsep.
  unfold replace_number_words, normalize_en.
  cbn [String.eqb Ascii.eqb Bool.eqb negb].
  rewrite (while_loop_separators P _ Hsep) by lia. cbn [app skipn].
  assert (Htok : Forall token (tokenize text)).
  { eapply Forall_impl; [|exact Hsep]. intros t Ht. now right. }
  rewrite (reassemble_stripped _ Htok), (joined_stripped_separators _ Hsep).
  now rewrite tokenize_concat.
Qed.

Lemma text_without_words_witness :
  replace_number_words (fun _ => Raises IndexError) " ... ?! " "en"
  = Some (Returns "...?!").
Proof.
  apply (text_without_words (fun _ => Raises IndexError) " ... ?! ").
  reflexivity.
Defined.

(** Joining tokens and reading the result again gives the tokens back;
    so joining the tokens of a text a second time changes nothing. *)
Theorem tokenize_reassemble_round_trip :
  (forall ts, Forall token ts -> tokenize (reassemble ts) = ts)
  /\ (forall text,
        reassemble (tokenize (reassemble (tokenize text)))
        = reassemble (tokenize text)).
Proof.
  assert (H : forall ts, Forall token ts -> tokenize (reassemble ts) = ts).
  { intros ts Hts. rewrite (reassemble_stripped ts Hts).
    now apply tokenize_joined_stripped. }
  split; [exact H|].
  intros text. now rewrite (H _ (tokenize_tokens text)).
Qed.

Lemma tokenize_reassemble_round_trip_witness :
  tokenize (reassemble ["Hello"; ","; "world"; "."]) = ["Hello"; ","; "world"; "."].
Proof.
  destruct tokenize_reassemble_round_trip as (H & _).
  apply H.
  repeat (apply Forall_cons;
          [first [ left; split; [discriminate | reflexivity]
                 | right; eexists; split; reflexivity ]|]).
  apply Forall_nil.
Defined.

(** ** The highlighter *)

Lemma highlight_pieces_without_digits (s : string) :
  forall prev,
    PyStr.forallb (fun c => negb (PyStr.isdecimal_char c)) s = true ->
    Re.sub_pieces hl (Re.scan number_re prev 0 s) = s.
Proof.
  induction s as [|c s IH]; intros prev H; [reflexivity|].
  cbn [PyStr.forallb] in H. apply andb_prop in H as [Hc Hs].
  apply negb_true_iff in Hc.
  cbn [Re.scan]. rewrite number_match_at. cbn zeta. cbn [Re.run]. rewrite Hc.
  cbn [Nat.ltb Nat.leb]. rewrite andb_false_r. cbn [andb].
  cbn [Re.sub_pieces fold_right]. f_equal. now apply IH.
Qed.

(** A text without a decimal digit is left as it is. *)
Theorem highlight_without_digits :
  forall text,
    PyStr.forallb (fun c => negb (PyStr.isdecimal_char c)) text = true ->
    highlight_numbers text = text.
Proof. intros text H. now apply highlight_pieces_without_digits. Qed.

Lemma highlight_without_digits_witness :
  highlight_numbers "no speech, at all!" = "no speech, at all!".
Proof. apply (highlight_without_digits "no speech, at all!"). reflexivity. Defined.

Lemma run_drop_head (p : ascii -> bool) (s : string) :
  match Re.head (PyStr.drop (Re.run p s) s) with
  | Some c => p c = false
  | None => True
  end.
Proof.
  induction s as [|c s IH]; simpl; [exact I|].
  destruct (p c) eqn:E; simpl; [exact IH | exact E].
Qed.

(** A text that starts with a word character is a run of word
    characters and a rest that does not start with one. *)
Lemma leading_word (c : ascii) (s : string) :
  PyStr.is_word c = true ->
  exists w post,
    String c s = (w ++ post)%string
    /\ w <> ""
    /\ PyStr.forallb PyStr.is_word w = true
    /\ Re.word_at (Re.head post) = false
    /\ String.length post <= String.length s.
Proof.
  intros Hc.
  exists (PyStr.take (Re.run PyStr.is_word (String c s)) (String c s)),
         (PyStr.drop (Re.run PyStr.is_word (String c s)) (String c s)).
  split; [now rewrite take_drop|].
  split; [cbn [Re.run]; rewrite Hc; discriminate|].
  split; [apply run_take|].
  split.
  - pose proof (run_drop_head PyStr.is_word (String c s)) as H.
    destruct (Re.head _); [exact H | reflexivity].
  - rewrite length_drop. cbn [Re.run]. rewrite Hc. cbn [String.length]. lia.
Qed.

Lemma highlight_head (post : string) :
  Re.word_at (Re.head post) = false ->
  Re.word_at (Re.head (highlight_numbers post)) = false.
Proof.
  destruct post as [|c s]; [reflexivity|]. cbn [Re.head Re.word_at].
  intros Hc. now rewrite (highlight_nonword c s Hc).
Qed.

Lemma highlight_marked (w rest : string) :
  PyStr.forallb PyStr.isdecimal_char w = true ->
  Re.word_at (Re.head rest) = false ->
  highlight_numbers (hl w ++ rest) = (hl w ++ highlight_numbers rest)%string.
Proof.
  intros Hw Hrest. unfold hl, Fore_YELLOW, Style_RESET_ALL.
  cbn [append].
  rewrite highlight_nonword by reflexivity.
  rewrite highlight_nonword by reflexivity.
  change (String "3" (String "3" (String "m" ((w ++ String ESC "[0m") ++ rest))))
    with ("33m" ++ ((w ++ String ESC "[0m") ++ rest))%string.
  rewrite append_assoc. rewrite <- (append_assoc "33m" w).
  rewrite highlight_word.
  - unfold mark.
    assert (Hm : PyStr.forallb PyStr.isdecimal_char ("33m" ++ w) = false) by reflexivity.
    rewrite Hm. cbn [append].
    rewrite highlight_nonword by reflexivity.
    rewrite highlight_nonword by reflexivity.
    change (String "0" (String "m" rest)) with ("0m" ++ rest)%string.
    rewrite highlight_word; [| discriminate | reflexivity | exact Hrest].
    unfold mark. cbn [PyStr.forallb]. cbn [append].
    rewrite !append_assoc. reflexivity.
  - discriminate.
  - cbn [append PyStr.forallb]. cbn. now apply decimal_word.
  - reflexivity.
Qed.

Lemma highlight_idempotent_bounded (n : nat) :
  forall s, String.length s <= n ->
            highlight_numbers (highlight_numbers s) = highlight_numbers s.
Proof.
  induction n as [|n IH]; intros s Hlen.
  - destruct s; [reflexivity | simpl in Hlen; lia].
  - destruct s as [|c s]; [reflexivity|]. cbn [String.length] in Hlen.
    destruct (PyStr.is_word c) eqn:Hc.
    + destruct (leading_word c s Hc) as (w & post & -> & Hne & Hw & Hpost & Hl).
      rewrite (highlight_word w post Hne Hw Hpost).
      pose proof (highlight_head post Hpost) as Hh.
      unfold mark. destruct (PyStr.forallb PyStr.isdecimal_char w) eqn:Hd.
      * rewrite (highlight_marked w _ Hd Hh). now rewrite IH by lia.
      * rewrite (highlight_word w _ Hne Hw Hh). unfold mark. rewrite Hd.
        now rewrite IH by lia.
    + rewrite (highlight_nonword c s Hc), (highlight_nonword c _ Hc).
      now rewrite IH by lia.
Qed.

(** Highlighting a highlighted text changes nothing: a marked number is
    not marked again, and the digits inside the markers are not
    numbers. *)
Theorem highlight_idempotent :
  forall text,
    highlight_numbers (highlight_numbers text) = highlight_numbers text.
Proof. intros text. now apply (highlight_idempotent_bounded (String.length text)). Qed.

(** ** Highlighting what the normaliser joined *)

Lemma rstrip_no_space (u : string) : no_space u = true -> PyStr.rstrip u = u.
Proof.
  unfold no_space. induction u as [|c u IH]; [reflexivity|].
  cbn [PyStr.forallb]. intros H. apply andb_prop in H as [Hc Hu].
  apply negb_true_iff in Hc. rewrite rstrip_cons, (IH Hu), Hc. now destruct u.
Qed.

Lemma unit_text_cases (u : string) :
  unit_text u = u \/ unit_text u = (u ++ " ")%string.
Proof. unfold unit_text. destruct (Re.fullmatch nonword_re u); auto. Qed.

Lemma reassemble_units (out : list string) :
  Forall (fun u => u <> "" /\ no_space u = true) out ->
  reassemble out = joined_stripped out.
Proof.
  intros H. unfold reassemble, PyStr.strip.
  assert (Hl : PyStr.lstrip (String.concat "" (List.map unit_text out))
               = String.concat "" (List.map unit_text out)).
  { destruct H as [|u out [Hne Hu] Hout]; [reflexivity|].
    cbn [List.map]. rewrite concat_cons.
    destruct u as [|c u]; [congruence|].
    unfold no_space in Hu. cbn [PyStr.forallb] in Hu.
    apply andb_prop in Hu as [Hc _]. apply negb_true_iff in Hc.
    destruct (unit_text_cases (String c u)) as [-> | ->];
      cbn [append PyStr.lstrip]; now rewrite Hc. }
  rewrite Hl. clear Hl.
  induction H as [|u out [Hne Hu] Hout IH]; [reflexivity|].
  cbn [List.map]. rewrite concat_cons.
  destruct out as [|v out].
  - cbn [List.map String.concat joined_stripped]. rewrite append_nil_r.
    destruct (unit_text_cases u) as [-> | ->];
      [now apply rstrip_no_space | now apply rstrip_app_space].
  - rewrite rstrip_app; rewrite IH.
    + reflexivity.
    + inversion Hout as [|v' out' [Hv _] _]; subst.
      destruct v as [|d v]; [congruence|].
      destruct out as [|x out]; [discriminate|].
      cbn [joined_stripped].
      destruct (unit_text_cases (String d v)) as [-> | ->]; discriminate.
Qed.

Lemma mark_separator (u : string) : separator_token u -> mark u = u.
Proof.
  intros (c & -> & Hc). unfold mark. cbn [PyStr.forallb].
  now rewrite (nonword_not_decimal c (separator_not_word c Hc)).
Qed.

Lemma mark_unit (u : string) :
  token u -> mark u <> "" /\ no_space (mark u) = true.
Proof.
  intros Hu. unfold mark.
  destruct (PyStr.forallb PyStr.isdecimal_char u) eqn:Hd.
  - split; [discriminate|]. unfold hl, no_space, Fore_YELLOW, Style_RESET_ALL.
    cbn [append PyStr.forallb]. change (negb (PyStr.is_space ESC)) with true.
    change (negb (PyStr.is_space "[")) with true.
    change (negb (PyStr.is_space "3")) with true.
    change (negb (PyStr.is_space "m")) with true.
    cbn [andb]. clear Hu.
    induction u as [|c u IH]; [reflexivity|].
    cbn [PyStr.forallb] in Hd. apply andb_prop in Hd as [Hc Hd].
    cbn [append PyStr.forallb].
    rewrite (word_not_space c (decimal_is_word c Hc)). cbn [negb andb]. now apply IH.
  - destruct Hu as [[Hne Hw] | Hs].
    + split; [exact Hne | now apply word_no_space].
    + destruct Hs as (c & -> & Hc). split; [discriminate|].
      unfold no_space, is_separator in *. cbn [PyStr.forallb].
      apply negb_true_iff, orb_false_iff in Hc. destruct Hc as [_ ->]. reflexivity.
Qed.

Lemma unit_text_mark_word (u : string) :
  word_token u -> unit_text (mark u) = (mark u ++ " ")%string.
Proof.
  intros Hu. unfold mark.
  destruct (PyStr.forallb PyStr.isdecimal_char u); [reflexivity|].
  now apply unit_text_word.
Qed.

Lemma highlight_joined (out : list string) :
  Forall token out ->
  highlight_numbers (joined_stripped out) = joined_stripped (List.map mark out).
Proof.
  induction 1 as [|u out Hu Hout IH]; [reflexivity|].
  destruct out as [|v out].
  - cbn [List.map joined_stripped]. destruct Hu as [[Hne Hw] | Hs].
    + rewrite <- (append_nil_r u) at 1.
      rewrite highlight_word by auto. now rewrite highlight_nil, append_nil_r.
    + rewrite (mark_separator u Hs). destruct Hs as (c & -> & Hc).
      now rewrite (highlight_nonword c "" (separator_not_word c Hc)).
  - change (joined_stripped (u :: v :: out))
      with (unit_text u ++ joined_stripped (v :: out))%string.
    change (joined_stripped (List.map mark (u :: v :: out)))
      with (unit_text (mark u) ++ joined_stripped (List.map mark (v :: out)))%string.
    rewrite <- IH. destruct Hu as [Hw | Hs].
    + rewrite (unit_text_word u Hw), (unit_text_mark_word u Hw), !append_assoc.
      destruct Hw as [Hne Hw].
      rewrite highlight_word by auto. cbn [append].
      now rewrite highlight_nonword by reflexivity.
    + rewrite (mark_separator u Hs), (unit_text_separator u Hs).
      destruct Hs as (c & -> & Hc). cbn [append].
      now rewrite (highlight_nonword c _ (separator_not_word c Hc)).
Qed.

(** Highlighting commutes with the joining of the units: in a text the
    normaliser has joined, the units that are numbers are marked and the
    others, and the spacing, are as they were. *)
Theorem highlight_reassemble :
  forall out,
    Forall token out ->
    highlight_numbers (reassemble out) = reassemble (List.map mark out).
Proof.
  intros out Hout.
  rewrite (reassemble_stripped out Hout), (highlight_joined out Hout).
  symmetry. apply reassemble_units.
  apply Forall_forall. intros m Hm. apply in_map_iff in Hm as (u & <- & Hu).
  apply mark_unit. revert u Hu. now apply Forall_forall.
Qed.

Lemma highlight_reassemble_witness :
  highlight_numbers (reassemble ["the"; "7"; "fox"; "."])
  = reassemble ["the"; hl "7"; "fox"; "."].
Proof.
  apply (highlight_reassemble ["the"; "7"; "fox"; "."]).
  repeat (apply Forall_cons;
          [first [ left; split; [discriminate | reflexivity]
                 | right; eexists; split; reflexivity ]|]).
  apply Forall_nil.
Defined.

(** ** The devices listed *)

Lemma list_input_devices_fold (l : list device) :
  forall k acc,
    fold_left
      (fun input_devices (entry : nat * device) =>
         let (idx, dev) := entry in
         if (0 <? max_input_channels dev)%Z
         then input_devices ++ [(idx, name dev)]
         else input_devices)
      (combine (seq k (List.length l)) l) acc
    = acc ++ List.map (fun entry : nat * device => (fst entry, name (snd entry)))
               (filter (fun entry : nat * device => (0 <? max_input_channels (snd entry))%Z)
                       (combine (seq k (List.length l)) l)).
Proof.
  induction l as [|d l IH]; intros k acc; [cbn; now rewrite List.app_nil_r|].
  cbn [List.length seq combine fold_left filter snd].
  rewrite IH. destruct (0 <? max_input_channels d)%Z; [|reflexivity].
  cbn [List.map fst snd]. now rewrite <- List.app_assoc.
Qed.

Lemma list_input_devices_filter (devices : list device) :
  list_input_devices devices
  = List.map (fun entry : nat * device => (fst entry, name (snd entry)))
      (filter (fun entry : nat * device => (0 <? max_input_channels (snd entry))%Z)
              (enumerate devices)).
Proof. unfold list_input_devices, enumerate. now rewrite list_input_devices_fold. Qed.

Lemma enumerate_in {A : Type} (l : list A) :
  forall k i (a : A),
    In (i, a) (combine (seq k (List.length l)) l)
    <-> k <= i /\ nth_error l (i - k) = Some a.
Proof.
  induction l as [|x l IH]; intros k i a.
  - cbn. split; [tauto|]. intros [_ H]. destruct (i - k); discriminate.
  - cbn [List.length seq combine In]. rewrite IH. split.
    + intros [[= <- <-] | [Hk Hn]].
      * split; [lia|]. now rewrite Nat.sub_diag.
      * split; [lia|]. replace (i - k) with (S (i - S k)) by lia. exact Hn.
    + intros [Hk Hn]. destruct (Nat.eq_dec i k) as [->|Hne].
      * left. rewrite Nat.sub_diag in Hn. cbn in Hn. congruence.
      * right. split; [lia|].
        replace (i - k) with (S (i - S k)) in Hn by lia. exact Hn.
Qed.

Lemma increasing_filtered {A : Type} (f : nat * A -> bool) (l : list A) :
  forall k,
    increasing (List.map fst (filter f (combine (seq k (List.length l)) l)))
    /\ forall b, In b (List.map fst (filter f (combine (seq k (List.length l)) l))) ->
                 k <= b.
Proof.
  induction l as [|x l IH]; intros k; [cbn; tauto|].
  cbn [List.length seq combine filter].
  destruct (IH (S k)) as [Hinc Hlow].
  destruct (f (k, x)).
  - cbn [List.map fst increasing In]. split.
    + split; [|exact Hinc]. intros b Hb. apply Hlow in Hb. lia.
    + intros b [<-|Hb]; [lia|]. apply Hlow in Hb. lia.
  - split; [exact Hinc|]. intros b Hb. apply Hlow in Hb. lia.
Qed.

Lemma list_input_devices_in (devices : list device) (idx : nat) (nm : string) :
  In (idx, nm) (list_input_devices devices)
  <-> exists dev,
        nth_error devices idx = Some dev
        /\ (0 < max_input_channels dev)%Z
        /\ name dev = nm.
Proof.
  rewrite list_input_devices_filter, in_map_iff. split.
  - intros ([i d] & [= <- <-] & Hin). apply filter_In in Hin as [Hin Hpos].
    unfold enumerate in Hin. apply enumerate_in in Hin as [_ Hn].
    rewrite Nat.sub_0_r in Hn. exists d. cbn [snd fst] in *.
    repeat split; auto. now apply Z.ltb_lt.
  - intros (d & Hn & Hpos & <-). exists (idx, d). split; [reflexivity|].
    apply filter_In. split.
    + unfold enumerate. apply enumerate_in. split; [lia|].
      now rewrite Nat.sub_0_r.
    + now apply Z.ltb_lt.
Qed.

(** The list holds exactly the devices with an input channel, each
    under its index in [devices] and with its name, in the order of the
    indices. *)
Theorem list_input_devices_exact :
  forall devices,
    (forall idx nm,
        In (idx, nm) (list_input_devices devices)
        <-> exists dev,
              nth_error devices idx = Some dev
              /\ (0 < max_input_channels dev)%Z
              /\ name dev = nm)
    /\ increasing (List.map fst (list_input_devices devices)).
Proof.
  intros devices. split; [apply list_input_devices_in|].
  rewrite list_input_devices_filter, List.map_map. cbn [fst].
  unfold enumerate.
  exact (proj1 (increasing_filtered
                  (fun entry : nat * device => (0 <? max_input_channels (snd entry))%Z)
                  devices 0)).
Qed.

Lemma list_input_devices_exact_witness :
  In (1, "USB mic")
     (list_input_devices [ {| name := "HDMI out"; max_input_channels := 0 |};
                           {| name := "USB mic"; max_input_channels := 2 |} ]).
Proof.
  apply (proj1 (list_input_devices_exact
                  [ {| name := "HDMI out"; max_input_channels := 0 |};
                    {| name := "USB mic"; max_input_channels := 2 |} ])).
  exists {| name := "USB mic"; max_input_channels := 2 |}.
  repeat split.
Defined.

(** ** The answers [run] reads *)

(** [any] with an answer that [int] accepts: whether the number is the
    index of an entry. *)
Lemma any_index_accepted (sel : string) (m : Z) (l : list (nat * string)) :
  PyStr.int_of_digits sel = Returns m ->
  any_index sel l
  = Returns (existsb (fun entry => (Z.of_nat (fst entry) =? m)%Z) l).
Proof.
  intros Hm. induction l as [|[idx nm] l IH]; cbn [any_index]; [reflexivity|].
  rewrite Hm. cbn [bind existsb fst].
  destruct (Z.of_nat idx =? m)%Z; [reflexivity | exact IH].
Qed.

(** The number is the index of an entry exactly when the device of that
    index has an input channel. *)
Lemma listed_index (devices : list device) (m : Z) :
  (0 <= m)%Z ->
  existsb (fun entry : nat * string => (Z.of_nat (fst entry) =? m)%Z)
          (list_input_devices devices) = true
  <-> exists dev, nth_error devices (Z.to_nat m) = Some dev
                  /\ (0 < max_input_channels dev)%Z.
Proof.
  intros Hm. rewrite existsb_exists. split.
  - intros ([idx nm] & Hin & Heq). cbn [fst] in Heq. apply Z.eqb_eq in Heq.
    apply list_input_devices_in in Hin as (dev & Hn & Hpos & _).
    exists dev. subst m. now rewrite Nat2Z.id.
  - intros (dev & Hn & Hpos). exists (Z.to_nat m, name dev). split.
    + apply list_input_devices_in. now exists dev.
    + cbn [fst]. apply Z.eqb_eq. lia.
Qed.

(** What [run] makes of the answer to "Select device index": the
    microphone index is the number the answer spells when that is the
    index of a device with an input channel, and it stays None when the
    answer is not made of digits, when no device is listed, or when the
    number is the index of no device or of one without input
    channel. *)
Theorem chosen_microphone_has_input :
  forall devices answer,
    (forall n,
        mic_index_of answer (list_input_devices devices) = Returns (Some n)
        <-> (PyStr.isdigit (PyStr.strip answer) = true
             /\ PyStr.int_of_digits (PyStr.strip answer) = Returns n
             /\ exists dev, nth_error devices (Z.to_nat n) = Some dev
                            /\ (0 < max_input_channels dev)%Z))
    /\ (mic_index_of answer (list_input_devices devices) = Returns None
        <-> (PyStr.isdigit (PyStr.strip answer) = false
             \/ list_input_devices devices = []
             \/ exists m,
                  PyStr.int_of_digits (PyStr.strip answer) = Returns m
                  /\ forall dev, nth_error devices (Z.to_nat m) = Some dev ->
                                 (max_input_channels dev <= 0)%Z)).
Proof.
  intros devices answer. unfold mic_index_of. cbn zeta.
  destruct (PyStr.isdigit (PyStr.strip answer)) eqn:Hd.
  2:{ split.
      - intros n. split; [discriminate | now intros [H _]].
      - split; [now left | reflexivity]. }
  destruct (PyStr.int_of_digits (PyStr.strip answer)) as [m|e] eqn:Hm.
  - pose proof (int_of_digits_nonneg _ _ Hm) as Hpos.
    rewrite (any_index_accepted _ m _ Hm). cbn [bind].
    pose proof (listed_index devices m Hpos) as Hlisted.
    destruct (existsb _ (list_input_devices devices)) eqn:Hex; cbn [bind].
    + destruct (proj1 Hlisted eq_refl) as (dev & Hn & Hch). split.
      * intros n. split.
        -- intros [= <-]. repeat split. now exists dev.
        -- now intros (_ & [= <-] & _).
      * split; [discriminate|].
        intros [H | [H | (m' & [= <-] & Hnone)]]; [discriminate | |].
        -- rewrite H in Hex. discriminate.
        -- apply Hnone in Hn. lia.
    + split.
      * intros n. split; [discriminate|].
        intros (_ & [= <-] & Hdev). apply Hlisted in Hdev. discriminate.
      * split; [|reflexivity]. intros _. right. right. exists m.
        split; [reflexivity|]. intros dev Hn.
        destruct (Z.leb_spec (max_input_channels dev) 0) as [Hle|Hgt]; [exact Hle|].
        assert (H : false = true) by (apply Hlisted; now exists dev).
        discriminate H.
  - destruct (list_input_devices devices) as [|[idx nm] l] eqn:Hl.
    + cbn [any_index bind]. split.
      * intros n. split; [discriminate | now intros (_ & [=] & _)].
      * split; [now right; left | reflexivity].
    + cbn [any_index]. rewrite Hm. cbn [bind]. split.
      * intros n. split; [discriminate | now intros (_ & [=] & _)].
      * split; [discriminate|].
        intros [H | [H | (m' & [=] & _)]]; discriminate.
Qed.

Lemma chosen_microphone_has_input_witness :
  mic_index_of " 01 " (list_input_devices
                         [ {| name := "speakers"; max_input_channels := 0 |};
                           {| name := "mic"; max_input_channels := 2 |} ])
  = Returns (Some 1%Z)
  /\ mic_index_of "0" (list_input_devices
                         [ {| name := "speakers"; max_input_channels := 0 |};
                           {| name := "mic"; max_input_channels := 2 |} ])
     = Returns None.
Proof.
  destruct (chosen_microphone_has_input
              [ {| name := "speakers"; max_input_channels := 0 |};
                {| name := "mic"; max_input_channels := 2 |} ] " 01 ") as [Hsome _].
  destruct (chosen_microphone_has_input
              [ {| name := "speakers"; max_input_channels := 0 |};
                {| name := "mic"; max_input_channels := 2 |} ] "0") as [_ Hnone].
  split.
  - apply Hsome. split; [reflexivity|]. split; [reflexivity|].
    exists {| name := "mic"; max_input_channels := 2 |}. split; reflexivity.
  - apply Hnone. right. right. exists 0%Z. split; [reflexivity|].
    intros dev [= <-]. simpl. lia.
Defined.

(** An answer that [isdigit] accepts and [int] does not (a superscript
    digit) makes [run] raise ValueError, for the duration and, when
    devices are listed, for the device. *)
Theorem superscript_answer_raises :
  forall answer,
    PyStr.isdigit (PyStr.strip answer) = true ->
    PyStr.forallb PyStr.isdecimal_char (PyStr.strip answer) = false ->
    duration_of answer = Raises ValueError
    /\ forall d ds, mic_index_of answer (d :: ds) = Raises ValueError.
Proof.
  intros answer Hd Hn.
  assert (Hi : PyStr.int_of_digits (PyStr.strip answer) = Raises ValueError).
  { unfold PyStr.int_of_digits. now rewrite Hn, andb_false_r. }
  split.
  - unfold duration_of. cbn zeta. now rewrite Hd.
  - intros [idx nm] ds. unfold mic_index_of. cbn zeta. rewrite Hd.
    cbn [any_index]. now rewrite Hi.
Qed.

Lemma superscript_answer_raises_witness :
  duration_of (String (ascii_of_N 178) "") = Raises ValueError
  /\ forall d ds, mic_index_of (String (ascii_of_N 178) "") (d :: ds) = Raises ValueError.
Proof.
  apply (superscript_answer_raises (String (ascii_of_N 178) "")); reflexivity.
Defined.

(** The duration is never negative, and an answer that is not a string
    of digits (blank, a sign, a fraction) gives 5 seconds. *)
Theorem duration_of_answer :
  forall answer,
    (PyStr.isdigit (PyStr.strip answer) = false -> duration_of answer = Returns 5%Z)
    /\ (forall n, duration_of answer = Returns n -> (0 <= n)%Z).
Proof.
  intros answer. unfold duration_of. cbn zeta.
  destruct (PyStr.isdigit (PyStr.strip answer)); split; try discriminate.
  - intros n Hn. now apply int_of_digits_nonneg in Hn.
  - reflexivity.
  - intros n [= <-]. lia.
Qed.

Lemma duration_of_answer_witness :
  duration_of " -3 " = Returns 5%Z /\ duration_of "2.5" = Returns 5%Z.
Proof.
  split.
  - apply (proj1 (duration_of_answer " -3 ")). reflexivity.
  - apply (proj1 (duration_of_answer "2.5")). reflexivity.
Defined.

Lemma other_language_returns_text (P : string -> pyres pynum) (text language : string) :
  language <> "en" -> replace_number_words P text language = Some (Returns text).
Proof.
  intros H. unfold replace_number_words.
  destruct (String.eqb_spec language "en") as [->|_]; [congruence | reflexivity].
Qed.

(** An answer that names none of the three languages is recognised as
    English ('en-US') and yet its number words are not converted: the
    text is only highlighted. *)
Theorem unknown_language_code :
  forall (P : string -> pyres pynum) (answer text : string),
    lang_code_of answer <> "en" ->
    lang_code_of answer <> "ru" ->
    lang_code_of answer <> "kk" ->
    language_of (lang_code_of answer) = "en-US"
    /\ postprocess P text (lang_code_of answer)
       = Some (Returns (highlight_numbers text)).
Proof.
  intros P answer text Hen Hru Hkk. split.
  - unfold language_of, LANGUAGES. cbn [dict_get].
    destruct (String.eqb_spec (lang_code_of answer) "en"); [congruence|].
    destruct (String.eqb_spec (lang_code_of answer) "ru"); [congruence|].
    destruct (String.eqb_spec (lang_code_of answer) "kk"); [congruence|].
    reflexivity.
  - unfold postprocess. now rewrite other_language_returns_text.
Qed.

Lemma unknown_language_code_witness :
  language_of (lang_code_of " English ") = "en-US"
  /\ postprocess W2N.word_to_num "twenty three" (lang_code_of " English ")
     = Some (Returns (highlight_numbers "twenty three")).
Proof.
  apply (unknown_language_code W2N.word_to_num " English " "twenty three");
    discriminate.
Defined.

(** ** The retry loop of [transcribe_file] *)

Section RetryLoop.

Variable recognize_google : nat -> recognition.
Variable retries : Z.

Lemma attempt_loop_unknown (a : nat) (rest : list nat) :
  recognize_google a = UnknownValueError ->
  attempt_loop recognize_google retries (a :: rest)
  = (fst (attempt_loop recognize_google retries rest),
     Recognize a
     :: (if (Z.of_nat a <? retries - 1)%Z then [Sleep 1] else [])
        ++ snd (attempt_loop recognize_google retries rest)).
Proof.
  intros H. cbn [attempt_loop]. rewrite H.
  now destruct (attempt_loop recognize_google retries rest).
Qed.

(** The attempts [a, a+1, ..., a+m-1], the last of which is the last
    of the loop. *)
Lemma attempt_loop_decided (m : nat) :
  forall a k,
    Z.of_nat (a + m) = retries ->
    a <= k < a + m ->
    (forall j, a <= j < k -> recognize_google j = UnknownValueError) ->
    recognize_google k <> UnknownValueError ->
    let r := attempt_loop recognize_google retries (seq a m) in
    fst r = match recognize_google k with Recognized text => text | _ => "" end
    /\ recognize_calls (snd r) = S (k - a)
    /\ sleeps (snd r) = k - a.
Proof.
  induction m as [|m IH]; intros a k Hr Hk Hunk Hdec; [lia|].
  cbn [seq]. destruct (Nat.eq_dec k a) as [->|Hne].
  - cbn [attempt_loop]. rewrite Nat.sub_diag.
    destruct (recognize_google a); [repeat split | congruence | repeat split].
  - rewrite attempt_loop_unknown by (apply Hunk; lia).
    assert (Hs : (Z.of_nat a <? retries - 1)%Z = true) by (apply Z.ltb_lt; lia).
    rewrite Hs. cbn [fst snd].
    destruct (IH (S a) k) as (H1 & H2 & H3); try lia; auto.
    { intros j Hj. apply Hunk. lia. }
    cbn zeta in H1, H2, H3. split; [exact H1|]. split.
    + change (recognize_calls (Recognize a :: [Sleep 1] ++ ?e))
        with (S (recognize_calls e)). rewrite H2. lia.
    + change (sleeps (Recognize a :: [Sleep 1] ++ ?e)) with (S (sleeps e)).
      rewrite H3. lia.
Qed.

Lemma attempt_loop_undecided (m : nat) :
  forall a,
    Z.of_nat (a + m) = retries ->
    (forall j, a <= j < a + m -> recognize_google j = UnknownValueError) ->
    let r := attempt_loop recognize_google retries (seq a m) in
    fst r = "" /\ recognize_calls (snd r) = m /\ sleeps (snd r) = m - 1.
Proof.
  induction m as [|m IH]; intros a Hr Hunk; [repeat split|].
  cbn [seq]. rewrite attempt_loop_unknown by (apply Hunk; lia).
  destruct (IH (S a)) as (H1 & H2 & H3); try lia.
  { intros j Hj. apply Hunk. lia. }
  cbn zeta in H1, H2, H3. cbn [fst snd]. split; [exact H1|].
  destruct (Z.ltb_spec (Z.of_nat a) (retries - 1)) as [Hlt|Hge].
  - split.
    + change (recognize_calls (Recognize a :: [Sleep 1] ++ ?e))
        with (S (recognize_calls e)). now rewrite H2.
    + change (sleeps (Recognize a :: [Sleep 1] ++ ?e)) with (S (sleeps e)).
      rewrite H3. lia.
  - assert (m = 0) as -> by lia. repeat split.
Qed.

End RetryLoop.



Lemma attempt_loop_calls (recognize_google : nat -> recognition) (retries : Z)
      (a : nat) (rest : list nat) :
  1 <= recognize_calls (snd (attempt_loop recognize_google retries (a :: rest))).
Proof.
  destruct (recognize_google a) eqn:E.
  - cbn [attempt_loop]. rewrite E. cbn. lia.
  - rewrite attempt_loop_unknown by exact E. cbn [snd].
    destruct (Z.of_nat a <? retries - 1)%Z; cbn; lia.
  - cbn [attempt_loop]. rewrite E. cbn. lia.
Qed.

Lemma attempt_loop_bounded (recognize_google : nat -> recognition) (retries : Z)
      (m : nat) :
  forall a,
    Z.of_nat (a + m) = retries ->
    let events := snd (attempt_loop recognize_google retries (seq a m)) in
    recognize_calls events <= m /\ sleeps events <= recognize_calls events - 1.
Proof.
  induction m as [|m IH]; intros a Hr; [cbn; lia|].
  cbn zeta. cbn [seq]. destruct (recognize_google a) eqn:E.
  - cbn [attempt_loop]. rewrite E. cbn. lia.
  - rewrite attempt_loop_unknown by exact E. cbn [snd].
    destruct (IH (S a)) as [H1 H2]; [lia|]. cbn zeta in H1, H2.
    destruct (Z.ltb_spec (Z.of_nat a) (retries - 1)) as [Hlt|Hge].
    + change (recognize_calls (Recognize a :: [Sleep 1] ++ ?e))
        with (S (recognize_calls e)).
      change (sleeps (Recognize a :: [Sleep 1] ++ ?e)) with (S (sleeps e)).
      destruct m as [|m]; [lia|].
      pose proof (attempt_loop_calls recognize_google retries (S a) (seq (S (S a)) m)) as Hc.
      cbn [seq] in H1, H2 |- *. lia.
    + change (recognize_calls (Recognize a :: [] ++ ?e))
        with (S (recognize_calls e)).
      change (sleeps (Recognize a :: [] ++ ?e)) with (sleeps e).
      lia.
  - cbn [attempt_loop]. rewrite E. cbn. lia.
Qed.



(** ** [prepare_audio] and the extension of a path *)

Lemma rfind_from_app (c : ascii) (a b : string) :
  forall i last,
    PosixPath.rfind_from c (a ++ b) i last
    = PosixPath.rfind_from c b (i + Z.of_nat (String.length a))%Z
                           (PosixPath.rfind_from c a i last).
Proof.
  induction a as [|x a IH]; intros i last.
  - cbn. now rewrite Z.add_0_r.
  - cbn [append PosixPath.rfind_from String.length]. rewrite IH. f_equal. lia.
Qed.

Lemma rfind_from_range (c : ascii) (p : string) :
  forall i last,
    PosixPath.rfind_from c p i last = last
    \/ (i <= PosixPath.rfind_from c p i last < i + Z.of_nat (String.length p))%Z.
Proof.
  induction p as [|x p IH]; intros i last; [now left|].
  cbn [PosixPath.rfind_from String.length].
  destruct (IH (i + 1)%Z (if Ascii.eqb x c then i else last)) as [H|H].
  - rewrite H. destruct (Ascii.eqb x c); [right; lia | now left].
  - right. lia.
Qed.

Lemma length_take (n : nat) (s : string) :
  n <= String.length s -> String.length (PyStr.take n s) = n.
Proof.
  revert s. induction n as [|n IH]; intros [|c s] H; cbn in *; try lia.
  rewrite IH; lia.
Qed.

Lemma not_dot_at_app (a b : string) (k : nat) :
  k < String.length a ->
  PosixPath.not_dot_at (a ++ b) k = PosixPath.not_dot_at a k.
Proof.
  unfold PosixPath.not_dot_at. revert a.
  induction k as [|k IH]; intros [|c a] H; cbn in H; try lia.
  - reflexivity.
  - cbn [append PyStr.drop]. apply IH. lia.
Qed.

Lemma finds_name_app (a b : string) (n : nat) :
  forall k,
    k + n <= String.length a ->
    PosixPath.finds_name (a ++ b) k n = PosixPath.finds_name a k n.
Proof.
  induction n as [|n IH]; intros k H; [reflexivity|].
  cbn [PosixPath.finds_name]. rewrite not_dot_at_app by lia.
  rewrite IH by lia. reflexivity.
Qed.

Lemma rfind_take (c : ascii) (p : string) (k : nat) :
  (PosixPath.rfind c p < Z.of_nat k)%Z ->
  k <= String.length p ->
  PosixPath.rfind c (PyStr.take k p) = PosixPath.rfind c p.
Proof.
  intros Hlt Hk. unfold PosixPath.rfind in *.
  pose proof (rfind_from_app c (PyStr.take k p) (PyStr.drop k p) 0 (-1)) as Happ.
  rewrite take_drop, length_take in Happ by exact Hk.
  destruct (rfind_from_range c (PyStr.drop k p) (0 + Z.of_nat k)
              (PosixPath.rfind_from c (PyStr.take k p) 0 (-1))) as [H|H];
    rewrite <- Happ in H; [congruence | lia].
Qed.

Lemma finds_name_take (p : string) (m k n : nat) :
  k + n <= m ->
  m <= String.length p ->
  PosixPath.finds_name (PyStr.take m p) k n = PosixPath.finds_name p k n.
Proof.
  intros Hk Hm.
  rewrite <- (take_drop m p) at 2.
  rewrite finds_name_app; [reflexivity|]. rewrite length_take; lia.
Qed.

(** A path with an extension, its extension replaced by ".wav". *)
Lemma splitext_wav (p base ext : string) :
  PosixPath.splitext p = (base, ext) ->
  ext <> "" ->
  PosixPath.splitext (base ++ ".wav") = (base, ".wav").
Proof.
  unfold PosixPath.splitext at 1.
  destruct ((PosixPath.rfind "/" p <? PosixPath.rfind "." p)%Z && _) eqn:Hc;
    [|intros [= _ <-] H; congruence].
  intros [= <- _] _. apply andb_prop in Hc. destruct Hc as [Hsd Hfn].
  apply Z.ltb_lt in Hsd.
  assert (Hs : (-1 <= PosixPath.rfind "/" p)%Z).
  { unfold PosixPath.rfind.
    destruct (rfind_from_range "/" p 0 (-1)) as [H|H]; lia. }
  assert (Hd : (0 <= PosixPath.rfind "." p < Z.of_nat (String.length p))%Z).
  { unfold PosixPath.rfind in *.
    destruct (rfind_from_range "." p 0 (-1)) as [H|H]; lia. }
  assert (Hlen : String.length (PyStr.take (Z.to_nat (PosixPath.rfind "." p)) p)
                 = Z.to_nat (PosixPath.rfind "." p)) by (apply length_take; lia).
  assert (Hs' : PosixPath.rfind "/" (PyStr.take (Z.to_nat (PosixPath.rfind "." p)) p)
                = PosixPath.rfind "/" p) by (apply rfind_take; lia).
  unfold PosixPath.splitext.
  assert (Hdot : PosixPath.rfind "." (PyStr.take (Z.to_nat (PosixPath.rfind "." p)) p ++ ".wav")
                 = PosixPath.rfind "." p).
  { unfold PosixPath.rfind at 1. rewrite rfind_from_app, Hlen. cbn. lia. }
  assert (Hsep : PosixPath.rfind "/" (PyStr.take (Z.to_nat (PosixPath.rfind "." p)) p ++ ".wav")
                 = PosixPath.rfind "/" p).
  { unfold PosixPath.rfind at 1. rewrite rfind_from_app. cbn. exact Hs'. }
  rewrite Hdot, Hsep.
  apply Z.ltb_lt in Hsd. rewrite Hsd. cbn [andb]. apply Z.ltb_lt in Hsd.
  rewrite finds_name_app by lia.
  rewrite finds_name_take by lia. rewrite Hfn.
  pose proof (take_app (PyStr.take (Z.to_nat (PosixPath.rfind "." p)) p) ".wav") as Ht.
  pose proof (drop_app (PyStr.take (Z.to_nat (PosixPath.rfind "." p)) p) ".wav") as Hdr.
  rewrite Hlen in Ht, Hdr. rewrite Ht, Hdr. reflexivity.
Qed.

Lemma prepare_audio_wav (convert : string -> string -> string -> pyres unit)
      (path base ext : string) :
  PosixPath.splitext path = (base, ext) ->
  PyStr.lower ext = ".wav" ->
  prepare_audio convert path = Returns path.
Proof.
  intros H Hl. unfold prepare_audio. rewrite H, Hl. reflexivity.
Qed.

(** The path [prepare_audio] returns is one it returns unchanged and
    without converting anything: its extension is ".wav" in some letter
    case, whatever the conversion does. *)
Theorem prepare_audio_idempotent :
  forall (convert convert' : string -> string -> string -> pyres unit)
         (path wav : string),
    prepare_audio convert path = Returns wav ->
    PyStr.lower (snd (PosixPath.splitext wav)) = ".wav"
    /\ prepare_audio convert' wav = Returns wav.
Proof.
  intros convert convert' path wav. unfold prepare_audio at 1.
  destruct (PosixPath.splitext path) as [base ext] eqn:Hsplit.
  destruct (String.eqb_spec (PyStr.lower ext) ".wav") as [Hw|Hw].
  - intros [= <-]. rewrite Hsplit. split; [exact Hw|].
    eapply prepare_audio_wav; eauto.
  - destruct (existsb _ AUDIO_EXTS) eqn:Hin; [|discriminate].
    destruct (convert path _ _); [|discriminate].
    cbn [bind]. intros [= <-].
    assert (Hext : ext <> "") by (intros ->; discriminate Hin).
    pose proof (splitext_wav path base ext Hsplit Hext) as Hq.
    rewrite Hq. split; [reflexivity|].
    eapply prepare_audio_wav; eauto.
Qed.

Lemma prepare_audio_idempotent_witness :
  PyStr.lower (snd (PosixPath.splitext "takes/memo.v2.wav")) = ".wav"
  /\ prepare_audio (fun _ _ _ => Raises TypeError) "takes/memo.v2.wav"
     = Returns "takes/memo.v2.wav".
Proof.
  apply (prepare_audio_idempotent (fun _ _ _ => Returns tt) (fun _ _ _ => Raises TypeError)
                                  "takes/memo.v2.MP3" "takes/memo.v2.wav").
  reflexivity.
Defined.
